(** * asokapy: the PIB blob and the per-device protocol state machine

    A shallow embedding of [asokapy/pib.py], of [asokapy/device.py] and
    of the part of [asokapy/server.py] that reaches the devices (the two
    callbacks a device uses, the dispatch of frames and ticks over the
    table of devices, and the switching of an outlet by its address), and
    the properties of the PIB checksum, of the six-state device machine
    and of the dispatch.

    Conventions of the embedding:
    - Python [bytes] are [list byte]; Python integers are [Z]; a [struct]
      field of w bits is a [Z] in [0, 2^w).
    - A Python exception is a value [Raise e]; a function that may raise
      returns [result A].
    - Methods of [Device] mutate the device and call into the server, so
      they are functions in a state-and-exception monad over a [World]
      (the device and the server); the store survives a raise, as the
      Python objects do.
    - [time.time()] is a parameter [now] of each handler: every reading of
      the clock during one call is the same instant, counted in whole
      seconds.
    - Python's [float] type and the builtin [float(s)] are parameters of
      the device machine; the machine stores the power it parses and
      never computes with it. The builtin [int(x, 16)] is a parameter of
      the server in the same way.
    - The dict [_devices] is an association list in insertion order; a
      method of a device is run on the entry of its key and the entry
      replaced by what the method leaves.

    The definitions come first: the byte strings and [struct], [PIB], the
    text helpers, the monad, the device machine, the runs and invariants
    the properties speak of, the server, and the worlds and frames of the
    scenarios.
    The properties follow, each proved for every input, and after them
    the scenarios of the specification run on the model. *)

From Stdlib Require Import String Ascii Strings.Byte.
From Stdlib Require Import ZArith Bool Lia List.
Import ListNotations.

Local Open Scope Z_scope.

(** ** Exceptions and fallible results *)

Inductive exn : Type :=
| AssertionError
| StructError          (* struct.error *)
| IndexError
| ValueError
| UnicodeDecodeError
| AttributeError.

Inductive result (A : Type) : Type :=
| Ok (a : A)
| Raise (e : exn).
Arguments Ok {A} a.
Arguments Raise {A} e.

Definition rbind {A B} (r : result A) (k : A -> result B) : result B :=
  match r with
  | Ok a => k a
  | Raise e => Raise e
  end.

Declare Scope result_scope.
Delimit Scope result_scope with result.
Notation "x <- r ;; k" := (rbind r (fun x => k))
  (at level 61, r at next level, right associativity) : result_scope.
Notation "r ;;; k" := (rbind r (fun _ => k))
  (at level 61, right associativity) : result_scope.

(** [assert(c)] *)
Definition assert (c : bool) : result unit :=
  if c then Ok tt else Raise AssertionError.

(** ** Byte strings, slices and [struct] *)

Definition bytes := list byte.

Definition len {A} (l : list A) : Z := Z.of_nat (List.length l).

(** [l[i:j]], [l[i:]] and [l[:j]] for indices that are not negative (the
    source never slices with a negative index). *)
Definition slice {A} (l : list A) (i j : Z) : list A :=
  firstn (Z.to_nat (j - i)) (skipn (Z.to_nat i) l).
Definition slice_from {A} (l : list A) (i : Z) : list A :=
  skipn (Z.to_nat i) l.
Definition slice_to {A} (l : list A) (j : Z) : list A :=
  firstn (Z.to_nat j) l.

(** [range(0, stop, step)] *)
Definition range0 (stop step : Z) : list Z :=
  map (fun k => Z.of_nat k * step) (seq 0 (Z.to_nat ((stop + step - 1) / step))).

Definition byte_val (b : byte) : Z := Z.of_N (Byte.to_N b).

Definition byte_of (v : Z) : byte :=
  match Byte.of_N (Z.to_N v) with
  | Some b => b
  | None => x00
  end.

Module struct.

(** [struct.unpack('<B', d)[0]] *)
Definition unpack_B (d : bytes) : result Z :=
  match d with
  | [b0] => Ok (byte_val b0)
  | _ => Raise StructError
  end.

(** [struct.unpack('<H', d)[0]] *)
Definition unpack_H (d : bytes) : result Z :=
  match d with
  | [b0; b1] => Ok (byte_val b0 + 256 * byte_val b1)
  | _ => Raise StructError
  end.

(** [struct.unpack('<I', d)[0]] *)
Definition unpack_I (d : bytes) : result Z :=
  match d with
  | [b0; b1; b2; b3] =>
      Ok (byte_val b0 + 256 * byte_val b1 + 65536 * byte_val b2
          + 16777216 * byte_val b3)
  | _ => Raise StructError
  end.

(** [struct.unpack('<BxxxBxHI', d)] *)
Definition unpack_BxxxBxHI (d : bytes) : result (Z * Z * Z * Z) :=
  match d with
  | [s; _; _; _; m; _; l0; l1; o0; o1; o2; o3] =>
      Ok (byte_val s, byte_val m,
          byte_val l0 + 256 * byte_val l1,
          byte_val o0 + 256 * byte_val o1 + 65536 * byte_val o2
          + 16777216 * byte_val o3)
  | _ => Raise StructError
  end.

(** [struct.pack('<H', v)] *)
Definition pack_H (v : Z) : result bytes :=
  if (0 <=? v) && (v <? 65536)
  then Ok [byte_of (v mod 256); byte_of (v / 256 mod 256)]
  else Raise StructError.

(** [struct.pack('<I', v)] *)
Definition pack_I (v : Z) : result bytes :=
  if (0 <=? v) && (v <? 4294967296)
  then Ok [byte_of (v mod 256); byte_of (v / 256 mod 256);
           byte_of (v / 65536 mod 256); byte_of (v / 16777216 mod 256)]
  else Raise StructError.

End struct.

(** [2**32-1] *)
Definition mask32 : Z := 2 ^ 32 - 1.

(** The loop of [calc_cksum]: one step per index of [range(0, len(data), 4)]. *)
Definition cksum_step (data : bytes) (acc : result Z) (i : Z) : result Z :=
  (cksum <- acc ;;
   w <- struct.unpack_I (slice data i (i + 4)) ;;
   Ok (Z.land (Z.lxor cksum w) mask32))%result.

(** ** pib.py *)

Module PIB.

Record t : Type := mk { _pib : bytes }.

(** [PIB.calc_cksum] *)
Definition calc_cksum (data : bytes) : result Z :=
  (cksum <- fold_left (cksum_step data) (range0 (len data) 4) (Ok 0) ;;
   Ok (Z.land (Z.lnot cksum) mask32))%result.

(** [PIB.__len__] *)
Definition __len__ (self : t) : Z := len (_pib self).

(** [PIB.size] *)
Definition size (self : t) : result Z :=
  struct.unpack_H (slice (_pib self) 4 6).

(** [PIB.__init__] *)
Definition __init__ (pib : bytes) : result t :=
  (assert (8 <? len pib) ;;;
   let self := mk pib in
   s <- size self ;;
   assert (__len__ self <=? s) ;;;
   Ok self)%result.

(** [PIB.__add__] *)
Definition __add__ (self : t) (newdata : bytes) : result t :=
  __init__ (_pib self ++ newdata).

(** [PIB.is_complete] *)
Definition is_complete (self : t) : result bool :=
  (s <- size self ;; Ok (__len__ self =? s))%result.

(** [PIB.is_valid] *)
Definition is_valid (self : t) : result bool :=
  (c <- calc_cksum (_pib self) ;; Ok (c =? 0))%result.

(** [PIB.master_get] *)
Definition master_get (self : t) : bytes :=
  slice (_pib self) 0x2c8a 0x2c90.

(** [PIB.master_replace] *)
Definition master_replace (self : t) (newmac_bytes : bytes) : result t :=
  (let pib_data :=
     slice_to (_pib self) 8 ++ [x00; x00; x00; x00]
     ++ slice (_pib self) 12 0x2c8a in
   let pib_data := pib_data ++ newmac_bytes ++ slice_from (_pib self) 0x2c90 in
   c <- calc_cksum pib_data ;;
   packed <- struct.pack_I c ;;
   let new_pib := slice_to pib_data 8 ++ packed ++ slice_from pib_data 12 in
   c' <- calc_cksum new_pib ;;
   assert (c' =? 0) ;;;
   __init__ new_pib)%result.

End PIB.

(** ** Text helpers of device.py *)

(** [b.decode('ascii')] *)
Definition decode_ascii (b : bytes) : result string :=
  if forallb (fun c => byte_val c <? 128) b
  then Ok (string_of_list_byte b)
  else Raise UnicodeDecodeError.

(** The characters [str.strip()] removes: those for which [str.isspace]
    holds, below 128. *)
Definition isspace (c : ascii) : bool :=
  let n := Z.of_N (N_of_ascii c) in
  ((9 <=? n) && (n <=? 13)) || ((28 <=? n) && (n <=? 32)).

Fixpoint lstrip (s : string) : string :=
  match s with
  | String c s' => if isspace c then lstrip s' else s
  | EmptyString => EmptyString
  end.

(** Drops the trailing white space: a character is kept when it is not
    white space or something is kept after it. *)
Fixpoint rstrip (s : string) : string :=
  match s with
  | String c s' =>
      match rstrip s' with
      | EmptyString => if isspace c then EmptyString else String c EmptyString
      | r => String c r
      end
  | EmptyString => EmptyString
  end.

(** [s.strip()] *)
Definition strip (s : string) : string := rstrip (lstrip s).

(** [s.split(sep)] for a separator of one character *)
Fixpoint split (sep : ascii) (s : string) : list string :=
  match s with
  | EmptyString => [EmptyString]
  | String c s' =>
      if Ascii.eqb c sep then EmptyString :: split sep s'
      else match split sep s' with
           | h :: t => String c h :: t
           | [] => [String c EmptyString]
           end
  end.

(** [l[i]] for an index that is not negative *)
Definition index {A} (l : list A) (i : nat) : result A :=
  match nth_error l i with
  | Some a => Ok a
  | None => Raise IndexError
  end.

Definition bytes_eqb (a b : bytes) : bool :=
  if list_eq_dec Byte.byte_eq_dec a b then true else false.

(** ** The monad of the methods: a store and exceptions

    [SE S A] is a computation over a mutable store [S] that returns an [A]
    or raises; the store it leaves is kept in both cases. *)

Definition SE (S A : Type) : Type := S -> result A * S.

Definition ret {S A} (a : A) : SE S A := fun w => (Ok a, w).
Definition lift {S A} (r : result A) : SE S A := fun w => (r, w).
Definition bind {S A B} (m : SE S A) (k : A -> SE S B) : SE S B :=
  fun w => match m w with
           | (Ok a, w') => k a w'
           | (Raise e, w') => (Raise e, w')
           end.
Definition get {S} : SE S S := fun w => (Ok w, w).
Definition modify {S} (f : S -> S) : SE S unit := fun w => (Ok tt, f w).

(** [for x in l: body(x)] *)
Fixpoint for_each {S A} (l : list A) (body : A -> SE S unit) : SE S unit :=
  match l with
  | [] => ret tt
  | x :: l' => bind (body x) (fun _ => for_each l' body)
  end.

Declare Scope se_scope.
Delimit Scope se_scope with se.
Notation "x <- m ;; k" := (bind m (fun x => k))
  (at level 61, m at next level, right associativity) : se_scope.
Notation "m ;;; k" := (bind m (fun _ => k))
  (at level 61, right associativity) : se_scope.

(** ** device.py *)

Section DeviceMachine.

(** Python's [float] values and the builtin [float(s)] ([None]: it raises
    ValueError); the machine stores the power it parses and never
    computes with it. *)
Context {pyfloat : Type}.
Variable float : string -> option pyfloat.

Inductive State : Type :=
| DSProbing (last_sent num_sent : Z)
| DSProbingHP (last_sent : Z)
| DSReadPIB (start_time last_sent : Z) (pib : PIB.t)
| DSWritePIB (start_time last_sent pib_current_offset : Z) (pib : PIB.t)
| DSWritePIBToNVM (start_time last_sent : Z)
| DSRunning (last_sent last_received : Z).

(** [state.__class__] *)
Inductive StateClass : Type :=
| CProbing | CProbingHP | CReadPIB | CWritePIB | CWritePIBToNVM | CRunning.

Definition class_of (s : State) : StateClass :=
  match s with
  | DSProbing _ _ => CProbing
  | DSProbingHP _ => CProbingHP
  | DSReadPIB _ _ _ => CReadPIB
  | DSWritePIB _ _ _ _ => CWritePIB
  | DSWritePIBToNVM _ _ => CWritePIBToNVM
  | DSRunning _ _ => CRunning
  end.

Definition class_eqb (a b : StateClass) : bool :=
  match a, b with
  | CProbing, CProbing | CProbingHP, CProbingHP | CReadPIB, CReadPIB
  | CWritePIB, CWritePIB | CWritePIBToNVM, CWritePIBToNVM
  | CRunning, CRunning => true
  | _, _ => false
  end.

(** [c in (c1, c2, ...)] *)
Definition class_in (c : StateClass) (l : list StateClass) : bool :=
  existsb (class_eqb c) l.

(** [state.last_sent]: every state has the field. *)
Definition last_sent_of (s : State) : Z :=
  match s with
  | DSProbing ls _ | DSProbingHP ls | DSReadPIB _ ls _
  | DSWritePIB _ ls _ _ | DSWritePIBToNVM _ ls | DSRunning ls _ => ls
  end.

(** The two shapes [device_unknown_tuple] takes: a tuple for a blue
    device, the bare string [(parts[1])] for a white one. *)
Inductive pyval : Type :=
| PStr (s : string)
| PTuple (items : list string).

Definition pyval_eqb (a b : pyval) : bool :=
  match a, b with
  | PStr s, PStr s' => String.eqb s s'
  | PTuple l, PTuple l' =>
      if list_eq_dec string_dec l l' then true else false
  | _, _ => false
  end.

Record Device : Type := mkDevice {
  alias : option string;
  interval : option Z;
  remote_mac : string;
  state : State;
  want_on : option bool;
  device_type : option string;
  device_version : option (list string);
  device_unknown_tuple : option pyval;
  device_power : option pyfloat;
  device_is_on : option bool
}.

(** One line of the data log, before formatting. *)
Record LogLine : Type := mkLogLine {
  log_time : Z;
  log_mac : string;
  log_is_on : option bool;
  log_power : option pyfloat
}.

(** The part of [Server] a device reaches through its back reference:
    the controller MAC, the data log ([None] when no [datalog] is
    configured) and the frames handed to the socket, oldest first,
    without the two MAC addresses the server puts in front. *)
Record Server : Type := mkServer {
  _interface_mac_bytes : bytes;
  _datalog : option (list LogLine);
  _sock : list bytes
}.

Record World : Type := mkWorld {
  self : Device;
  server : Server
}.

(** Class attributes of [Device] *)
Definition probe_delay : Z := 10.
Definition max_probing_tries : Z := 5.
Definition pib_chunk : Z := 1024.
Definition pib_abort_time : Z := 20.
Definition running_abort_time : Z := 20.

Definition M (A : Type) : Type := SE World A.

(** Assignments to one attribute of [self] *)
Definition set_state (s : State) (d : Device) : Device :=
  mkDevice (alias d) (interval d) (remote_mac d) s (want_on d)
    (device_type d) (device_version d) (device_unknown_tuple d)
    (device_power d) (device_is_on d).
Definition set_want_on (v : option bool) (d : Device) : Device :=
  mkDevice (alias d) (interval d) (remote_mac d) (state d) v
    (device_type d) (device_version d) (device_unknown_tuple d)
    (device_power d) (device_is_on d).
Definition set_device_type (v : option string) (d : Device) : Device :=
  mkDevice (alias d) (interval d) (remote_mac d) (state d) (want_on d)
    v (device_version d) (device_unknown_tuple d)
    (device_power d) (device_is_on d).
Definition set_device_version (v : option (list string)) (d : Device)
  : Device :=
  mkDevice (alias d) (interval d) (remote_mac d) (state d) (want_on d)
    (device_type d) v (device_unknown_tuple d)
    (device_power d) (device_is_on d).
Definition set_device_unknown_tuple (v : option pyval) (d : Device)
  : Device :=
  mkDevice (alias d) (interval d) (remote_mac d) (state d) (want_on d)
    (device_type d) (device_version d) v
    (device_power d) (device_is_on d).
Definition set_device_power (v : option pyfloat) (d : Device) : Device :=
  mkDevice (alias d) (interval d) (remote_mac d) (state d) (want_on d)
    (device_type d) (device_version d) (device_unknown_tuple d)
    v (device_is_on d).
Definition set_device_is_on (v : option bool) (d : Device) : Device :=
  mkDevice (alias d) (interval d) (remote_mac d) (state d) (want_on d)
    (device_type d) (device_version d) (device_unknown_tuple d)
    (device_power d) v.

(** Run an update of [self] as a method *)
Definition upd (f : Device -> Device) : M unit :=
  modify (fun w => mkWorld (f (self w)) (server w)).

(** *** The callbacks of server.py *)

(** [Server._send_to_device] *)
Definition _send_to_device (msg : bytes) : M unit :=
  modify (fun w =>
    mkWorld (self w)
      (mkServer (_interface_mac_bytes (server w)) (_datalog (server w))
         (_sock (server w) ++ [msg]))).

(** [Server.report_data]: [self._datalog.write] raises AttributeError on
    the [None] of a server without a data log. *)
Definition report_data (now : Z) (is_on : option bool)
    (power : option pyfloat) : M unit :=
  (w <- get ;;
   match _datalog (server w) with
   | None => lift (Raise AttributeError)
   | Some lines =>
       modify (fun w =>
         mkWorld (self w)
           (mkServer (_interface_mac_bytes (server w))
              (Some (lines
                     ++ [mkLogLine now (remote_mac (self w)) is_on power]))
              (_sock (server w))))
   end)%se.

(** *** Methods of [Device] *)

(** [Device.reset_state] *)
Definition reset_state (d : Device) : Device :=
  set_device_is_on None (set_device_power None
    (set_state (DSProbing 0 0) d)).

(** [Device.__init__]: the class attributes are all [None]. *)
Definition __init__ (remote_mac : string) : Device :=
  reset_state
    (mkDevice None None remote_mac (DSProbing 0 0) None None None None
       None None).

(** [Device.on] and [Device.off] *)
Definition on (d : Device) : Device := set_want_on (Some true) d.
Definition off (d : Device) : Device := set_want_on (Some false) d.

(** [Device.calc_cksum], the same text as [PIB.calc_cksum] *)
Definition calc_cksum (data : bytes) : result Z :=
  (cksum <- fold_left (cksum_step data) (range0 (len data) 4) (Ok 0) ;;
   Ok (Z.land (Z.lnot cksum) mask32))%result.

(** [b'\x00'*60] *)
Definition zeros60 : bytes := repeat x00 60.

Definition probe_msg : bytes :=
  [x00; x40] ++ [x00; x00; x00] ++ zeros60 ++ [x01].
Definition on_msg : bytes :=
  [x00; x40] ++ [x08; x01; x01] ++ zeros60 ++ [x00].
Definition off_msg : bytes :=
  [x00; x40] ++ [x08; x01; x00] ++ zeros60 ++ [x01].

(** [Device.send_ether_probe] *)
Definition send_ether_probe : M unit := _send_to_device probe_msg.

(** [Device.send_ether_on] *)
Definition send_ether_on : M unit :=
  (upd (set_device_is_on None) ;;; _send_to_device on_msg)%se.

(** [Device.send_ether_off] *)
Definition send_ether_off : M unit :=
  (upd (set_device_is_on None) ;;; _send_to_device off_msg)%se.

(** The head of every HomePlug AV request: EtherType, version, the
    request code [mmtype] packed as ['<H'], the vendor OUI and the
    module id of the PIB. *)
Definition hp_head (mmtype : Z) : result bytes :=
  (t <- struct.pack_H mmtype ;;
   Ok ([x88; xe1] ++ [x00] ++ t ++ [x00; xb0; x52] ++ [x02]))%result.

(** [Device.send_hp_read_pib] *)
Definition send_hp_read_pib (offset length : Z) : M unit :=
  (msg <- lift (h <- hp_head 0xa024 ;;
                l <- struct.pack_H length ;;
                o <- struct.pack_I offset ;;
                Ok (h ++ [x00] ++ l ++ o))%result ;;
   _send_to_device msg)%se.

(** [Device.send_hp_probe] *)
Definition send_hp_probe : M unit := send_hp_read_pib 0 pib_chunk.

(** [Device.send_hp_write_pib] *)
Definition send_hp_write_pib : M unit :=
  (w <- get ;;
   match state (self w) with
   | DSWritePIB _ _ pib_current_offset pib =>
       let data :=
         slice (PIB._pib pib) pib_current_offset
           (pib_current_offset + pib_chunk) in
       msg <- lift (h <- hp_head 0xa020 ;;
                    l <- struct.pack_H (len data) ;;
                    o <- struct.pack_I pib_current_offset ;;
                    c <- calc_cksum data ;;
                    ck <- struct.pack_I c ;;
                    Ok (h ++ [x00] ++ l ++ o ++ ck ++ data))%result ;;
       _send_to_device msg
   | _ => lift (Raise AssertionError)
   end)%se.

(** [Device.send_hp_write_pib_to_nvm] *)
Definition send_hp_write_pib_to_nvm : M unit :=
  (w <- get ;;
   match state (self w) with
   | DSWritePIBToNVM _ _ =>
       msg <- lift (hp_head 0xa028) ;;
       _send_to_device msg
   | _ => lift (Raise AssertionError)
   end)%se.

(** [a != b] on [None]/[True]/[False] *)
Definition optbool_neb (a b : option bool) : bool :=
  match a, b with
  | None, None => false
  | Some x, Some y => negb (Bool.eqb x y)
  | _, _ => true
  end.

Definition is_not_None {A} (a : option A) : bool :=
  match a with Some _ => true | None => false end.

(** [Device.tick] *)
Definition tick (now : Z) : M unit :=
  (w <- get ;;
   let d := self w in
   match state d with
   | DSProbing last_sent num_sent =>
       if last_sent <? now - probe_delay then
         send_ether_probe ;;;
         if num_sent >=? max_probing_tries
         then upd (set_state (DSProbingHP now))
         else upd (set_state (DSProbing now (num_sent + 1)))
       else ret tt
   | DSProbingHP last_sent =>
       if last_sent <? now - probe_delay then
         send_ether_probe ;;;
         send_hp_probe ;;;
         upd (set_state (DSProbingHP now))
       else ret tt
   | DSRunning last_sent last_received =>
       if optbool_neb (device_is_on d) (want_on d)
          && is_not_None (want_on d)
       then
         (match want_on d with
          | Some true => send_ether_on
          | _ => send_ether_off
          end) ;;;
         upd (set_state (DSRunning now last_received))
       else
         match interval d with
         | Some interval =>
             if now - last_received >? running_abort_time
             then upd reset_state
             else if last_sent <? now - interval then
               send_ether_probe ;;;
               upd (set_state (DSRunning now last_received))
             else ret tt
         | None => ret tt
         end
   | DSReadPIB start_time last_sent pib =>
       if start_time <? now - pib_abort_time then upd reset_state
       else if last_sent <? now - probe_delay then
         size <- lift (PIB.size pib) ;;
         send_hp_read_pib (PIB.__len__ pib)
           (Z.min (size - PIB.__len__ pib) pib_chunk) ;;;
         upd (set_state (DSReadPIB start_time now pib))
       else ret tt
   | DSWritePIB start_time last_sent pib_current_offset pib =>
       if start_time <? now - pib_abort_time then upd reset_state
       else if last_sent <? now - probe_delay then
         send_hp_write_pib ;;;
         upd (set_state
                (DSWritePIB start_time now pib_current_offset pib))
       else ret tt
   | DSWritePIBToNVM start_time last_sent =>
       if start_time <? now - pib_abort_time then upd reset_state
       else if last_sent <? now - probe_delay then
         send_hp_write_pib_to_nvm ;;;
         upd (set_state (DSWritePIBToNVM start_time now))
       else ret tt
   end)%se.

(** [Device.packet_homeplug]; the value is [Some false] for [False],
    [Some true] for [True] and [None] where the source falls off the end
    or runs a bare [return]. *)
Definition packet_homeplug (now : Z) (action : Z) (data : bytes)
  : M (option bool) :=
  (w <- get ;;
   let cls := class_of (state (self w)) in
   if negb (class_in cls [CProbingHP; CReadPIB; CWritePIB; CWritePIBToNVM])
   then ret (Some false)
   else if class_in cls [CProbingHP; CReadPIB] && negb (action =? 0xa025)
   then ret (Some false)
   else if class_in cls [CWritePIB] && negb (action =? 0xa021)
   then ret (Some false)
   else if class_in cls [CWritePIBToNVM] && negb (action =? 0xa029)
   then ret (Some false)
   else
     st <- lift (struct.unpack_B (slice data 0 1)) ;;
     if negb (st =? 0) then ret (Some false)
     else
       match state (self w) with
       | DSWritePIBToNVM _ _ =>
           upd reset_state ;;; ret (Some true)
       | DSWritePIB start_time _ pib_current_offset pib =>
           if pib_current_offset + pib_chunk >=? PIB.__len__ pib
           then upd (set_state (DSWritePIBToNVM now 0)) ;;; ret (Some true)
           else
             upd (set_state
                    (DSWritePIB start_time 0
                       (pib_current_offset + pib_chunk) pib)) ;;;
             ret (Some true)
       | DSProbingHP _ | DSReadPIB _ _ _ =>
           hdr <- lift (struct.unpack_BxxxBxHI (slice_to data 12)) ;;
           let '(status, module, length, offset) := hdr in
           if negb (module =? 0x2) then ret (Some false)
           else
             ck <- lift (calc_cksum (slice_from data 12)) ;;
             if negb (ck =? 0) then ret (Some false)
             else
               let data := slice data 16 (16 + length) in
               match state (self w) with
               | DSProbingHP _ =>
                   if negb (offset =? 0) then ret (Some false)
                   else
                     pib <- lift (PIB.__init__ data) ;;
                     upd (set_state (DSReadPIB now 0 pib)) ;;;
                     ret None
               | DSReadPIB start_time _ pib =>
                   if negb (offset =? PIB.__len__ pib) then ret None
                   else
                     newpib <- lift (PIB.__add__ pib data) ;;
                     complete <- lift (PIB.is_complete newpib) ;;
                     if complete then
                       valid <- lift (PIB.is_valid newpib) ;;
                       if negb valid then upd reset_state ;;; ret None
                       else
                         let master_mac_pib := PIB.master_get newpib in
                         let master_mac_server :=
                           _interface_mac_bytes (server w) in
                         if bytes_eqb master_mac_pib master_mac_server
                         then upd reset_state ;;; ret None
                         else
                           p <- lift (PIB.master_replace newpib
                                        master_mac_server) ;;
                           upd (set_state (DSWritePIB now 0 0 p)) ;;;
                           ret None
                     else
                       upd (set_state (DSReadPIB start_time 0 newpib)) ;;;
                       ret None
               | _ => ret None
               end
       | _ => ret None
       end)%se.

(** The first half of [Device.receive_powerdata], which only reads the
    report: the fields [(device_type, device_is_on, device_power,
    device_unknown_tuple, device_version)] it announces. *)
Definition parse_powerdata (data : string)
  : result (string * bool * pyfloat * pyval * list string) :=
  (let parts := split ";"%char data in
   p0 <- index parts 0 ;;
   assert (String.eqb p0 "2" || String.eqb p0 "3") ;;;
   p3 <- index parts 3 ;;
   assert (String.eqb p3 "0" || String.eqb p3 "1") ;;;
   let device_type := p0 in
   let device_is_on := String.eqb p3 "1" in
   p4 <- index parts 4 ;;
   device_power <- match float p4 with
                   | Some f => Ok f
                   | None => Raise ValueError
                   end ;;
   if String.eqb device_type "2" then
     (* Blue device *)
     p1 <- index parts 1 ;;
     p5 <- index parts 5 ;;
     p6 <- index parts 6 ;;
     p2 <- index parts 2 ;;
     p7 <- index parts 7 ;;
     Ok (device_type, device_is_on, device_power,
         PTuple [p1; p5; p6], [p2; p7])
   else
     (* White device *)
     p1 <- index parts 1 ;;
     p2 <- index parts 2 ;;
     Ok (device_type, device_is_on, device_power, PStr p1, [p2]))%result.

Definition version_eqb (a b : list string) : bool :=
  if list_eq_dec string_dec a b then true else false.

(** [Device.receive_powerdata] *)
Definition receive_powerdata (now : Z) (data : string) : M unit :=
  (report <- lift (parse_powerdata data) ;;
   let '(device_type', device_is_on', device_power',
         device_unknown_tuple', device_version') := report in
   w <- get ;;
   (if is_not_None (device_unknown_tuple (self w)) then ret tt
    else upd (set_device_unknown_tuple (Some device_unknown_tuple'))) ;;;
   w <- get ;;
   (if is_not_None (device_version (self w)) then ret tt
    else upd (set_device_version (Some device_version'))) ;;;
   w <- get ;;
   (if is_not_None (device_type (self w)) then ret tt
    else upd (set_device_type (Some device_type'))) ;;;
   w <- get ;;
   lift (assert (match device_unknown_tuple (self w) with
                 | Some u => pyval_eqb u device_unknown_tuple'
                 | None => false
                 end)) ;;;
   lift (assert (match device_version (self w) with
                 | Some v => version_eqb v device_version'
                 | None => false
                 end)) ;;;
   lift (assert (match device_type (self w) with
                 | Some t => String.eqb t device_type'
                 | None => false
                 end)) ;;;
   upd (set_device_power (Some device_power')) ;;;
   upd (set_device_is_on (Some device_is_on')) ;;;
   report_data now (Some device_is_on') (Some device_power'))%se.

(** [Device.receive_is_on] *)
Definition receive_is_on (now : Z) : M unit :=
  (w <- get ;;
   (match want_on (self w) with
    | Some true => upd (set_want_on None)
    | _ => ret tt
    end) ;;;
   upd (set_device_is_on (Some true)) ;;;
   report_data now (Some true) None)%se.

(** [Device.receive_is_off] *)
Definition receive_is_off (now : Z) : M unit :=
  (w <- get ;;
   (match want_on (self w) with
    | Some false => upd (set_want_on None)
    | _ => ret tt
    end) ;;;
   upd (set_device_is_on (Some false)) ;;;
   report_data now (Some false) None)%se.

(** [self.state = DSRunning(last_sent = self.state.last_sent,
    last_received = time.time())] *)
Definition mark_received (now : Z) : M unit :=
  upd (fun d => set_state (DSRunning (last_sent_of (state d)) now) d).

(** The body of the loop of [packet_ether] for the message at
    [msg_start]; a message of an unknown function is printed and
    changes nothing. *)
Definition ether_message (now : Z) (packet_data : bytes) (msg_start : Z)
  : M unit :=
  (let mdata := slice packet_data msg_start (msg_start + 64) in
   mdata_function <- lift (index mdata 0) ;;
   mdata_length <- lift (index mdata 1) ;;
   let mdata_message := slice mdata 2 (2 + byte_val mdata_length) in
   if byte_val mdata_function =? 1 then
     text <- lift (decode_ascii mdata_message) ;;
     receive_powerdata now (strip text) ;;;
     mark_received now
   else if (byte_val mdata_function =? 9)
           || (byte_val mdata_function =? 12) then
     lift (assert (byte_val mdata_length =? 1)) ;;;
     mdata_state <- lift (index mdata_message 0) ;;
     (if byte_val mdata_state =? 1 then receive_is_on now
      else if byte_val mdata_state =? 0 then receive_is_off now
      else ret tt) ;;;
     mark_received now
   else ret tt)%se.

(** [Device.packet_ether] *)
Definition packet_ether (now : Z) (data : bytes) : M (option bool) :=
  (w <- get ;;
   if len data <? 4 then ret (Some false)
   else if negb (class_in (class_of (state (self w)))
                   [CProbing; CProbingHP; CRunning])
   then ret (Some false)
   else
     length <- lift (struct.unpack_B (slice data 1 2)) ;;
     if negb (len (slice_from data 2) =? length) then ret (Some false)
     else if negb (length mod 64 =? 0) then ret (Some false)
     else
       let packet_data := slice_from data 2 in
       for_each (range0 length 64) (ether_message now packet_data) ;;;
       ret None)%se.

(** *** Specification functions for the checksum

    [cksum_from acc data] is the loop of [calc_cksum] read off the list
    four bytes at a time; [xor_fold data] is the XOR of the little-endian
    words of [data]. *)

Definition word_of (b0 b1 b2 b3 : byte) : Z :=
  byte_val b0 + 256 * byte_val b1 + 65536 * byte_val b2
  + 16777216 * byte_val b3.

Fixpoint cksum_from (acc : Z) (data : bytes) : result Z :=
  match data with
  | [] => Ok acc
  | b0 :: b1 :: b2 :: b3 :: rest =>
      cksum_from (Z.land (Z.lxor acc (word_of b0 b1 b2 b3)) mask32) rest
  | _ => Raise StructError
  end.

Fixpoint xor_fold (data : bytes) : Z :=
  match data with
  | b0 :: b1 :: b2 :: b3 :: rest =>
      Z.lxor (word_of b0 b1 b2 b3) (xor_fold rest)
  | _ => 0
  end.

(** The length is a multiple of four. *)
Definition aligned (data : bytes) : Prop := len data mod 4 = 0.

(** [(~x) & (2**32-1)] *)
Definition neg32 (x : Z) : Z := Z.land (Z.lnot x) mask32.

(** *** Runs of the machine and the invariants of its states *)

(** The device ticks at the instants [ts], in order, and hears nothing. *)
Definition run_ticks (ts : list Z) : M unit := for_each ts tick.

(** What reaches a device: a tick of the clock, or a frame the server
    hands to one of the two handlers, each at the instant it happens. *)
Inductive Event : Type :=
| Tick (now : Z)
| Homeplug (now action : Z) (data : bytes)
| Ether (now : Z) (data : bytes).

Definition handle (ev : Event) : M unit :=
  match ev with
  | Tick now => tick now
  | Homeplug now action data =>
      (_ <- packet_homeplug now action data ;; ret tt)%se
  | Ether now data => (_ <- packet_ether now data ;; ret tt)%se
  end.

(** The device goes through the events [evs], in order. *)
Definition run (evs : list Event) : M unit := for_each evs handle.

(** The instants of the ticks among [evs] *)
Definition tick_times (evs : list Event) : list Z :=
  flat_map (fun ev => match ev with Tick now => [now] | _ => [] end) evs.

(** Every tick comes more than [probe_delay] after the one before, the
    first more than [probe_delay] after [prev]. *)
Fixpoint spaced (prev : Z) (ts : list Z) : Prop :=
  match ts with
  | [] => True
  | t :: ts' => prev < t - probe_delay /\ spaced t ts'
  end.

(** The ticks follow each other, and [prev], by at most [one_tick]. *)
Fixpoint regular (one_tick prev : Z) (ts : list Z) : Prop :=
  match ts with
  | [] => True
  | t :: ts' => prev <= t <= prev + one_tick /\ regular one_tick t ts'
  end.

(** [start_time] of the three PIB states *)
Definition pib_start_time (s : State) : option Z :=
  match s with
  | DSReadPIB start_time _ _ | DSWritePIB start_time _ _ _
  | DSWritePIBToNVM start_time _ => Some start_time
  | _ => None
  end.

(** What the transitions of [packet_homeplug] establish of the data a PIB
    state carries: the PIB is one [PIB.__init__] built (longer than 8
    bytes, not longer than the size in its header); in [DSWritePIB] it is
    valid and the offset is a multiple of [pib_chunk] inside it. *)
Definition state_ok (s : State) : Prop :=
  match s with
  | DSReadPIB _ _ pib => PIB.__init__ (PIB._pib pib) = Ok pib
  | DSWritePIB _ _ pib_current_offset pib =>
      PIB.__init__ (PIB._pib pib) = Ok pib
      /\ PIB.is_valid pib = Ok true
      /\ 0 <= pib_current_offset <= PIB.__len__ pib
      /\ pib_current_offset mod pib_chunk = 0
  | _ => True
  end.

(** The frame a read request of [pib_chunk] bytes at offset 0 puts on the
    wire. *)
Definition hp_probe_msg : bytes :=
  [x88; xe1; x00; x24; xa0; x00; xb0; x52; x02; x00; x00; x04;
   x00; x00; x00; x00].

(** A vendor frame that switches the outlet. *)
Definition is_onoff (msg : bytes) : Prop := msg = on_msg \/ msg = off_msg.

(** The world in which [f] has been applied to the device *)
Definition with_self (f : Device -> Device) (w : World) : World :=
  mkWorld (f (self w)) (server w).

(** The world in which [msgs] have been handed to the socket *)
Definition with_sent (msgs : list bytes) (w : World) : World :=
  mkWorld (self w)
    (mkServer (_interface_mac_bytes (server w)) (_datalog (server w))
       (_sock (server w) ++ msgs)).

(** What a reset must not touch: the configuration, the pending command
    and the identity the device has been seen with. *)
Definition same_identity (d d' : Device) : Prop :=
  alias d' = alias d /\ interval d' = interval d
  /\ remote_mac d' = remote_mac d /\ want_on d' = want_on d
  /\ device_type d' = device_type d
  /\ device_version d' = device_version d
  /\ device_unknown_tuple d' = device_unknown_tuple d.

(** A method that keeps the device in relation [R] with what it was, in
    every world, whether it returns or raises. *)
Definition keeps {A} (R : Device -> Device -> Prop) (m : M A) : Prop :=
  forall w, R (self w) (self (snd (m w))).

(** A method that keeps the identity of the device *)
Definition keeps_identity {A} (m : M A) : Prop := keeps same_identity m.

(** A device outside the three PIB states is still outside them. *)
Definition outside_pib (d d' : Device) : Prop :=
  pib_start_time (state d) = None -> pib_start_time (state d') = None.

(** The states in which ticks alone never send an on/off frame: the two
    probing states, and [DSRunning] when no command is pending or the
    outlet is seen in the state that is wanted. *)
Definition settled (d : Device) : Prop :=
  match state d with
  | DSRunning _ _ =>
      optbool_neb (device_is_on d) (want_on d) && is_not_None (want_on d)
      = false
  | DSProbing _ _ | DSProbingHP _ => True
  | _ => False
  end.

(** The frames a settled device may send *)
Definition is_probe (msg : bytes) : Prop :=
  msg = probe_msg \/ msg = hp_probe_msg.

(** The opcode [packet_homeplug] waits for in each state *)
Definition expected_action (s : State) : option Z :=
  match s with
  | DSProbingHP _ | DSReadPIB _ _ _ => Some 0xa025
  | DSWritePIB _ _ _ _ => Some 0xa021
  | DSWritePIBToNVM _ _ => Some 0xa029
  | _ => None
  end.

(** An event that is not the confirmation a device in state [s] waits
    for: a tick, a vendor frame, or a HomePlug AV frame with another
    opcode than the state expects or with a status that is not 0. *)
Definition no_confirmation (s : State) (ev : Event) : Prop :=
  match ev with
  | Homeplug _ action data =>
      expected_action s <> Some action
      \/ exists status,
           struct.unpack_B (slice data 0 1) = Ok status /\ status <> 0
  | _ => True
  end.

(** A write confirmation with status 0 *)
Definition write_confirmed (ev : Event) : Prop :=
  match ev with
  | Homeplug _ action data =>
      action = 0xa021 /\ struct.unpack_B (slice data 0 1) = Ok 0
  | _ => False
  end.

(** The instant of an event *)
Definition event_time (ev : Event) : Z :=
  match ev with
  | Tick now | Homeplug now _ _ | Ether now _ => now
  end.

(** What no handler undoes: the configuration stays, a pending command
    is kept or dropped (never set or flipped), and each of the three
    attributes of the identity, once known, keeps its value. *)
Definition handlers_keep (d d' : Device) : Prop :=
  alias d' = alias d /\ interval d' = interval d
  /\ remote_mac d' = remote_mac d
  /\ (want_on d' = want_on d \/ want_on d' = None)
  /\ (forall v, device_type d = Some v -> device_type d' = Some v)
  /\ (forall v, device_version d = Some v -> device_version d' = Some v)
  /\ (forall v, device_unknown_tuple d = Some v ->
        device_unknown_tuple d' = Some v).

End DeviceMachine.

Arguments LogLine pyfloat : clear implicits.
Arguments Device pyfloat : clear implicits.
Arguments Server pyfloat : clear implicits.
Arguments World pyfloat : clear implicits.
Arguments M pyfloat A : clear implicits.

(** ** server.py *)

Section ServerMachine.

Context {pyfloat : Type}.
Variable float : string -> option pyfloat.

(** [int(x, 16)] ([None]: it raises ValueError) *)
Variable int16 : string -> option Z.

(** The server with its table of devices: the dict [_devices], keyed by
    the MAC address in bytes and kept in insertion order, and the
    attributes the devices reach. *)
Record ServerState : Type := mkServerState {
  _devices : list (bytes * Device pyfloat);
  _server : Server pyfloat
}.

(** [self._devices[key]] ([None]: [key not in self._devices]) *)
Fixpoint devices_get (key : bytes) (l : list (bytes * Device pyfloat))
  : option (Device pyfloat) :=
  match l with
  | [] => None
  | (k, d) :: l' => if bytes_eqb key k then Some d else devices_get key l'
  end.

(** The table once a method has left the device at [key] as [d]: the
    dict holds the object the method mutates. *)
Fixpoint devices_put (key : bytes) (d : Device pyfloat)
    (l : list (bytes * Device pyfloat)) : list (bytes * Device pyfloat) :=
  match l with
  | [] => []
  | (k, d0) :: l' =>
      if bytes_eqb key k then (k, d) :: l'
      else (k, d0) :: devices_put key d l'
  end.

(** A method of the device found at [key], run by the server *)
Definition on_device {A} (key : bytes) (device : Device pyfloat)
    (m : M pyfloat A) : SE ServerState A :=
  fun s =>
    let '(r, w) := m (mkWorld device (_server s)) in
    (r, mkServerState (devices_put key (self w) (_devices s)) (server w)).

(** [Server._handle_packet]; the handler of the device reads the clock
    at [now], the tick that follows it at [now_tick]. *)
Definition _handle_packet (now now_tick : Z) (recvdata : bytes)
  : SE ServerState (option bool) :=
  (s <- get ;;
   if negb (bytes_eqb (slice recvdata 0 6)
              (_interface_mac_bytes (_server s)))
   then ret (Some false)
   else
     match devices_get (slice recvdata 6 12) (_devices s) with
     | None => ret (Some false)
     | Some device =>
         if bytes_eqb (slice recvdata 12 14) [x88; xe1] then
           if negb (bytes_eqb (slice recvdata 14 15) [x00])
           then ret (Some false)
           else if negb (bytes_eqb (slice recvdata 17 20) [x00; xb0; x52])
           then ret (Some false)
           else
             action <- lift (struct.unpack_H (slice recvdata 15 17)) ;;
             on_device (slice recvdata 6 12) device
               (r <- packet_homeplug now action (slice_from recvdata 20) ;;
                tick now_tick ;;;
                ret r)
         else
           on_device (slice recvdata 6 12) device
             (r <- packet_ether float now (slice_from recvdata 12) ;;
              tick now_tick ;;;
              ret r)
     end)%se.



(** [[f(x) for x in l]] for an [f] that may raise *)
Fixpoint map_result {A B} (f : A -> result B) (l : list A)
  : result (list B) :=
  match l with
  | [] => Ok []
  | x :: l' => (y <- f x ;; ys <- map_result f l' ;; Ok (y :: ys))%result
  end.

(** [Server._to_bytes]: [bytes(...)] raises ValueError on a number
    outside [range(256)]. *)
Definition _to_bytes (v : string) : result bytes :=
  (ints <- map_result
             (fun x => match int16 x with
                       | Some n => Ok n
                       | None => Raise ValueError
                       end)
             (split ":"%char v) ;;
   map_result
     (fun n => if (0 <=? n) && (n <? 256) then Ok (byte_of n)
               else Raise ValueError)
     ints)%result.

(** [Server._device_on] *)
Definition _device_on (dev_mac : string) : SE ServerState unit :=
  (dev_mac_bytes <- lift (_to_bytes dev_mac) ;;
   s <- get ;;
   match devices_get dev_mac_bytes (_devices s) with
   | None => lift (Raise ValueError)
   | Some device => on_device dev_mac_bytes device (upd on)
   end)%se.

(** [Server._device_off] *)
Definition _device_off (dev_mac : string) : SE ServerState unit :=
  (dev_mac_bytes <- lift (_to_bytes dev_mac) ;;
   s <- get ;;
   match devices_get dev_mac_bytes (_devices s) with
   | None => lift (Raise ValueError)
   | Some device => on_device dev_mac_bytes device (upd off)
   end)%se.


End ServerMachine.

Arguments ServerState pyfloat : clear implicits.

(** * The scenarios of the specification: worlds and frames *)

(** A reading of Python's [float] that knows the one literal the
    scenarios use; the value is kept as its text. *)
Definition float_of_literal (s : string) : option string :=
  if String.eqb s "12.5" then Some s else None.

(** The controller [00:11:22:33:44:55] with an empty data log, and the
    device [aa:bb:cc:dd:ee:ff] as [Device.__init__] leaves it. *)
Definition controller_mac : bytes := [x00; x11; x22; x33; x44; x55].

Definition server0 : Server string := mkServer controller_mac (Some []) [].

Definition world0 : World string :=
  mkWorld (__init__ "aa:bb:cc:dd:ee:ff") server0.

(** The world in which the device is in state [s] *)
Definition world_in (s : State) : World string :=
  with_self (set_state s) world0.

(** A valid PIB of 12288 bytes whose master is [de:ad:be:ef:00:01]: the
    size in bytes 4 and 5, the checksum in bytes 8 to 11, the master at
    0x2c8a, zeros elsewhere. *)
Definition sample_pib : bytes :=
  [x00; x00; x00; x00; x00; x30; x00; x00; x41; x20; x21; x53]
  ++ repeat x00 (Z.to_nat (0x2c8a - 12))
  ++ [xde; xad; xbe; xef; x00; x01]
  ++ repeat x00 (Z.to_nat (12288 - 0x2c90)).

(** A valid and complete PIB of 16 bytes, too short to hold a master. *)
Definition short_pib : bytes :=
  [x00; x00; x00; x00; x10; x00; x00; x00;
   xef; xff; xff; xff; x00; x00; x00; x00].

(** The body of a read confirmation as a device sends it: status 0,
    module 2, the length and the offset of the chunk, its checksum, the
    chunk. *)
Definition read_confirm (offset : Z) (chunk : bytes) : result bytes :=
  (l <- struct.pack_H (len chunk) ;;
   o <- struct.pack_I offset ;;
   c <- PIB.calc_cksum chunk ;;
   ck <- struct.pack_I c ;;
   Ok ([x00; x00; x00; x00; x02; x00] ++ l ++ o ++ ck ++ chunk))%result.

(** A vendor frame of one message: the header, the function code, the
    length of the message, the message, zeros up to 64 bytes. *)
Definition vendor_frame (function : byte) (message : bytes) : bytes :=
  [x00; x40] ++ [function; byte_of (len message)] ++ message
  ++ repeat x00 (62 - List.length message).

(** A running device that has been seen as a white outlet, with the
    pending command [want] and the observed state [is_on]. *)
Definition running_device (want : option bool) (is_on : option bool)
  : Device string :=
  mkDevice None (Some 30) "aa:bb:cc:dd:ee:ff" (DSRunning 90 95) want
    (Some "3"%string) (Some ["1.0"%string]) (Some (PStr "id"))
    (Some "12.5"%string) is_on.

Definition running_world (want : option bool) (is_on : option bool)
  : World string :=
  mkWorld (running_device want is_on) server0.

(** The first eleven chunks of [sample_pib] and the twelfth. *)
Definition sample_head : bytes := slice_to sample_pib 11264.
Definition sample_tail : bytes := slice_from sample_pib 11264.

(** The read confirmation that carries the twelfth chunk *)
Definition last_confirm : bytes :=
  match read_confirm 11264 sample_tail with
  | Ok frame => frame
  | Raise _ => []
  end.

(** The read confirmation that carries the last four bytes of
    [short_pib] *)
Definition short_confirm : bytes :=
  [x00; x00; x00; x00; x02; x00; x04; x00; x0c; x00; x00; x00;
   xff; xff; xff; xff; x00; x00; x00; x00].

(** [n] write confirmations in a row *)
Fixpoint write_confirms (n : nat) (w : World string) : World string :=
  match n with
  | O => w
  | S n' => write_confirms n' (snd (packet_homeplug 120 0xa021 [x00] w))
  end.

(** The report of a blue outlet and the report of the white outlet
    [running_device] has been seen as *)
Definition blue_report : string := "2;id;1.0;1;12.5;a;b;c".
Definition white_report : string := "3;id;1.0;1;12.5".

(** A read confirmation of 41 bytes, the body of an Ethernet frame of 61:
    the header of a confirmation for offset 0 and 29 more bytes, which is
    not a whole number of words. *)
Definition odd_confirm : bytes :=
  [x00; x00; x00; x00; x02; x00; x00; x04; x00; x00; x00; x00]
  ++ repeat x00 29.

(** A download that hears no confirmation: ticks every 5 seconds, a
    write confirmation (not what [DSReadPIB] waits for), a vendor frame,
    and a read confirmation with status 1. *)
Definition quiet_phase : list Event :=
  [Tick 105; Homeplug 107 0xa021 [x00]; Tick 110;
   Ether 112 (vendor_frame x09 [x01]); Tick 115;
   Homeplug 117 0xa025 [x01]; Tick 120; Tick 125].

(** A second MAC address *)
Definition other_mac : bytes := [x02; x00; x00; x00; x00; x01].

(** The read confirmations that carry the first and the second chunk of
    [sample_pib] *)
Definition first_confirm : bytes :=
  match read_confirm 0 (slice_to sample_pib 1024) with
  | Ok frame => frame
  | Raise _ => []
  end.

Definition second_confirm : bytes :=
  match read_confirm 1024 (slice sample_pib 1024 2048) with
  | Ok frame => frame
  | Raise _ => []
  end.

(** The header of a read confirmation for module 3, which is not the
    PIB *)
Definition foreign_confirm : bytes :=
  [x00; x00; x00; x00; x03; x00; x00; x04; x00; x00; x00; x00].

(** A write confirmation, and the eleven that follow it in the upload of
    [sample_pib] *)
Definition write_confirm : Event := Homeplug 120 0xa021 [x00].
Definition more_write_confirms : list Event := repeat write_confirm 11.

(** The device of [world0] under a server that keeps no data log *)
Definition world_without_log : World string :=
  mkWorld (self world0) (mkServer controller_mac None []).

(** One message with function 5, which the handler does not know *)
Definition unknown_message : bytes := x05 :: repeat x00 63.

(** A reading of [int(x, 16)] that knows the strings of lowercase
    hexadecimal digits. *)
Definition hex_digit (c : ascii) : option Z :=
  let n := Z.of_N (N_of_ascii c) in
  if (48 <=? n) && (n <=? 57) then Some (n - 48)
  else if (97 <=? n) && (n <=? 102) then Some (n - 87)
  else None.

Fixpoint int16_from (acc : Z) (s : string) : option Z :=
  match s with
  | EmptyString => Some acc
  | String c s' =>
      match hex_digit c with
      | Some d => int16_from (16 * acc + d) s'
      | None => None
      end
  end.

Definition int16_of_digits (s : string) : option Z :=
  match s with
  | EmptyString => None
  | _ => int16_from 0 s
  end.

(** A server with two devices: [aa:bb:cc:dd:ee:ff] as [Device.__init__]
    leaves it, and a running outlet that is off and wanted on. *)
Definition device_mac : bytes := [xaa; xbb; xcc; xdd; xee; xff].

Definition table0 : ServerState string :=
  mkServerState
    [(device_mac, self world0);
     (other_mac, running_device (Some true) (Some false))]
    server0.

(** A HomePlug AV frame from the first device to another station than
    the controller *)
Definition stray_frame : bytes :=
  other_mac ++ device_mac ++ [x88; xe1; x00; x25; xa0; x00; xb0; x52; x00].

(** The read confirmations a device sends for the chunks [chunks], one
    after the other from [offset] on, each at its instant. *)
Fixpoint read_confirms (offset : Z) (chunks : list (Z * bytes))
  : result (list Event) :=
  match chunks with
  | [] => Ok []
  | (now, chunk) :: rest =>
      (frame <- read_confirm offset chunk ;;
       evs <- read_confirms (offset + len chunk) rest ;;
       Ok (Homeplug now 0xa025 frame :: evs))%result
  end.

(** The chunks of [sample_pib] after the first, each with the instant
    at which its confirmation arrives, and the twelve confirmations of
    the download. *)
Definition sample_chunks : list (Z * bytes) :=
  map (fun i => (100 + i, slice sample_pib (1024 * i) (1024 * (i + 1))))
    [1; 2; 3; 4; 5; 6; 7; 8; 9; 10; 11].

Definition sample_download : list Event :=
  match read_confirms 0 ((100, slice_to sample_pib 1024) :: sample_chunks)
  with
  | Ok evs => evs
  | Raise _ => []
  end.

(** * Properties *)

Section DeviceFacts.

Context {pyfloat : Type}.
Variable float : string -> option pyfloat.

(** ** Bytes and 32-bit words *)

Lemma byte_val_range (b : byte) : 0 <= byte_val b < 256.
Proof.
  unfold byte_val. pose proof (Byte.to_N_bounded b). lia.
Qed.

Lemma byte_val_of (v : Z) : 0 <= v < 256 -> byte_val (byte_of v) = v.
Proof.
  intros Hv. unfold byte_val, byte_of.
  destruct (Byte.of_N (Z.to_N v)) as [b|] eqn:E.
  - apply Byte.to_of_N in E. rewrite E. lia.
  - apply Byte.of_N_None_iff in E. lia.
Qed.

Lemma word_of_range b0 b1 b2 b3 : 0 <= word_of b0 b1 b2 b3 < 2 ^ 32.
Proof.
  unfold word_of.
  pose proof (byte_val_range b0). pose proof (byte_val_range b1).
  pose proof (byte_val_range b2). pose proof (byte_val_range b3).
  change (2 ^ 32) with 4294967296. lia.
Qed.

Lemma mask32_ones : mask32 = Z.ones 32.
Proof. reflexivity. Qed.

Lemma land_mask32_small x : 0 <= x < 2 ^ 32 -> Z.land x mask32 = x.
Proof.
  intros H. rewrite mask32_ones, Z.land_ones by lia. apply Z.mod_small; lia.
Qed.

Lemma high_bits_zero x i : 0 <= x < 2 ^ 32 -> 32 <= i -> Z.testbit x i = false.
Proof.
  intros Hx Hi. rewrite <- (land_mask32_small x Hx), mask32_ones.
  rewrite Z.land_spec, Z.ones_spec_high by lia. apply andb_false_r.
Qed.

Lemma lxor_range x y : 0 <= x < 2 ^ 32 -> 0 <= y < 2 ^ 32 -> 0 <= Z.lxor x y < 2 ^ 32.
Proof.
  intros Hx Hy.
  assert (E : Z.land (Z.lxor x y) mask32 = Z.lxor x y).
  { apply Z.bits_inj'. intros i Hi. rewrite Z.land_spec, Z.lxor_spec, mask32_ones.
    rewrite Z.testbit_ones_nonneg by lia.
    destruct (Z.ltb_spec i 32); [apply andb_true_r|].
    rewrite !high_bits_zero by lia. reflexivity. }
  rewrite <- E, mask32_ones, Z.land_ones by lia. apply Z.mod_pos_bound. lia.
Qed.

Lemma neg32_range x : 0 <= neg32 x < 2 ^ 32.
Proof.
  unfold neg32. rewrite mask32_ones, Z.land_ones by lia. apply Z.mod_pos_bound. lia.
Qed.

Lemma lxor_neg32 x : 0 <= x < 2 ^ 32 -> Z.lxor x (neg32 x) = mask32.
Proof.
  intros Hx. apply Z.bits_inj'. intros i Hi. unfold neg32.
  rewrite Z.lxor_spec, Z.land_spec, Z.lnot_spec, mask32_ones by lia.
  rewrite Z.testbit_ones_nonneg by lia.
  destruct (Z.ltb_spec i 32).
  - rewrite andb_true_r. destruct (Z.testbit x i); reflexivity.
  - rewrite high_bits_zero by lia. reflexivity.
Qed.

Lemma neg32_mask32 : neg32 mask32 = 0.
Proof. reflexivity. Qed.

(** Induction four bytes at a time *)
Lemma list_ind4 {A} (P : list A -> Prop) :
  P [] -> (forall a, P [a]) -> (forall a b, P [a; b]) ->
  (forall a b c, P [a; b; c]) ->
  (forall a b c d rest, P rest -> P (a :: b :: c :: d :: rest)) ->
  forall l, P l.
Proof.
  intros H0 H1 H2 H3 H4.
  fix IH 1. intros [|a [|b [|c [|d rest]]]];
    [apply H0 | apply H1 | apply H2 | apply H3 | apply H4, IH].
Qed.

Lemma slice_0_4 (b0 b1 b2 b3 : byte) rest :
  slice (b0 :: b1 :: b2 :: b3 :: rest) 0 (0 + 4) = [b0; b1; b2; b3].
Proof. reflexivity. Qed.

Lemma slice_shift4 (b0 b1 b2 b3 : byte) rest i :
  0 <= i ->
  slice (b0 :: b1 :: b2 :: b3 :: rest) (i + 4) (i + 4 + 4) = slice rest i (i + 4).
Proof.
  intros Hi. unfold slice.
  replace (i + 4 + 4 - (i + 4)) with (i + 4 - i) by lia.
  replace (Z.to_nat (i + 4)) with (4 + Z.to_nat i)%nat by lia.
  reflexivity.
Qed.

Lemma range0_cons4 n :
  0 <= n ->
  range0 (n + 4) 4 = 0 :: map (fun i => i + 4) (range0 n 4).
Proof.
  intros Hn. unfold range0.
  replace ((n + 4 + 4 - 1) / 4) with ((n + 4 - 1) / 4 + 1)
    by (rewrite <- Z.div_add by lia; f_equal; lia).
  assert (0 <= (n + 4 - 1) / 4) by (apply Z.div_pos; lia).
  replace (Z.to_nat ((n + 4 - 1) / 4 + 1)) with (S (Z.to_nat ((n + 4 - 1) / 4))) by lia.
  cbn [seq map]. f_equal.
  rewrite <- seq_shift, !map_map. apply map_ext. intros k. lia.
Qed.

Lemma range0_nonneg n i : In i (range0 n 4) -> 0 <= i.
Proof.
  unfold range0. rewrite in_map_iff. intros (k & <- & _). lia.
Qed.

Lemma len_cons {A} (a : A) l : len (a :: l) = len l + 1.
Proof. unfold len. cbn [List.length]. lia. Qed.

Lemma len_nonneg {A} (l : list A) : 0 <= len l.
Proof. unfold len. lia. Qed.

Lemma cksum_loop_spec data : forall acc,
  fold_left (cksum_step data) (range0 (len data) 4) (Ok acc) = cksum_from acc data.
Proof.
  induction data as [|a|a b|a b c|b0 b1 b2 b3 rest IH] using list_ind4; intros acc;
    try reflexivity.
  replace (len (b0 :: b1 :: b2 :: b3 :: rest)) with (len rest + 4)
    by (rewrite !len_cons; lia).
  rewrite range0_cons4 by apply len_nonneg.
  cbn [fold_left]. unfold cksum_step at 2. cbn [rbind].
  rewrite slice_0_4. cbn [struct.unpack_I rbind cksum_from].
  fold (word_of b0 b1 b2 b3).
  rewrite <- IH. 
  generalize (Ok (A:=Z) (Z.land (Z.lxor acc (word_of b0 b1 b2 b3)) mask32)).
  generalize (range0_nonneg (len rest)).
  generalize (range0 (len rest) 4). intros l Hl r.
  revert r. induction l as [|i l IHl]; intros r; cbn; [reflexivity|].
  rewrite IHl by (intros; apply Hl; right; assumption).
  f_equal. unfold cksum_step. rewrite slice_shift4; [reflexivity|].
  apply Hl. left; reflexivity.
Qed.

Lemma aligned_cons4 (b0 b1 b2 b3 : byte) rest :
  aligned (b0 :: b1 :: b2 :: b3 :: rest) <-> aligned rest.
Proof.
  unfold aligned. rewrite !len_cons.
  replace (len rest + 1 + 1 + 1 + 1) with (len rest + 1 * 4) by lia.
  rewrite Z_mod_plus_full. reflexivity.
Qed.

Lemma xor_fold_range data : 0 <= xor_fold data < 2 ^ 32.
Proof.
  induction data as [|a|a b|a b c|b0 b1 b2 b3 rest IH] using list_ind4;
    cbn [xor_fold]; try (change (2 ^ 32) with 4294967296; lia).
  apply lxor_range; [apply word_of_range | exact IH].
Qed.

Lemma cksum_from_aligned data : forall acc,
  0 <= acc < 2 ^ 32 -> aligned data ->
  cksum_from acc data = Ok (Z.lxor acc (xor_fold data)).
Proof.
  induction data as [|a|a b|a b c|b0 b1 b2 b3 rest IH] using list_ind4;
    intros acc Hacc Hal; try discriminate Hal.
  - cbn. rewrite Z.lxor_0_r. reflexivity.
  - cbn [cksum_from xor_fold].
    pose proof (word_of_range b0 b1 b2 b3) as Hw.
    pose proof (lxor_range _ _ Hacc Hw) as Hx.
    rewrite land_mask32_small by exact Hx.
    rewrite IH by (try exact Hx; apply aligned_cons4 in Hal; exact Hal).
    rewrite Z.lxor_assoc. reflexivity.
Qed.

Lemma cksum_from_Ok_aligned data : forall acc c,
  cksum_from acc data = Ok c -> aligned data.
Proof.
  induction data as [|a|a b|a b c|b0 b1 b2 b3 rest IH] using list_ind4;
    intros acc r H; try discriminate H.
  - reflexivity.
  - apply aligned_cons4. exact (IH _ _ H).
Qed.

Lemma calc_cksum_aligned data :
  aligned data -> PIB.calc_cksum data = Ok (neg32 (xor_fold data)).
Proof.
  intros Hal. unfold PIB.calc_cksum.
  rewrite cksum_loop_spec, cksum_from_aligned by (try exact Hal; lia).
  rewrite Z.lxor_0_l. reflexivity.
Qed.

Lemma calc_cksum_Ok_aligned data c :
  PIB.calc_cksum data = Ok c -> aligned data.
Proof.
  unfold PIB.calc_cksum. rewrite cksum_loop_spec.
  destruct (cksum_from 0 data) as [x|e] eqn:E; [|discriminate].
  intros _. exact (cksum_from_Ok_aligned _ _ _ E).
Qed.

Lemma calc_cksum_same data : calc_cksum data = PIB.calc_cksum data.
Proof. reflexivity. Qed.

Lemma len_app {A} (a b : list A) : len (a ++ b) = len a + len b.
Proof. unfold len. rewrite length_app. lia. Qed.

Lemma aligned_app a b : aligned a -> aligned b -> aligned (a ++ b).
Proof.
  unfold aligned. rewrite len_app. intros Ha Hb.
  rewrite Z.add_mod, Ha, Hb by lia. reflexivity.
Qed.

Lemma xor_fold_app a b :
  aligned a -> xor_fold (a ++ b) = Z.lxor (xor_fold a) (xor_fold b).
Proof.
  induction a as [|x|x y|x y z|b0 b1 b2 b3 rest IH] using list_ind4;
    intros Hal; try discriminate Hal.
  - cbn [app xor_fold]. rewrite Z.lxor_0_l. reflexivity.
  - cbn [app xor_fold]. rewrite IH by (apply aligned_cons4 in Hal; exact Hal).
    rewrite Z.lxor_assoc. reflexivity.
Qed.

Lemma pack_I_word c :
  0 <= c < 2 ^ 32 ->
  exists b0 b1 b2 b3,
    struct.pack_I c = Ok [b0; b1; b2; b3] /\ word_of b0 b1 b2 b3 = c.
Proof.
  intros Hc. change (2 ^ 32) with 4294967296 in Hc. unfold struct.pack_I.
  replace ((0 <=? c) && (c <? 4294967296)) with true
    by (symmetry; apply andb_true_intro; split; [apply Z.leb_le | apply Z.ltb_lt]; lia).
  do 4 eexists. split; [reflexivity|].
  unfold word_of.
  rewrite !byte_val_of by (apply Z.mod_pos_bound; lia).
  pose proof (Z.div_mod c 256 ltac:(lia)).
  pose proof (Z.div_mod (c / 256) 256 ltac:(lia)).
  pose proof (Z.div_mod (c / 256 / 256) 256 ltac:(lia)).
  replace (c / 65536) with (c / 256 / 256) by (rewrite Z.div_div by lia; reflexivity).
  replace (c / 16777216) with (c / 256 / 256 / 256)
    by (rewrite !Z.div_div by lia; reflexivity).
  assert (c / 256 / 256 / 256 < 256).
  { apply Z.div_lt_upper_bound; [lia|]. apply Z.div_lt_upper_bound; [lia|].
    apply Z.div_lt_upper_bound; lia. }
  assert (0 <= c / 256 / 256 / 256) by (repeat apply Z.div_pos; lia).
  rewrite (Z.mod_small (c / 256 / 256 / 256)) by lia.
  lia.
Qed.

(** C4: for every byte string [buf] whose length is a multiple of 4,
    [calc_cksum(buf)] returns a word [c], [struct.pack('<I', c)] encodes
    it, and [calc_cksum] of [buf] followed by that encoding is 0. *)
Theorem cksum_self_inverse (buf : bytes) :
  len buf mod 4 = 0 ->
  exists c enc,
    PIB.calc_cksum buf = Ok c /\ struct.pack_I c = Ok enc
    /\ PIB.calc_cksum (buf ++ enc) = Ok 0.
Proof.
  intros Hal. fold (aligned buf) in Hal.
  destruct (pack_I_word (neg32 (xor_fold buf)) (neg32_range _))
    as (b0 & b1 & b2 & b3 & Hpack & Hword).
  exists (neg32 (xor_fold buf)), [b0; b1; b2; b3].
  split; [apply calc_cksum_aligned; exact Hal|]. split; [exact Hpack|].
  rewrite calc_cksum_aligned by (apply aligned_app; [exact Hal | reflexivity]).
  rewrite xor_fold_app by exact Hal.
  cbn [xor_fold]. rewrite Hword, Z.lxor_0_r.
  rewrite lxor_neg32 by apply xor_fold_range. reflexivity.
Qed.

Lemma firstn_app_exact {A} (l1 l2 : list A) n :
  List.length l1 = n -> firstn n (l1 ++ l2) = l1.
Proof.
  intros <-. rewrite firstn_app, Nat.sub_diag, firstn_all, firstn_O.
  apply app_nil_r.
Qed.

Lemma skipn_app_exact {A} (l1 l2 : list A) n :
  List.length l1 = n -> skipn n (l1 ++ l2) = l2.
Proof.
  intros <-. rewrite skipn_app, Nat.sub_diag, skipn_all. reflexivity.
Qed.

Lemma len_slice_to {A} (l : list A) j :
  0 <= j <= len l -> len (slice_to l j) = j.
Proof. unfold len, slice_to. intros H. rewrite length_firstn. lia. Qed.

Lemma len_slice_from {A} (l : list A) i :
  0 <= i <= len l -> len (slice_from l i) = len l - i.
Proof. unfold len, slice_from. intros H. rewrite length_skipn. lia. Qed.

Lemma len_slice {A} (l : list A) i j :
  0 <= i <= j -> j <= len l -> len (slice l i j) = j - i.
Proof.
  unfold len, slice. intros H H'. rewrite length_firstn, length_skipn. lia.
Qed.

Lemma slice_to_app_exact {A} (l1 l2 : list A) n :
  len l1 = n -> slice_to (l1 ++ l2) n = l1.
Proof. unfold len, slice_to. intros H. apply firstn_app_exact. lia. Qed.

Lemma slice_from_app_exact {A} (l1 l2 : list A) n :
  len l1 = n -> slice_from (l1 ++ l2) n = l2.
Proof. unfold len, slice_from. intros H. apply skipn_app_exact. lia. Qed.

Lemma slice_app_exact {A} (l1 l2 l3 : list A) i j :
  len l1 = i -> len l2 = j - i -> slice (l1 ++ l2 ++ l3) i j = l2.
Proof.
  unfold len, slice. intros H1 H2.
  rewrite skipn_app_exact by lia. apply firstn_app_exact. lia.
Qed.

(** A slice inside the first part of an append *)
Lemma slice_app_l {A} (l1 l2 : list A) i j :
  0 <= i -> j <= len l1 -> slice (l1 ++ l2) i j = slice l1 i j.
Proof.
  unfold len, slice. intros Hi Hj.
  rewrite skipn_app, firstn_app, length_skipn.
  replace (Z.to_nat (j - i) - (List.length l1 - Z.to_nat i))%nat with 0%nat by lia.
  rewrite firstn_O. apply app_nil_r.
Qed.

Lemma slice_slice_to {A} (l : list A) i j n :
  0 <= i -> j <= n -> slice (slice_to l n) i j = slice l i j.
Proof.
  unfold slice, slice_to. intros Hi Hj.
  rewrite skipn_firstn_comm, firstn_firstn. f_equal. lia.
Qed.

Lemma is_valid_aligned p b : PIB.is_valid p = Ok b -> aligned (PIB._pib p).
Proof.
  unfold PIB.is_valid. destruct (PIB.calc_cksum (PIB._pib p)) eqn:E; [|discriminate].
  intros _. exact (calc_cksum_Ok_aligned _ _ E).
Qed.

Lemma aligned_len l n : len l = n -> n mod 4 = 0 -> aligned l.
Proof. unfold aligned. intros ->. trivial. Qed.

(** What [master_replace] returns on a complete PIB that holds the master
    field and whose length is a multiple of four: the same bytes but for
    the master and the checksum, and the checksum is right again. *)
Lemma master_replace_result (p : PIB.t) (m : bytes) :
  PIB.is_complete p = Ok true ->
  PIB.is_valid p = Ok true ->
  len m = 6 ->
  0x2c90 <= PIB.__len__ p ->
  exists q,
    PIB.master_replace p m = Ok q /\ PIB.is_valid q = Ok true
    /\ PIB.is_complete q = Ok true /\ PIB.master_get q = m
    /\ PIB.__len__ q = PIB.__len__ p.
Proof.
  destruct p as [a]. unfold PIB.__len__. cbn [PIB._pib].
  intros Hcomplete Hvalid Hm Hlen.
  apply is_valid_aligned in Hvalid. cbn [PIB._pib] in Hvalid.
  unfold aligned in Hvalid.
  unfold PIB.master_replace. cbn [PIB._pib].
  set (hd := slice_to a 8).
  set (mid := slice a 12 0x2c8a).
  set (tl := slice_from a 0x2c90).
  assert (Hhd : len hd = 8) by (apply len_slice_to; lia).
  assert (Hmid : len mid = 0x2c8a - 12) by (apply len_slice; lia).
  assert (Htl : len tl = len a - 0x2c90) by (apply len_slice_from; lia).
  set (T := mid ++ m ++ tl).
  assert (HT : len T = len a - 12) by (unfold T; rewrite !len_app; lia).
  assert (HalT : aligned T).
  { apply (aligned_len _ _ HT). rewrite <- (Z_mod_plus_full _ 3 4).
    replace (len a - 12 + 3 * 4) with (len a) by lia. exact Hvalid. }
  assert (Halhd : aligned hd) by (apply (aligned_len _ _ Hhd); reflexivity).
  replace ((hd ++ [x00; x00; x00; x00] ++ mid) ++ m ++ tl)
    with (hd ++ [x00; x00; x00; x00] ++ T)
    by (unfold T; rewrite <- !app_assoc; reflexivity).
  rewrite calc_cksum_aligned
    by (apply aligned_app; [exact Halhd | apply aligned_cons4; exact HalT]).
  cbn [rbind].
  set (c := neg32 (xor_fold (hd ++ [x00; x00; x00; x00] ++ T))).
  destruct (pack_I_word c (neg32_range _)) as (b0 & b1 & b2 & b3 & Hpack & Hword).
  rewrite Hpack. cbn [rbind].
  rewrite slice_to_app_exact by exact Hhd.
  replace (hd ++ [x00; x00; x00; x00] ++ T)
    with ((hd ++ [x00; x00; x00; x00]) ++ T) by (rewrite <- app_assoc; reflexivity).
  rewrite slice_from_app_exact by (rewrite len_app, Hhd; reflexivity).
  set (new := hd ++ [b0; b1; b2; b3] ++ T).
  assert (Halnew : aligned new)
    by (apply aligned_app; [exact Halhd | apply aligned_cons4; exact HalT]).
  assert (Hnew0 : neg32 (xor_fold new) = 0).
  { unfold new. rewrite xor_fold_app by exact Halhd.
    cbn [app xor_fold]. rewrite Hword. unfold c.
    rewrite xor_fold_app by exact Halhd.
    cbn [app xor_fold].
    change (word_of x00 x00 x00 x00) with 0. rewrite Z.lxor_0_l.
    set (A := Z.lxor (xor_fold hd) (xor_fold T)).
    replace (Z.lxor (xor_fold hd) (Z.lxor (neg32 A) (xor_fold T)))
      with (Z.lxor A (neg32 A)).
    - rewrite lxor_neg32; [reflexivity|].
      apply lxor_range; apply xor_fold_range.
    - unfold A. rewrite (Z.lxor_comm (neg32 _)), Z.lxor_assoc. reflexivity. }
  rewrite calc_cksum_aligned by exact Halnew.
  cbn [rbind]. rewrite Hnew0. cbn [Z.eqb assert rbind].
  assert (Hlennew : len new = len a) by (unfold new; rewrite !len_app, Hhd, HT, !len_cons;
        change (len (@nil byte)) with 0; lia).
  assert (Hsize : PIB.size (PIB.mk new) = PIB.size (PIB.mk a)).
  { unfold PIB.size. cbn [PIB._pib]. unfold new.
    rewrite slice_app_l by lia. unfold hd. rewrite slice_slice_to by lia.
    reflexivity. }
  unfold PIB.is_complete in Hcomplete. cbn [PIB._pib] in Hcomplete.
  destruct (PIB.size (PIB.mk a)) as [s|] eqn:Es; [|discriminate].
  cbn [rbind] in Hcomplete. unfold PIB.__len__ in Hcomplete. cbn [PIB._pib] in Hcomplete.
  injection Hcomplete as Hcomplete. apply Z.eqb_eq in Hcomplete.
  exists (PIB.mk new).
  unfold PIB.__init__, PIB.is_valid, PIB.is_complete, PIB.master_get, PIB.__len__.
  cbn [PIB._pib]. rewrite Hsize, Hlennew. cbn [rbind].
  replace (8 <? len a) with true by (symmetry; apply Z.ltb_lt; lia).
  replace (len a <=? s) with true by (symmetry; apply Z.leb_le; lia).
  replace (len a =? s) with true by (symmetry; apply Z.eqb_eq; lia).
  rewrite calc_cksum_aligned by exact Halnew. rewrite Hnew0.
  cbn [assert rbind Z.eqb].
  repeat split.
  unfold new, T.
  replace (hd ++ [b0; b1; b2; b3] ++ mid ++ m ++ tl)
    with ((hd ++ [b0; b1; b2; b3] ++ mid) ++ m ++ tl)
    by (rewrite <- !app_assoc; reflexivity).
  apply slice_app_exact; [|lia].
  rewrite !len_app, Hhd, Hmid, !len_cons. change (len (@nil byte)) with 0. lia.
Qed.

(** C1, amended: for every complete valid PIB [p] that is at least
    0x2c90 bytes long, so that it holds the master field, and every
    6-byte MAC [m], [master_replace(p, m)] returns a PIB on which
    [is_valid()] holds; that PIB is complete, as long as [p], and its
    master is [m]. *)
Theorem master_replace_valid (p : PIB.t) (m : bytes) :
  PIB.is_complete p = Ok true ->
  PIB.is_valid p = Ok true ->
  len m = 6 ->
  0x2c90 <= PIB.__len__ p ->
  exists q,
    PIB.master_replace p m = Ok q /\ PIB.is_valid q = Ok true
    /\ PIB.is_complete q = Ok true /\ PIB.master_get q = m
    /\ PIB.__len__ q = PIB.__len__ p.
Proof. exact (master_replace_result p m). Qed.

(** ** The tick in the two probing states *)

Lemma send_hp_probe_spec (w : World pyfloat) :
  send_hp_probe w = (Ok tt, with_sent [hp_probe_msg] w).
Proof. reflexivity. Qed.

Lemma tick_Probing (now : Z) (w : World pyfloat) last_sent num_sent :
  state (self w) = DSProbing last_sent num_sent ->
  tick now w =
    (Ok tt,
     if last_sent <? now - probe_delay then
       with_self
         (set_state (if num_sent >=? max_probing_tries
                     then DSProbingHP now
                     else DSProbing now (num_sent + 1)))
         (with_sent [probe_msg] w)
     else w).
Proof.
  intros Hs. unfold tick, bind, get. rewrite Hs.
  destruct (last_sent <? now - probe_delay); [|reflexivity].
  destruct (num_sent >=? max_probing_tries); reflexivity.
Qed.

Lemma tick_ProbingHP (now : Z) (w : World pyfloat) last_sent :
  state (self w) = DSProbingHP last_sent ->
  tick now w =
    (Ok tt,
     if last_sent <? now - probe_delay then
       with_self (set_state (DSProbingHP now))
         (with_sent [probe_msg; hp_probe_msg] w)
     else w).
Proof.
  intros Hs. unfold tick, bind, get. rewrite Hs.
  destruct (last_sent <? now - probe_delay); [|reflexivity].
  unfold send_ether_probe, _send_to_device, modify.
  rewrite send_hp_probe_spec. unfold upd, modify, with_self, with_sent.
  cbn [self server _sock _datalog _interface_mac_bytes].
  rewrite <- app_assoc. reflexivity.
Qed.

Lemma set_state_set_state s s' (d : Device pyfloat) :
  set_state s (set_state s' d) = set_state s d.
Proof. reflexivity. Qed.

Lemma state_set_state s (d : Device pyfloat) : state (set_state s d) = s.
Proof. reflexivity. Qed.

Lemma run_ticks_cons t ts (w : World pyfloat) :
  run_ticks (t :: ts) w =
    match tick t w with
    | (Ok _, w') => run_ticks ts w'
    | (Raise e, w') => (Raise e, w')
    end.
Proof. reflexivity. Qed.

Lemma last_cons_default {A} (ts : list A) : forall t d,
  last (t :: ts) d = last ts t.
Proof.
  induction ts as [|x ts IH]; intros t d; [reflexivity|].
  change (last (t :: x :: ts) d) with (last (x :: ts) d).
  rewrite (IH x d), (IH x t). reflexivity.
Qed.

(** In [DSProbingHP] the machine stays there, whatever the ticks. *)
Lemma run_ticks_ProbingHP ts : forall (w : World pyfloat) last_sent,
  state (self w) = DSProbingHP last_sent ->
  exists w' last_sent',
    run_ticks ts w = (Ok tt, w')
    /\ self w' = set_state (DSProbingHP last_sent') (self w).
Proof.
  induction ts as [|t ts IH]; intros w ls Hs.
  - exists w, ls. split; [reflexivity|]. rewrite <- Hs. destruct (self w); reflexivity.
  - rewrite run_ticks_cons, (tick_ProbingHP t w ls Hs).
    destruct (ls <? t - probe_delay).
    + destruct (IH (with_self (set_state (DSProbingHP t))
                      (with_sent [probe_msg; hp_probe_msg] w)) t eq_refl)
        as (w' & ls' & Hrun & Hself).
      exists w', ls'. split; [exact Hrun|]. rewrite Hself. reflexivity.
    + exact (IH w ls Hs).
Qed.

(** From [DSProbing] with [num_sent] probes counted, ticks that all fire
    count up to [max_probing_tries]; the tick after that leaves the state. *)
Lemma run_ticks_Probing ts : forall (w : World pyfloat) last_sent num_sent,
  state (self w) = DSProbing last_sent num_sent ->
  spaced last_sent ts ->
  exists w',
    run_ticks ts w = (Ok tt, w')
    /\ ((0 <? len ts) && (max_probing_tries - num_sent <? len ts) = true ->
        exists last_sent', state (self w') = DSProbingHP last_sent')
    /\ ((0 <? len ts) && (max_probing_tries - num_sent <? len ts) = false ->
        state (self w') = DSProbing (last ts last_sent) (num_sent + len ts)).
Proof.
  unfold max_probing_tries.
  induction ts as [|t ts IH]; intros w ls n Hs Hsp.
  - exists w. split; [reflexivity|]. split; [discriminate|].
    intros _. change (len (@nil Z)) with 0. rewrite Z.add_0_r. exact Hs.
  - destruct Hsp as [Hfire Hsp].
    rewrite run_ticks_cons, (tick_Probing t w ls n Hs).
    replace (ls <? t - probe_delay) with true by (symmetry; apply Z.ltb_lt; exact Hfire).
    unfold max_probing_tries. rewrite len_cons.
    pose proof (len_nonneg ts) as Hlen.
    destruct (Z.geb_spec n 5) as [Hn|Hn].
    + destruct (run_ticks_ProbingHP ts
                  (with_self (set_state (DSProbingHP t)) (with_sent [probe_msg] w))
                  t eq_refl) as (w' & ls' & Hrun & Hself).
      exists w'. split; [exact Hrun|]. split.
      * intros _. exists ls'. rewrite Hself. reflexivity.
      * intros H. apply andb_false_iff in H.
        destruct H as [H|H]; [apply Z.ltb_ge in H | apply Z.ltb_ge in H]; lia.
    + destruct (IH (with_self (set_state (DSProbing t (n + 1))) (with_sent [probe_msg] w))
                  t (n + 1) eq_refl Hsp) as (w' & Hrun & Hhp & Hprob).
      exists w'. split; [exact Hrun|]. split.
      * intros H. apply Hhp. apply andb_true_iff in H. destruct H as [H1 H2].
        apply Z.ltb_lt in H2. apply andb_true_iff. split; apply Z.ltb_lt; lia.
      * intros H.
        rewrite last_cons_default.
        replace (n + (len ts + 1)) with (n + 1 + len ts) by lia.
        apply Hprob. apply andb_false_iff in H. apply andb_false_iff.
        destruct H as [H|H]; apply Z.ltb_ge in H; [lia|].
        right. apply Z.ltb_ge. lia.
Qed.

(** C5, amended: from the initial state [DSProbing(0, 0)], after N
    ticks with N at least [max_probing_tries + 1] (6), each tick more
    than [probe_delay] (10 s) after the one before and the first more
    than 10 s after time 0, and nothing received, no tick has raised and
    the machine is in [DSProbingHP]. *)
Theorem probing_reaches_ProbingHP (w : World pyfloat) (ts : list Z) :
  state (self w) = DSProbing 0 0 ->
  spaced 0 ts ->
  max_probing_tries + 1 <= len ts ->
  exists w' last_sent,
    run_ticks ts w = (Ok tt, w') /\ state (self w') = DSProbingHP last_sent.
Proof.
  intros Hs Hsp Hn.
  destruct (run_ticks_Probing ts w 0 0 Hs Hsp) as (w' & Hrun & Hhp & _).
  destruct Hhp as (ls & Hls).
  - unfold max_probing_tries in *. apply andb_true_iff. split; apply Z.ltb_lt; lia.
  - exists w', ls. split; assumption.
Qed.

(** After exactly [max_probing_tries] ticks that all fire, the machine is
    still in [DSProbing]. *)
Lemma probing_after_max_tries (w : World pyfloat) (ts : list Z) :
  state (self w) = DSProbing 0 0 ->
  spaced 0 ts ->
  len ts = max_probing_tries ->
  exists w',
    run_ticks ts w = (Ok tt, w')
    /\ state (self w') = DSProbing (last ts 0) max_probing_tries.
Proof.
  intros Hs Hsp Hn.
  destruct (run_ticks_Probing ts w 0 0 Hs Hsp) as (w' & Hrun & _ & Hp).
  exists w'. split; [exact Hrun|]. rewrite Hp, Hn; [reflexivity|].
  rewrite Hn. reflexivity.
Qed.

(** ** The tick in the three PIB states *)

Lemma unpack_H_range d s : struct.unpack_H d = Ok s -> 0 <= s < 65536.
Proof.
  destruct d as [|b0 [|b1 [|]]]; try discriminate.
  unfold struct.unpack_H. intros E.
  assert (s = byte_val b0 + 256 * byte_val b1) as -> by congruence.
  pose proof (byte_val_range b0). pose proof (byte_val_range b1). lia.
Qed.

Lemma PIB_init_inv a p :
  PIB.__init__ a = Ok p ->
  p = PIB.mk a /\ 8 < len a
  /\ exists s, PIB.size p = Ok s /\ len a <= s < 65536.
Proof.
  unfold PIB.__init__, PIB.__len__. cbn [PIB._pib].
  destruct (Z.ltb_spec 8 (len a)) as [H8|]; [|discriminate].
  cbn [assert rbind].
  destruct (PIB.size (PIB.mk a)) as [s|] eqn:Es; [|discriminate].
  cbn [rbind]. destruct (Z.leb_spec (len a) s) as [Hs|]; [|discriminate].
  cbn [assert rbind]. intros [= <-]. split; [reflexivity|]. split; [exact H8|].
  exists s. split; [exact Es|]. unfold PIB.size in Es. apply unpack_H_range in Es. lia.
Qed.

Lemma pack_H_ok v : 0 <= v < 65536 -> exists b, struct.pack_H v = Ok b.
Proof.
  intros H. unfold struct.pack_H.
  replace ((0 <=? v) && (v <? 65536)) with true
    by (symmetry; apply andb_true_iff; split; [apply Z.leb_le | apply Z.ltb_lt]; lia).
  eexists; reflexivity.
Qed.

Lemma pack_I_ok v : 0 <= v < 2 ^ 32 -> exists b, struct.pack_I v = Ok b.
Proof.
  intros H. destruct (pack_I_word v H) as (b0 & b1 & b2 & b3 & Hp & _).
  eexists; exact Hp.
Qed.

Lemma hp_head_ok mmtype :
  0 <= mmtype < 65536 -> exists h, hp_head mmtype = Ok h.
Proof.
  intros H. unfold hp_head. destruct (pack_H_ok mmtype H) as (t & ->).
  eexists; reflexivity.
Qed.

Lemma send_hp_read_pib_ok offset length (w : World pyfloat) :
  0 <= offset < 2 ^ 32 -> 0 <= length < 65536 ->
  exists msg, send_hp_read_pib offset length w = (Ok tt, with_sent [msg] w).
Proof.
  intros Ho Hl. unfold send_hp_read_pib, bind, lift.
  destruct (hp_head_ok 0xa024 ltac:(lia)) as (h & ->).
  destruct (pack_H_ok length Hl) as (l & ->).
  destruct (pack_I_ok offset Ho) as (o & ->).
  cbn [rbind]. eexists; reflexivity.
Qed.

Lemma len_slice_gen {A} (l : list A) i j :
  0 <= i -> len (slice l i j) = Z.max 0 (Z.min (j - i) (len l - i)).
Proof.
  unfold len, slice. intros Hi. rewrite length_firstn, length_skipn. lia.
Qed.

Lemma chunk_aligned a offset :
  aligned a -> 0 <= offset -> offset mod pib_chunk = 0 ->
  aligned (slice a offset (offset + pib_chunk)).
Proof.
  unfold aligned, pib_chunk. intros Ha Ho Hm.
  rewrite len_slice_gen by exact Ho.
  replace (offset + 1024 - offset) with 1024 by lia.
  pose proof (Z.div_mod (len a) 4 ltac:(lia)) as Ea.
  pose proof (Z.div_mod offset 1024 ltac:(lia)) as Eo.
  rewrite Ha in Ea. rewrite Hm in Eo.
  destruct (Z.le_gt_cases 1024 (len a - offset)).
  - rewrite Z.min_l, Z.max_r by lia. reflexivity.
  - rewrite Z.min_r by lia.
    destruct (Z.le_gt_cases 0 (len a - offset)).
    + rewrite Z.max_r by lia.
      replace (len a - offset) with ((len a / 4 - 256 * (offset / 1024)) * 4) by lia.
      apply Z_mod_mult.
    + rewrite Z.max_l by lia. reflexivity.
Qed.

Lemma send_hp_write_pib_ok (w : World pyfloat) st ls offset pib :
  state (self w) = DSWritePIB st ls offset pib ->
  state_ok (DSWritePIB st ls offset pib) ->
  exists msg, send_hp_write_pib w = (Ok tt, with_sent [msg] w).
Proof.
  intros Hs (Hinit & Hvalid & Hoff & Hmod).
  apply PIB_init_inv in Hinit. destruct Hinit as (_ & H8 & s & Hsize & Hlen).
  apply is_valid_aligned in Hvalid.
  unfold PIB.__len__ in Hoff.
  unfold send_hp_write_pib, bind, get, lift. rewrite Hs.
  set (data := slice (PIB._pib pib) offset (offset + pib_chunk)).
  assert (Hdata : 0 <= len data < 65536).
  { unfold data, pib_chunk. rewrite len_slice_gen by lia. lia. }
  destruct (hp_head_ok 0xa020 ltac:(lia)) as (h & ->).
  destruct (pack_H_ok (len data) Hdata) as (l & ->).
  destruct (pack_I_ok offset ltac:(change (2 ^ 32) with 4294967296; lia)) as (o & ->).
  rewrite calc_cksum_same, calc_cksum_aligned
    by (apply chunk_aligned; [exact Hvalid | lia | exact Hmod]).
  cbn [rbind].
  destruct (pack_I_ok _ (neg32_range (xor_fold data))) as (ck & ->).
  cbn [rbind]. eexists; reflexivity.
Qed.

Lemma reset_state_set_state s (d : Device pyfloat) :
  reset_state (set_state s d) = reset_state d.
Proof. reflexivity. Qed.

(** Past the deadline the tick resets the machine. *)
Lemma tick_pib_timeout (now : Z) (w : World pyfloat) start_time :
  pib_start_time (state (self w)) = Some start_time ->
  now - start_time > pib_abort_time ->
  tick now w = (Ok tt, with_self reset_state w).
Proof.
  intros Hs Ht. unfold tick, bind, get.
  destruct (state (self w)); try discriminate Hs; injection Hs as ->;
    (replace (start_time <? now - pib_abort_time) with true
       by (symmetry; apply Z.ltb_lt; lia)); reflexivity.
Qed.

(** Before the deadline the tick keeps the state, but for [last_sent]. *)
Lemma tick_pib_alive (now : Z) (w : World pyfloat) start_time :
  pib_start_time (state (self w)) = Some start_time ->
  state_ok (state (self w)) ->
  now - start_time <= pib_abort_time ->
  exists msgs s,
    tick now w = (Ok tt, with_self (set_state s) (with_sent msgs w))
    /\ pib_start_time s = Some start_time /\ state_ok s
    /\ expected_action s = expected_action (state (self w)).
Proof.
  intros Hs Hok Ht.
  assert (Hidle : forall s, state (self w) = s ->
            (Ok tt, w) = (Ok tt, with_self (set_state s) (with_sent [] w))).
  { intros s <-. unfold with_self, with_sent. rewrite app_nil_r.
    destruct w as [[] []]; reflexivity. }
  unfold tick, bind, get.
  destruct (state (self w)) as [| |st ls pib|st ls off pib|st ls|] eqn:E;
    try discriminate Hs; injection Hs as ->;
    (replace (start_time <? now - pib_abort_time) with false
       by (symmetry; apply Z.ltb_ge; lia)).
  - destruct (ls <? now - probe_delay).
    + cbn in Hok. pose proof Hok as Hok'. apply PIB_init_inv in Hok.
      destruct Hok as (Hp & H8 & s & Hsize & Hlen).
      unfold lift. rewrite Hsize.
      destruct (send_hp_read_pib_ok (PIB.__len__ pib)
                  (Z.min (s - PIB.__len__ pib) pib_chunk) w) as (msg & ->).
      { unfold PIB.__len__. change (2 ^ 32) with 4294967296. lia. }
      { unfold PIB.__len__, pib_chunk. lia. }
      exists [msg], (DSReadPIB start_time now pib).
      split; [reflexivity|]. split; [reflexivity|]. split; [exact Hok'|].
      reflexivity.
    + exists [], (DSReadPIB start_time ls pib).
      split; [exact (Hidle _ eq_refl)|]. split; [reflexivity|].
      split; [exact Hok | reflexivity].
  - destruct (ls <? now - probe_delay).
    + destruct (send_hp_write_pib_ok w start_time ls off pib E Hok)
        as (msg & ->).
      exists [msg], (DSWritePIB start_time now off pib).
      split; [reflexivity|]. split; [reflexivity|]. split; [exact Hok|].
      reflexivity.
    + exists [], (DSWritePIB start_time ls off pib).
      split; [exact (Hidle _ eq_refl)|]. split; [reflexivity|].
      split; [exact Hok | reflexivity].
  - destruct (ls <? now - probe_delay).
    + exists [[x88; xe1; x00; x28; xa0; x00; xb0; x52; x02]],
        (DSWritePIBToNVM start_time now).
      split; [|split; [reflexivity | split; [exact I | reflexivity]]].
      unfold send_hp_write_pib_to_nvm, bind, get. rewrite E. reflexivity.
    + exists [], (DSWritePIBToNVM start_time ls).
      split; [exact (Hidle _ eq_refl)|]. split; [reflexivity|].
      split; [exact I | reflexivity].
Qed.

(** ** Confirmations in the PIB states *)

(** C3: a write confirmation with status 0 that reaches a device in
    [DSWritePIB] moves it to [DSWritePIBToNVM(start_time = now,
    last_sent = 0)] when [pib_current_offset + pib_chunk >= len(pib)],
    and otherwise advances [pib_current_offset] by [pib_chunk] with
    [last_sent] set to 0; a commit confirmation with status 0 that
    reaches a device in [DSWritePIBToNVM] resets it to [DSProbing(0, 0)].
    Nothing else of the world changes and the handler returns [True]. *)
Theorem write_confirm_advances (w : World pyfloat) (now : Z) (data : bytes) :
  struct.unpack_B (slice data 0 1) = Ok 0 ->
  (forall start_time last_sent pib_current_offset pib,
     state (self w) = DSWritePIB start_time last_sent pib_current_offset pib ->
     packet_homeplug now 0xa021 data w =
       (Ok (Some true),
        with_self
          (set_state
             (if pib_current_offset + pib_chunk >=? PIB.__len__ pib
              then DSWritePIBToNVM now 0
              else DSWritePIB start_time 0 (pib_current_offset + pib_chunk)
                     pib))
          w))
  /\ (forall start_time last_sent,
        state (self w) = DSWritePIBToNVM start_time last_sent ->
        packet_homeplug now 0xa029 data w =
          (Ok (Some true), with_self reset_state w)
        /\ state (reset_state (self w)) = DSProbing 0 0).
Proof.
  intros Hst. split.
  - intros st ls off pib Hs. unfold packet_homeplug, bind, get, lift.
    rewrite Hs, Hst. cbn [class_of class_in existsb class_eqb negb orb andb Z.eqb].
    destruct (off + pib_chunk >=? PIB.__len__ pib); reflexivity.
  - intros st ls Hs. split; [|reflexivity].
    unfold packet_homeplug, bind, get, lift.
    rewrite Hs, Hst. reflexivity.
Qed.

Lemma bytes_eqb_eq a b : bytes_eqb a b = true <-> a = b.
Proof.
  unfold bytes_eqb. destruct (list_eq_dec Byte.byte_eq_dec a b); split;
    congruence.
Qed.

(** How [packet_homeplug] goes on in [DSReadPIB] once the confirmation has
    passed the checks of its header. *)
Lemma packet_homeplug_ReadPIB (w : World pyfloat) (now : Z) (data : bytes)
    start_time last_sent pib status length offset :
  state (self w) = DSReadPIB start_time last_sent pib ->
  struct.unpack_B (slice data 0 1) = Ok 0 ->
  struct.unpack_BxxxBxHI (slice_to data 12) = Ok (status, 2, length, offset) ->
  calc_cksum (slice_from data 12) = Ok 0 ->
  packet_homeplug now 0xa025 data w =
    (if negb (offset =? PIB.__len__ pib) then ret None
     else
       (newpib <- lift (PIB.__add__ pib (slice data 16 (16 + length))) ;;
        complete <- lift (PIB.is_complete newpib) ;;
        if complete then
          valid <- lift (PIB.is_valid newpib) ;;
          if negb valid then upd reset_state ;;; ret None
          else
            if bytes_eqb (PIB.master_get newpib)
                 (_interface_mac_bytes (server w))
            then upd reset_state ;;; ret None
            else
              p <- lift (PIB.master_replace newpib
                           (_interface_mac_bytes (server w))) ;;
              upd (set_state (DSWritePIB now 0 0 p)) ;;;
              ret None
        else
          upd (set_state (DSReadPIB start_time 0 newpib)) ;;;
          ret None)%se) w.
Proof.
  intros Hs Hst Hhdr Hck. unfold packet_homeplug.
  unfold bind at 1. unfold get at 1. rewrite Hs.
  cbn [class_of class_in existsb class_eqb negb orb andb Z.eqb].
  unfold bind at 1. unfold lift at 1. rewrite Hst.
  cbn [negb Z.eqb].
  unfold bind at 1. unfold lift at 1. rewrite Hhdr.
  cbn [negb Z.eqb].
  unfold bind at 1. unfold lift at 1. rewrite Hck.
  cbn [negb Z.eqb].
  reflexivity.
Qed.

(** C2, amended: a read confirmation (status 0, module 2, chunk
    checksum 0) reaches a device in [DSReadPIB]. If its offset is not the
    length of the partial PIB it changes nothing. If it is, and the chunk
    makes the PIB complete, the device (a) resets when [is_valid()] is
    false, (b) resets when the master of the PIB is the MAC of the
    controller, and (c) otherwise, when the complete PIB is at least
    0x2c90 bytes long and the MAC of the controller has 6 bytes, moves
    to [DSWritePIB(start_time = now, last_sent = 0, pib_current_offset =
    0)] with [master_replace(controller MAC)] of the downloaded PIB,
    which is valid and names the controller as master. *)
Theorem read_confirm_completes (w : World pyfloat) (now : Z) (data : bytes)
    start_time last_sent pib status length offset :
  state (self w) = DSReadPIB start_time last_sent pib ->
  struct.unpack_B (slice data 0 1) = Ok 0 ->
  struct.unpack_BxxxBxHI (slice_to data 12) = Ok (status, 2, length, offset) ->
  calc_cksum (slice_from data 12) = Ok 0 ->
  let mac := _interface_mac_bytes (server w) in
  (offset <> PIB.__len__ pib ->
   packet_homeplug now 0xa025 data w = (Ok None, w))
  /\ (offset = PIB.__len__ pib ->
      forall newpib,
        PIB.__add__ pib (slice data 16 (16 + length)) = Ok newpib ->
        PIB.is_complete newpib = Ok true ->
        (PIB.is_valid newpib = Ok false ->
         packet_homeplug now 0xa025 data w
         = (Ok None, with_self reset_state w))
        /\ (PIB.is_valid newpib = Ok true ->
            PIB.master_get newpib = mac ->
            packet_homeplug now 0xa025 data w
            = (Ok None, with_self reset_state w))
        /\ (PIB.is_valid newpib = Ok true ->
            PIB.master_get newpib <> mac ->
            len mac = 6 ->
            0x2c90 <= PIB.__len__ newpib ->
            exists p,
              PIB.master_replace newpib mac = Ok p
              /\ PIB.is_valid p = Ok true
              /\ PIB.master_get p = mac
              /\ packet_homeplug now 0xa025 data w
                 = (Ok None, with_self (set_state (DSWritePIB now 0 0 p)) w))).
Proof.
  intros Hs Hst Hhdr Hck mac.
  pose proof (packet_homeplug_ReadPIB w now data _ _ _ _ _ _ Hs Hst Hhdr Hck)
    as Hrun.
  split.
  - intros Hoff. apply Z.eqb_neq in Hoff. rewrite Hrun, Hoff. reflexivity.
  - intros Hoff newpib Hadd Hcomplete.
    apply Z.eqb_eq in Hoff. rewrite Hoff in Hrun. cbn [negb] in Hrun.
    unfold bind at 1 in Hrun. unfold lift at 1 in Hrun.
    rewrite Hadd in Hrun. cbv beta iota in Hrun.
    unfold bind at 1 in Hrun. unfold lift at 1 in Hrun.
    rewrite Hcomplete in Hrun. cbv beta iota in Hrun.
    unfold bind at 1 in Hrun. unfold lift at 1 in Hrun.
    split; [|split].
    + intros Hv. rewrite Hrun, Hv. reflexivity.
    + intros Hv Hmac. rewrite Hrun, Hv. cbn [negb].
      replace (bytes_eqb (PIB.master_get newpib) (_interface_mac_bytes (server w)))
        with true by (symmetry; apply bytes_eqb_eq; exact Hmac).
      reflexivity.
    + intros Hv Hmac Hlen6 Hlen.
      destruct (master_replace_result newpib mac Hcomplete Hv Hlen6 Hlen)
        as (p & Hrep & Hpv & _ & Hpm & _).
      exists p. split; [exact Hrep|]. split; [exact Hpv|]. split; [exact Hpm|].
      rewrite Hrun, Hv. cbn [negb].
      destruct (bytes_eqb (PIB.master_get newpib) (_interface_mac_bytes (server w))) eqn:E.
      * apply bytes_eqb_eq in E. contradiction.
      * unfold bind at 1. unfold lift at 1. fold mac. rewrite Hrep. reflexivity.
Qed.

(** ** What a reset leaves alone *)

Lemma same_identity_refl (d : Device pyfloat) : same_identity d d.
Proof. repeat split. Qed.

Lemma same_identity_trans (d1 d2 d3 : Device pyfloat) :
  same_identity d1 d2 -> same_identity d2 d3 -> same_identity d1 d3.
Proof.
  unfold same_identity. intros H1 H2.
  destruct H1 as (? & ? & ? & ? & ? & ? & ?).
  destruct H2 as (? & ? & ? & ? & ? & ? & ?).
  repeat split; congruence.
Qed.

Section Keeps.

(** The rules of [keeps R] for a relation that is reflexive and
    transitive. *)
Variable R : Device pyfloat -> Device pyfloat -> Prop.
Hypothesis R_refl : forall d, R d d.
Hypothesis R_trans : forall d1 d2 d3, R d1 d2 -> R d2 d3 -> R d1 d3.

Lemma keeps_ret {A} (a : A) : keeps R (ret a : M pyfloat A).
Proof. intros w. apply R_refl. Qed.

Lemma keeps_lift {A} (r : result A) : keeps R (lift r : M pyfloat A).
Proof. intros w. apply R_refl. Qed.

Lemma keeps_get : keeps R (get : M pyfloat (World pyfloat)).
Proof. intros w. apply R_refl. Qed.

Lemma keeps_bind {A B} (m : M pyfloat A) (k : A -> M pyfloat B) :
  keeps R m -> (forall a, keeps R (k a)) -> keeps R (bind m k).
Proof.
  intros Hm Hk w. unfold bind. specialize (Hm w).
  destruct (m w) as [[a|e] w1]; cbn [snd] in *; [|exact Hm].
  exact (R_trans _ _ _ Hm (Hk a w1)).
Qed.

Lemma keeps_upd (f : Device pyfloat -> Device pyfloat) :
  (forall d, R d (f d)) -> keeps R (upd f).
Proof. intros Hf w. apply Hf. Qed.

Lemma keeps_send msg : keeps R (_send_to_device msg : M pyfloat unit).
Proof. intros w. apply R_refl. Qed.

Lemma keeps_report_data now is_on power :
  keeps R (report_data now is_on power : M pyfloat unit).
Proof.
  intros w. unfold report_data, bind, get.
  destruct (_datalog (server w)); apply R_refl.
Qed.

Lemma keeps_for_each {A} (l : list A) (body : A -> M pyfloat unit) :
  (forall x, keeps R (body x)) -> keeps R (for_each l body).
Proof.
  intros Hbody. induction l as [|x l IH]; cbn [for_each].
  - apply keeps_ret.
  - apply keeps_bind; [apply Hbody | intros _; exact IH].
Qed.

End Keeps.

(** Splits a method into its steps; [upd_tac] shows that an update of the
    device keeps the relation. *)
Ltac keeps_steps refl trans upd_tac :=
  repeat first
    [ apply (keeps_ret _ refl) | apply (keeps_lift _ refl)
    | apply (keeps_get _ refl) | apply (keeps_send _ refl)
    | apply (keeps_report_data _ refl)
    | apply keeps_upd; intros ?; upd_tac
    | apply (keeps_bind _ trans); [|intros ?]
    | match goal with
      | |- keeps _ (if ?c then _ else _) => destruct c
      | |- keeps _ (match ?x with _ => _ end) => destruct x
      | |- keeps _ (let '(_, _) := ?x in _) => destruct x
      end ].

Lemma tick_keeps_identity now :
  keeps_identity (tick now : M pyfloat unit).
Proof.
  unfold keeps_identity, tick, send_ether_probe, send_hp_probe,
    send_hp_read_pib, send_ether_on, send_ether_off, send_hp_write_pib,
    send_hp_write_pib_to_nvm.
  keeps_steps same_identity_refl same_identity_trans ltac:(repeat split).
Qed.

Lemma packet_homeplug_keeps_identity now action data :
  keeps_identity (packet_homeplug now action data : M pyfloat (option bool)).
Proof.
  unfold keeps_identity, packet_homeplug.
  keeps_steps same_identity_refl same_identity_trans ltac:(repeat split).
Qed.

(** C10: [reset_state] sets the state to [DSProbing(0, 0)] and clears
    [device_power] and [device_is_on]; the alias, the interval, the
    remote MAC, [want_on], [device_type], [device_version] and
    [device_unknown_tuple] are what they were. The two handlers that
    reset, [tick] and [packet_homeplug], keep these seven attributes
    whatever they do, so a pending command and the identity that was
    learned survive every reset. *)
Theorem reset_state_frame (d : Device pyfloat) :
  (state (reset_state d) = DSProbing 0 0
   /\ device_power (reset_state d) = None
   /\ device_is_on (reset_state d) = None)
  /\ (alias (reset_state d) = alias d
      /\ interval (reset_state d) = interval d
      /\ remote_mac (reset_state d) = remote_mac d
      /\ want_on (reset_state d) = want_on d
      /\ device_type (reset_state d) = device_type d
      /\ device_version (reset_state d) = device_version d
      /\ device_unknown_tuple (reset_state d) = device_unknown_tuple d)
  /\ (forall now w, self w = d ->
        same_identity d (self (snd (tick now w))))
  /\ (forall now action data w, self w = d ->
        same_identity d (self (snd (packet_homeplug now action data w)))).
Proof.
  split; [repeat split|]. split; [repeat split|]. split.
  - intros now w <-. apply tick_keeps_identity.
  - intros now action data w <-. apply packet_homeplug_keeps_identity.
Qed.

(** ** Reconciliation of [want_on] *)

Lemma probe_not_onoff msg : is_probe msg -> ~ is_onoff msg.
Proof. intros [-> | ->] [H | H]; discriminate H. Qed.


Lemma with_self_id (w : World pyfloat) : with_self (fun d => d) w = w.
Proof. destruct w; reflexivity. Qed.

(** One tick of a settled device sends probes only and leaves it settled. *)
Lemma tick_settled (now : Z) (w : World pyfloat) :
  settled (self w) ->
  exists msgs w',
    tick now w = (Ok tt, w')
    /\ _sock (server w') = _sock (server w) ++ msgs
    /\ Forall is_probe msgs
    /\ settled (self w').
Proof.
  unfold settled. intros Hq.
  destruct (state (self w)) as [ls n|ls| | | |ls lr] eqn:E; try contradiction.
  - rewrite (tick_Probing now w ls n E).
    destruct (ls <? now - probe_delay).
    + exists [probe_msg]. eexists. split; [reflexivity|]. split; [reflexivity|].
      split; [constructor; [left; reflexivity | constructor]|].
      cbn. destruct (n >=? max_probing_tries); exact I.
    + exists [], w. rewrite app_nil_r, E. repeat split. constructor.
  - rewrite (tick_ProbingHP now w ls E).
    destruct (ls <? now - probe_delay).
    + exists [probe_msg; hp_probe_msg]. eexists.
      split; [reflexivity|]. split; [reflexivity|].
      split; [|exact I].
      constructor; [left; reflexivity|]. constructor; [right; reflexivity|].
      constructor.
    + exists [], w. rewrite app_nil_r, E. repeat split. constructor.
  - unfold tick, bind, get. rewrite E, Hq.
    destruct (interval (self w)) as [iv|].
    + destruct (now - lr >? running_abort_time).
      * exists []. eexists. split; [reflexivity|]. cbn. rewrite app_nil_r.
        repeat split. constructor.
      * destruct (ls <? now - iv).
        -- exists [probe_msg]. eexists. split; [reflexivity|].
           split; [reflexivity|]. split; [constructor; [left; reflexivity | constructor]|].
           cbn. exact Hq.
        -- exists [], w. rewrite app_nil_r, E. repeat split. constructor. exact Hq.
    + exists [], w. rewrite app_nil_r, E. repeat split. constructor. exact Hq.
Qed.

Lemma run_ticks_settled ts : forall (w : World pyfloat),
  settled (self w) ->
  exists msgs w',
    run_ticks ts w = (Ok tt, w')
    /\ _sock (server w') = _sock (server w) ++ msgs
    /\ Forall is_probe msgs
    /\ settled (self w').
Proof.
  induction ts as [|t ts IH]; intros w Hq.
  - exists [], w. rewrite app_nil_r. repeat split; [constructor | exact Hq].
  - destruct (tick_settled t w Hq) as (m1 & w1 & Ht & Hs1 & Hp1 & Hq1).
    destruct (IH w1 Hq1) as (m2 & w2 & Hr & Hs2 & Hp2 & Hq2).
    exists (m1 ++ m2), w2. rewrite run_ticks_cons, Ht.
    split; [exact Hr|]. split; [rewrite Hs2, Hs1, app_assoc; reflexivity|].
    split; [apply Forall_app; split; assumption | exact Hq2].
Qed.

Lemma receive_is_on_want_on (now : Z) (w : World pyfloat) :
  let w' := snd (receive_is_on now w) in
  device_is_on (self w') = Some true
  /\ want_on (self w') =
       match want_on (self w) with
       | Some true => None
       | other => other
       end.
Proof.
  unfold receive_is_on, bind, get, report_data.
  destruct (want_on (self w)) as [[|]|] eqn:E; cbn;
    destruct (_datalog (server w)); cbn; rewrite ?E; split; reflexivity.
Qed.

Lemma receive_is_off_want_on (now : Z) (w : World pyfloat) :
  let w' := snd (receive_is_off now w) in
  device_is_on (self w') = Some false
  /\ want_on (self w') =
       match want_on (self w) with
       | Some false => None
       | other => other
       end.
Proof.
  unfold receive_is_off, bind, get, report_data.
  destruct (want_on (self w)) as [[|]|] eqn:E; cbn;
    destruct (_datalog (server w)); cbn; rewrite ?E; split; reflexivity.
Qed.

(** What the code does of the reconciliation of [want_on]: a device in
    [DSRunning] whose [want_on] is the [device_is_on] it has seen (both
    on or both off) sends no on/off frame however many ticks reach it,
    and no tick raises; and an on/off message (function 9 or 12) that
    shows the outlet in the state [want_on] asks for clears [want_on] to
    [None] and sets [device_is_on] to that state. The third way the
    outlet is observed, the power report, is the subject of
    [power_report_keeps_want_on]. *)
Theorem want_on_reconciled (w : World pyfloat) (b : bool) (ts : list Z)
    last_sent last_received :
  state (self w) = DSRunning last_sent last_received ->
  want_on (self w) = Some b ->
  device_is_on (self w) = Some b ->
  (exists msgs w',
     run_ticks ts w = (Ok tt, w')
     /\ _sock (server w') = _sock (server w) ++ msgs
     /\ Forall (fun msg => ~ is_onoff msg) msgs)
  /\ (forall (v : World pyfloat) now,
        want_on (self v) = Some b ->
        let v' := snd ((if b then receive_is_on now else receive_is_off now) v)
        in want_on (self v') = None /\ device_is_on (self v') = Some b).
Proof.
  intros Hs Hw Hon. split.
  - destruct (run_ticks_settled ts w) as (msgs & w' & Hrun & Hsock & Hp & _).
    { unfold settled. rewrite Hs, Hw, Hon. destruct b; reflexivity. }
    exists msgs, w'. split; [exact Hrun|]. split; [exact Hsock|].
    eapply Forall_impl; [|exact Hp]. exact probe_not_onoff.
  - intros v now Hv. destruct b.
    + destruct (receive_is_on_want_on now v) as [H1 H2].
      rewrite Hv in H2. split; assumption.
    + destruct (receive_is_off_want_on now v) as [H1 H2].
      rewrite Hv in H2. split; assumption.
Qed.

(** ** Power reports and the identity of the device *)

Lemma pyval_eqb_eq a b : pyval_eqb a b = true <-> a = b.
Proof.
  destruct a as [s|l], b as [s'|l']; cbn [pyval_eqb].
  - rewrite String.eqb_eq. split; congruence.
  - split; discriminate.
  - split; discriminate.
  - destruct (list_eq_dec string_dec l l'); split; congruence.
Qed.

Lemma version_eqb_eq a b : version_eqb a b = true <-> a = b.
Proof.
  unfold version_eqb. destruct (list_eq_dec string_dec a b); split; congruence.
Qed.

(** C8, amended: once [device_type], [device_version] and
    [device_unknown_tuple] are known, a power report that parses and
    disagrees with one of them fails an assertion: [receive_powerdata]
    raises AssertionError and leaves the device and the server as they
    were; the state is not reset. *)
Theorem identity_mismatch_raises (w : World pyfloat) (now : Z) (data : string)
    ty is_on power tup ver ty0 tup0 ver0 :
  parse_powerdata float data = Ok (ty, is_on, power, tup, ver) ->
  device_type (self w) = Some ty0 ->
  device_version (self w) = Some ver0 ->
  device_unknown_tuple (self w) = Some tup0 ->
  ty0 <> ty \/ ver0 <> ver \/ tup0 <> tup ->
  receive_powerdata float now data w = (Raise AssertionError, w).
Proof.
  intros Hparse Hty Hver Htup Hdiff.
  unfold receive_powerdata, bind, lift, get. rewrite Hparse.
  repeat (first [rewrite Htup | rewrite Hver | rewrite Hty];
          cbn [is_not_None ret]).
  destruct (pyval_eqb tup0 tup) eqn:E1; cbn [assert]; [|reflexivity].
  destruct (version_eqb ver0 ver) eqn:E2; cbn [assert]; [|reflexivity].
  destruct (String.eqb ty0 ty) eqn:E3; cbn [assert]; [|reflexivity].
  apply pyval_eqb_eq in E1. apply version_eqb_eq in E2.
  apply String.eqb_eq in E3. destruct Hdiff as [H | [H | H]]; contradiction.
Qed.

(** ** Frames the handlers turn away *)

(** The checks of [packet_ether]: a frame that is too short, comes in a
    PIB state, or announces a length that is wrong or not a multiple of
    64 is answered [False] and changes nothing. *)
Lemma packet_ether_rejects (w : World pyfloat) (now : Z) (data : bytes) :
  len data < 4
  \/ class_in (class_of (state (self w))) [CProbing; CProbingHP; CRunning]
     = false
  \/ (exists length,
        struct.unpack_B (slice data 1 2) = Ok length
        /\ (len (slice_from data 2) <> length \/ length mod 64 <> 0)) ->
  packet_ether float now data w = (Ok (Some false), w).
Proof.
  intros H. unfold packet_ether, bind, get, lift.
  destruct (Z.ltb_spec (len data) 4) as [|Hlen]; [reflexivity|].
  destruct H as [H | [H | (length & Hl & H)]]; [lia | rewrite H; reflexivity |].
  destruct (class_in _ _); [|reflexivity]. cbn [negb]. rewrite Hl.
  destruct (Z.eqb_spec (len (slice_from data 2)) length) as [E|E];
    [|reflexivity].
  destruct H as [H | H]; [contradiction|].
  cbn [negb]. apply Z.eqb_neq in H. rewrite H. reflexivity.
Qed.

(** The checks of [packet_homeplug] that need no more than the first
    byte: a frame in a state that waits for none, with another opcode
    than the state waits for, or with a status that is not 0. *)
Lemma packet_homeplug_rejects (w : World pyfloat) (now action : Z) (data : bytes) :
  expected_action (state (self w)) <> Some action
  \/ (exists status,
        struct.unpack_B (slice data 0 1) = Ok status /\ status <> 0) ->
  packet_homeplug now action data w = (Ok (Some false), w).
Proof.
  intros H. unfold packet_homeplug, bind, get, lift.
  assert (Hdrop : forall x,
            expected_action (state (self w)) = Some x ->
            (if negb (action =? x) then (Ok (Some false), w)
             else match struct.unpack_B (slice data 0 1) with
                  | Ok st =>
                      if negb (st =? 0) then (Ok (Some false), w)
                      else (Raise AssertionError, w)
                  | Raise e => (Raise e, w)
                  end) = (Ok (Some false), w)).
  { intros x Hx. destruct (Z.eqb_spec action x) as [->|]; [|reflexivity].
    cbn [negb]. destruct H as [H | (status & Hst & Hne)]; [congruence|].
    rewrite Hst. apply Z.eqb_neq in Hne. rewrite Hne. reflexivity. }
  destruct (state (self w)) eqn:E;
    cbn [class_of class_in existsb class_eqb negb orb andb expected_action]
      in *;
    try reflexivity;
    specialize (Hdrop _ eq_refl);
    (destruct (negb (action =? _)); [reflexivity|]);
    (destruct (struct.unpack_B (slice data 0 1)) as [st|e];
     [|discriminate Hdrop]);
    (destruct (negb (st =? 0)); [reflexivity | discriminate Hdrop]).
Qed.

(** The checks of a read confirmation behind the status: another module
    than the PIB, a chunk checksum that is not 0, or an offset that does
    not continue the download; the frame changes nothing. *)
Lemma read_confirm_rejects (w : World pyfloat) (now : Z) (data : bytes)
    status module length offset :
  class_in (class_of (state (self w))) [CProbingHP; CReadPIB] = true ->
  struct.unpack_B (slice data 0 1) = Ok 0 ->
  struct.unpack_BxxxBxHI (slice_to data 12)
  = Ok (status, module, length, offset) ->
  module <> 2
  \/ (exists ck, calc_cksum (slice_from data 12) = Ok ck /\ ck <> 0)
  \/ (module = 2 /\ calc_cksum (slice_from data 12) = Ok 0
      /\ match state (self w) with
         | DSReadPIB _ _ pib => offset <> PIB.__len__ pib
         | _ => offset <> 0
         end) ->
  exists r, packet_homeplug now 0xa025 data w = (Ok r, w).
Proof.
  intros Hcls Hst Hhdr H. unfold packet_homeplug, bind, get, lift.
  destruct (state (self w)) eqn:E; try discriminate Hcls;
    cbn [class_of class_in existsb class_eqb negb orb andb Z.eqb];
    rewrite Hst; cbn [negb Z.eqb]; rewrite Hhdr;
    (destruct (Z.eqb_spec module 2) as [Hm|Hm];
     [|eexists; reflexivity]);
    cbn [negb];
    (destruct H as [H | [(ck & Hck & Hne) | (_ & Hck & Hoff)]];
     [contradiction
     | rewrite Hck; apply Z.eqb_neq in Hne; rewrite Hne; eexists; reflexivity
     | rewrite Hck; cbn [negb Z.eqb]; apply Z.eqb_neq in Hoff; rewrite Hoff;
       eexists; reflexivity]).
Qed.

(** A HomePlug AV frame that ends before the status byte is not turned
    away: decoding it raises. *)
Lemma packet_homeplug_empty_raises (w : World pyfloat) (now action : Z) :
  expected_action (state (self w)) = Some action ->
  packet_homeplug now action [] w = (Raise StructError, w).
Proof.
  intros H. unfold packet_homeplug, bind, get, lift.
  destruct (state (self w)); try discriminate H;
    injection H as <-; reflexivity.
Qed.

(** ** The invariant of the PIB states *)

Lemma master_replace_Ok_inv p m q :
  PIB.master_replace p m = Ok q ->
  PIB.__init__ (PIB._pib q) = Ok q /\ PIB.is_valid q = Ok true.
Proof.
  unfold PIB.master_replace.
  destruct (PIB.calc_cksum _) as [c|]; [|discriminate]. cbn [rbind].
  destruct (struct.pack_I c) as [packed|]; [|discriminate]. cbn [rbind].
  match goal with
  | |- context [PIB.calc_cksum ?b] => set (new_pib := b)
  end.
  destruct (PIB.calc_cksum new_pib) as [c'|] eqn:Ec; [|discriminate].
  cbn [rbind].
  destruct (Z.eqb_spec c' 0) as [->|]; [|discriminate]. cbn [assert rbind].
  intros Hinit. destruct (PIB_init_inv _ _ Hinit) as (-> & _).
  cbn [PIB._pib]. split; [exact Hinit|].
  unfold PIB.is_valid. cbn [PIB._pib]. rewrite Ec. reflexivity.
Qed.

Lemma add_Ok_inv p chunk q :
  PIB.__add__ p chunk = Ok q -> PIB.__init__ (PIB._pib q) = Ok q.
Proof.
  unfold PIB.__add__. intros H. destruct (PIB_init_inv _ _ H) as (-> & _).
  exact H.
Qed.

(** The transitions of [packet_homeplug] establish [state_ok]. *)
Lemma packet_homeplug_state_ok (w : World pyfloat) now action data :
  state_ok (state (self w)) ->
  state_ok (state (self (snd (packet_homeplug now action data w)))).
Proof.
  intros Hok. unfold packet_homeplug, bind, get, lift.
  destruct (state (self w)) as [| |st ls pib|st ls off pib|st ls|] eqn:E;
    cbn [class_of class_in existsb class_eqb negb orb andb];
    try (cbn [snd ret]; rewrite E; exact Hok).
  - (* DSProbingHP *)
    destruct (negb (action =? 0xa025)); [cbn [snd ret]; rewrite E; exact I|].
    destruct (struct.unpack_B _) as [s|]; [|cbn [snd]; rewrite E; exact I].
    destruct (negb (s =? 0)); [cbn [snd ret]; rewrite E; exact I|].
    destruct (struct.unpack_BxxxBxHI _) as [[[[status module] length] offset]|];
      [|cbn [snd]; rewrite E; exact I].
    destruct (negb (module =? 2)); [cbn [snd ret]; rewrite E; exact I|].
    destruct (calc_cksum _) as [ck|]; [|cbn [snd]; rewrite E; exact I].
    destruct (negb (ck =? 0)); [cbn [snd ret]; rewrite E; exact I|].
    destruct (negb (offset =? 0)); [cbn [snd ret]; rewrite E; exact I|].
    destruct (PIB.__init__ _) as [p|] eqn:Ep; [|cbn [snd]; rewrite E; exact I].
    cbn. destruct (PIB_init_inv _ _ Ep) as (-> & _). exact Ep.
  - (* DSReadPIB *)
    destruct (negb (action =? 0xa025)); [cbn [snd ret]; rewrite E; exact Hok|].
    destruct (struct.unpack_B _) as [s|]; [|cbn [snd]; rewrite E; exact Hok].
    destruct (negb (s =? 0)); [cbn [snd ret]; rewrite E; exact Hok|].
    destruct (struct.unpack_BxxxBxHI _) as [[[[status module] length] offset]|];
      [|cbn [snd]; rewrite E; exact Hok].
    destruct (negb (module =? 2)); [cbn [snd ret]; rewrite E; exact Hok|].
    destruct (calc_cksum _) as [ck|]; [|cbn [snd]; rewrite E; exact Hok].
    destruct (negb (ck =? 0)); [cbn [snd ret]; rewrite E; exact Hok|].
    destruct (negb (offset =? PIB.__len__ pib));
      [cbn [snd ret]; rewrite E; exact Hok|].
    destruct (PIB.__add__ _ _) as [newpib|] eqn:Eadd;
      [|cbn [snd]; rewrite E; exact Hok].
    destruct (PIB.is_complete newpib) as [[|]|];
      [| cbn; exact (add_Ok_inv _ _ _ Eadd) | cbn [snd]; rewrite E; exact Hok].
    destruct (PIB.is_valid newpib) as [[|]|];
      [| cbn; exact I | cbn [snd]; rewrite E; exact Hok].
    cbn [negb]. destruct (bytes_eqb _ _); [cbn; exact I|].
    destruct (PIB.master_replace _ _) as [p|] eqn:Erep;
      [|cbn [snd]; rewrite E; exact Hok].
    cbn. destruct (master_replace_Ok_inv _ _ _ Erep) as [Hinit Hvalid].
    split; [exact Hinit|]. split; [exact Hvalid|].
    destruct (PIB_init_inv _ _ Hinit) as (_ & H8 & _).
    unfold PIB.__len__. split; [lia | reflexivity].
  - (* DSWritePIB *)
    destruct (negb (action =? 0xa021)); [cbn [snd ret]; rewrite E; exact Hok|].
    destruct (struct.unpack_B _) as [s|]; [|cbn [snd]; rewrite E; exact Hok].
    destruct (negb (s =? 0)); [cbn [snd ret]; rewrite E; exact Hok|].
    destruct (Z.geb_spec (off + pib_chunk) (PIB.__len__ pib)) as [Hlast|Hnext];
      [cbn; exact I|].
    cbn. destruct Hok as (Hinit & Hvalid & Hoff & Hmod).
    split; [exact Hinit|]. split; [exact Hvalid|].
    unfold PIB.__len__, len, pib_chunk in *. split; [lia|].
    rewrite <- Z.add_mod_idemp_l, Hmod by lia. reflexivity.
  - (* DSWritePIBToNVM *)
    destruct (negb (action =? 0xa029)); [cbn [snd ret]; rewrite E; exact I|].
    destruct (struct.unpack_B _) as [s|]; [|cbn [snd]; rewrite E; exact I].
    destruct (negb (s =? 0)); [cbn [snd ret]; rewrite E; exact I|].
    cbn. exact I.
Qed.

Lemma outside_pib_refl (d : Device pyfloat) : outside_pib d d.
Proof. intros H. exact H. Qed.

Lemma outside_pib_trans (d1 d2 d3 : Device pyfloat) :
  outside_pib d1 d2 -> outside_pib d2 d3 -> outside_pib d1 d3.
Proof. unfold outside_pib. auto. Qed.

(** A vendor frame never takes the machine into a PIB state. *)
Lemma packet_ether_outside_pib now data :
  keeps outside_pib (packet_ether float now data).
Proof.
  unfold packet_ether.
  keeps_steps outside_pib_refl outside_pib_trans ltac:(idtac).
  apply (keeps_for_each _ outside_pib_refl outside_pib_trans). intros i.
  unfold ether_message, receive_powerdata, receive_is_on, receive_is_off,
    mark_received.
  keeps_steps outside_pib_refl outside_pib_trans
    ltac:(first [ intros H; exact H | intros _; reflexivity ]).
Qed.

Lemma state_ok_outside_pib s : pib_start_time s = None -> state_ok s.
Proof. destruct s; try discriminate; intros _; exact I. Qed.

(** [packet_ether] keeps [state_ok]. *)
Lemma packet_ether_state_ok (w : World pyfloat) now data :
  state_ok (state (self w)) ->
  state_ok (state (self (snd (packet_ether float now data w)))).
Proof.
  intros Hok.
  destruct (pib_start_time (state (self w))) as [t0|] eqn:E.
  - rewrite packet_ether_rejects; [exact Hok|].
    right; left. destruct (state (self w)); try discriminate E; reflexivity.
  - apply state_ok_outside_pib. apply (packet_ether_outside_pib now data w E).
Qed.

(** [tick] keeps [state_ok]. *)
Lemma tick_state_ok (w : World pyfloat) now :
  state_ok (state (self w)) ->
  state_ok (state (self (snd (tick now w)))).
Proof.
  intros Hok.
  destruct (pib_start_time (state (self w))) as [t0|] eqn:E.
  - destruct (Z_gt_le_dec (now - t0) pib_abort_time) as [Hlate|Hearly].
    + rewrite (tick_pib_timeout now w t0 E Hlate). exact I.
    + destruct (tick_pib_alive now w t0 E Hok Hearly)
        as (msgs & s & -> & _ & Hs & _).
      exact Hs.
  - destruct (state (self w)) as [ls n|ls| | | |ls lr] eqn:Es;
      try discriminate E.
    + rewrite (tick_Probing now w ls n Es).
      destruct (ls <? now - probe_delay); [|cbn [snd]; rewrite Es; exact I].
      cbn. destruct (n >=? max_probing_tries); exact I.
    + rewrite (tick_ProbingHP now w ls Es).
      destruct (ls <? now - probe_delay); [exact I|].
      cbn [snd]. rewrite Es. exact I.
    + apply state_ok_outside_pib. unfold tick, bind, get. rewrite Es.
      destruct (optbool_neb _ _ && is_not_None _).
      * destruct (want_on (self w)) as [[|]|]; reflexivity.
      * destruct (interval (self w)) as [iv|]; [|cbn; rewrite Es; reflexivity].
        destruct (now - lr >? running_abort_time); [reflexivity|].
        destruct (ls <? now - iv); [reflexivity|]. cbn. rewrite Es. reflexivity.
Qed.

(** ** The deadline of the PIB phase *)

Lemma run_cons ev evs (w : World pyfloat) :
  run float (ev :: evs) w =
    match handle float ev w with
    | (Ok _, w') => run float evs w'
    | (Raise e, w') => (Raise e, w')
    end.
Proof. reflexivity. Qed.

Lemma run_one ev (w : World pyfloat) : run float [ev] w = handle float ev w.
Proof.
  rewrite run_cons. destruct (handle float ev w) as [[[]|e] w1]; reflexivity.
Qed.

(** In a PIB state an event that is no confirmation and no tick changes
    nothing. *)
Lemma handle_no_confirmation ev (w : World pyfloat) start_time :
  pib_start_time (state (self w)) = Some start_time ->
  no_confirmation (state (self w)) ev ->
  match ev with Tick _ => True | _ => handle float ev w = (Ok tt, w) end.
Proof.
  intros Hs Hno. destruct ev as [now|now action data|now data]; [exact I| |].
  - unfold handle, bind. rewrite (packet_homeplug_rejects w now action data Hno).
    reflexivity.
  - unfold handle, bind. rewrite packet_ether_rejects; [reflexivity|].
    right; left. destruct (state (self w)); try discriminate Hs; reflexivity.
Qed.

Lemma no_confirmation_set_state s s' ev :
  expected_action s' = expected_action s ->
  no_confirmation s ev -> no_confirmation s' ev.
Proof. intros E. destruct ev; cbn; [trivial | rewrite E; trivial | trivial]. Qed.

(** The events of a PIB phase, from any instant [prev] before the
    deadline on. *)
Lemma pib_phase_aborts_from evs :
  forall (w : World pyfloat) start_time one_tick prev,
  pib_start_time (state (self w)) = Some start_time ->
  state_ok (state (self w)) ->
  Forall (no_confirmation (state (self w))) evs ->
  prev - start_time <= pib_abort_time ->
  regular one_tick prev (tick_times evs) ->
  Exists (fun t => t - start_time > pib_abort_time) (tick_times evs) ->
  exists pre t post w',
    evs = pre ++ Tick t :: post
    /\ t <= start_time + pib_abort_time + one_tick
    /\ run float (pre ++ [Tick t]) w = (Ok tt, w')
    /\ self w' = reset_state (self w).
Proof.
  induction evs as [|ev evs IH];
    intros w t0 d prev Hs Hok Hno Hprev Hreg Hex.
  - inversion Hex.
  - inversion Hno as [|? ? Hev Hno']; subst.
    pose proof (handle_no_confirmation ev w t0 Hs Hev) as Hdrop.
    destruct ev as [t|now action data|now data].
    + (* a tick *)
      cbn [tick_times flat_map app] in Hreg, Hex.
      destruct Hreg as [Hgap Hreg].
      destruct (Z_gt_le_dec (t - t0) pib_abort_time) as [Hlate|Hearly].
      * exists [], t, evs, (with_self reset_state w).
        split; [reflexivity|]. split; [lia|]. split; [|reflexivity].
        cbn [app]. rewrite run_one.
        exact (tick_pib_timeout t w t0 Hs Hlate).
      * destruct (tick_pib_alive t w t0 Hs Hok Hearly)
          as (msgs & s & Htick & Hs' & Hok' & Hexp).
        inversion Hex as [? ? Hbad|? ? Hex']; subst; [lia|].
        destruct (IH (with_self (set_state s) (with_sent msgs w)) t0 d t
                    Hs' Hok') as (pre & t' & post & w' & -> & Hle & Hrun & Hself);
          try assumption.
        { eapply Forall_impl; [|exact Hno'].
          intros ev. apply no_confirmation_set_state. exact Hexp. }
        exists (Tick t :: pre), t', post, w'.
        split; [reflexivity|]. split; [exact Hle|]. split.
        -- cbn [app]. rewrite run_cons. cbn [handle]. rewrite Htick.
           exact Hrun.
        -- rewrite Hself. reflexivity.
    + (* a HomePlug AV frame that is turned away *)
      destruct (IH w t0 d prev Hs Hok Hno' Hprev Hreg Hex)
        as (pre & t' & post & w' & -> & Hle & Hrun & Hself).
      exists (Homeplug now action data :: pre), t', post, w'.
      split; [reflexivity|]. split; [exact Hle|]. split; [|exact Hself].
      cbn [app]. rewrite run_cons, Hdrop. exact Hrun.
    + (* a vendor frame *)
      destruct (IH w t0 d prev Hs Hok Hno' Hprev Hreg Hex)
        as (pre & t' & post & w' & -> & Hle & Hrun & Hself).
      exists (Ether now data :: pre), t', post, w'.
      split; [reflexivity|]. split; [exact Hle|]. split; [|exact Hself].
      cbn [app]. rewrite run_cons, Hdrop. exact Hrun.
Qed.

(** C6: a device enters one of [DSReadPIB], [DSWritePIB] and
    [DSWritePIBToNVM] at [start_time] with the data the transitions give
    that state, and from then on the ticks are at most [one_tick] apart
    and no event is the confirmation the state waits for (a frame in
    between has another opcode, a status that is not 0, or is a vendor
    frame). Every tick with [now - start_time > pib_abort_time] resets
    the machine, and as soon as the ticks pass the deadline one of them,
    no later than [start_time + pib_abort_time + one_tick], has returned
    the device to [DSProbing(0, 0)]; nothing before it raises. *)
Theorem pib_phase_aborts (w : World pyfloat) (start_time one_tick : Z)
    (evs : list Event) :
  pib_start_time (state (self w)) = Some start_time ->
  state_ok (state (self w)) ->
  Forall (no_confirmation (state (self w))) evs ->
  regular one_tick start_time (tick_times evs) ->
  Exists (fun t => t - start_time > pib_abort_time) (tick_times evs) ->
  (forall now, now - start_time > pib_abort_time ->
     tick now w = (Ok tt, with_self reset_state w))
  /\ exists pre t post w',
       evs = pre ++ Tick t :: post
       /\ t <= start_time + pib_abort_time + one_tick
       /\ run float (pre ++ [Tick t]) w = (Ok tt, w')
       /\ state (self w') = DSProbing 0 0
       /\ self w' = reset_state (self w).
Proof.
  intros Hs Hok Hno Hreg Hex. split.
  - intros now Hnow. exact (tick_pib_timeout now w start_time Hs Hnow).
  - destruct (pib_phase_aborts_from evs w start_time one_tick start_time
                Hs Hok Hno ltac:(unfold pib_abort_time; lia) Hreg Hex)
      as (pre & t & post & w' & E & Hle & Hrun & Hself).
    exists pre, t, post, w'. repeat split; try assumption.
    rewrite Hself. reflexivity.
Qed.

(** ** More of pib.py *)

Lemma cksum_from_unaligned data : forall acc,
  ~ aligned data -> cksum_from acc data = Raise StructError.
Proof.
  induction data as [|a|a b|a b c|b0 b1 b2 b3 rest IH] using list_ind4;
    intros acc Hal; try reflexivity.
  - exfalso. apply Hal. reflexivity.
  - cbn [cksum_from]. apply IH. intros H. apply Hal.
    apply aligned_cons4. exact H.
Qed.

(** X1: [calc_cksum] returns a 32-bit word on a buffer whose length is a
    multiple of 4, the negated XOR of its words, and raises struct.error
    on every other buffer. *)
Theorem calc_cksum_defined_iff_aligned (data : bytes) :
  (len data mod 4 = 0 ->
   exists c, PIB.calc_cksum data = Ok c /\ 0 <= c < 2 ^ 32
             /\ c = neg32 (xor_fold data))
  /\ (len data mod 4 <> 0 -> PIB.calc_cksum data = Raise StructError).
Proof.
  split.
  - intros Hal. exists (neg32 (xor_fold data)).
    split; [exact (calc_cksum_aligned data Hal)|].
    split; [apply neg32_range | reflexivity].
  - intros Hal. unfold PIB.calc_cksum.
    rewrite cksum_loop_spec, cksum_from_unaligned by exact Hal. reflexivity.
Qed.
(** The buffer [master_replace] builds on a complete PIB that holds the
    master field and whose length is a multiple of four: the PIB with the
    new master and a new checksum word in bytes 8 to 11. Nothing is asked
    of the old checksum. *)
Lemma master_replace_shape (p : PIB.t) (m : bytes) :
  PIB.is_complete p = Ok true ->
  aligned (PIB._pib p) ->
  len m = 6 ->
  0x2c90 <= PIB.__len__ p ->
  exists ck,
    len ck = 4
    /\ PIB.master_replace p m
       = Ok (PIB.mk (slice_to (PIB._pib p) 8 ++ ck
                     ++ slice (PIB._pib p) 12 0x2c8a ++ m
                     ++ slice_from (PIB._pib p) 0x2c90))
    /\ PIB.is_valid
         (PIB.mk (slice_to (PIB._pib p) 8 ++ ck
                  ++ slice (PIB._pib p) 12 0x2c8a ++ m
                  ++ slice_from (PIB._pib p) 0x2c90)) = Ok true.
Proof.
  destruct p as [a]. unfold PIB.__len__. cbn [PIB._pib].
  intros Hcomplete Hvalid Hm Hlen.
  unfold aligned in Hvalid.
  unfold PIB.master_replace. cbn [PIB._pib].
  set (hd := slice_to a 8).
  set (mid := slice a 12 0x2c8a).
  set (tl := slice_from a 0x2c90).
  assert (Hhd : len hd = 8) by (apply len_slice_to; lia).
  assert (Hmid : len mid = 0x2c8a - 12) by (apply len_slice; lia).
  assert (Htl : len tl = len a - 0x2c90) by (apply len_slice_from; lia).
  set (T := mid ++ m ++ tl).
  assert (HT : len T = len a - 12) by (unfold T; rewrite !len_app; lia).
  assert (HalT : aligned T).
  { apply (aligned_len _ _ HT). rewrite <- (Z_mod_plus_full _ 3 4).
    replace (len a - 12 + 3 * 4) with (len a) by lia. exact Hvalid. }
  assert (Halhd : aligned hd) by (apply (aligned_len _ _ Hhd); reflexivity).
  replace ((hd ++ [x00; x00; x00; x00] ++ mid) ++ m ++ tl)
    with (hd ++ [x00; x00; x00; x00] ++ T)
    by (unfold T; rewrite <- !app_assoc; reflexivity).
  rewrite calc_cksum_aligned
    by (apply aligned_app; [exact Halhd | apply aligned_cons4; exact HalT]).
  cbn [rbind].
  set (c := neg32 (xor_fold (hd ++ [x00; x00; x00; x00] ++ T))).
  destruct (pack_I_word c (neg32_range _)) as (b0 & b1 & b2 & b3 & Hpack & Hword).
  rewrite Hpack. cbn [rbind].
  rewrite slice_to_app_exact by exact Hhd.
  replace (hd ++ [x00; x00; x00; x00] ++ T)
    with ((hd ++ [x00; x00; x00; x00]) ++ T) by (rewrite <- app_assoc; reflexivity).
  rewrite slice_from_app_exact by (rewrite len_app, Hhd; reflexivity).
  set (new := hd ++ [b0; b1; b2; b3] ++ T).
  assert (Halnew : aligned new)
    by (apply aligned_app; [exact Halhd | apply aligned_cons4; exact HalT]).
  assert (Hnew0 : neg32 (xor_fold new) = 0).
  { unfold new. rewrite xor_fold_app by exact Halhd.
    cbn [app xor_fold]. rewrite Hword. unfold c.
    rewrite xor_fold_app by exact Halhd.
    cbn [app xor_fold].
    change (word_of x00 x00 x00 x00) with 0. rewrite Z.lxor_0_l.
    set (A := Z.lxor (xor_fold hd) (xor_fold T)).
    replace (Z.lxor (xor_fold hd) (Z.lxor (neg32 A) (xor_fold T)))
      with (Z.lxor A (neg32 A)).
    - rewrite lxor_neg32; [reflexivity|].
      apply lxor_range; apply xor_fold_range.
    - unfold A. rewrite (Z.lxor_comm (neg32 _)), Z.lxor_assoc. reflexivity. }
  rewrite calc_cksum_aligned by exact Halnew.
  cbn [rbind]. rewrite Hnew0. cbn [Z.eqb assert rbind].
  assert (Hlennew : len new = len a)
    by (unfold new; rewrite !len_app, Hhd, HT, !len_cons;
        change (len (@nil byte)) with 0; lia).
  assert (Hsize : PIB.size (PIB.mk new) = PIB.size (PIB.mk a)).
  { unfold PIB.size. cbn [PIB._pib]. unfold new.
    rewrite slice_app_l by lia. unfold hd. rewrite slice_slice_to by lia.
    reflexivity. }
  unfold PIB.is_complete in Hcomplete. cbn [PIB._pib] in Hcomplete.
  destruct (PIB.size (PIB.mk a)) as [s|] eqn:Es; [|discriminate].
  cbn [rbind] in Hcomplete. unfold PIB.__len__ in Hcomplete.
  cbn [PIB._pib] in Hcomplete.
  injection Hcomplete as Hcomplete. apply Z.eqb_eq in Hcomplete.
  exists [b0; b1; b2; b3]. split; [reflexivity|].
  fold T. fold new.
  unfold PIB.__init__, PIB.is_valid, PIB.__len__.
  cbn [PIB._pib]. rewrite Hsize, Hlennew. cbn [rbind].
  replace (8 <? len a) with true by (symmetry; apply Z.ltb_lt; lia).
  replace (len a <=? s) with true by (symmetry; apply Z.leb_le; lia).
  rewrite calc_cksum_aligned by exact Halnew. rewrite Hnew0.
  split; reflexivity.
Qed.

(** What [master_replace] keeps of the PIB and what it writes. *)
Lemma master_replace_parts (p : PIB.t) (m : bytes) :
  PIB.is_complete p = Ok true ->
  len (PIB._pib p) mod 4 = 0 ->
  len m = 6 ->
  0x2c90 <= PIB.__len__ p ->
  exists q,
    PIB.master_replace p m = Ok q
    /\ slice_to (PIB._pib q) 8 = slice_to (PIB._pib p) 8
    /\ slice (PIB._pib q) 12 0x2c8a = slice (PIB._pib p) 12 0x2c8a
    /\ PIB.master_get q = m
    /\ slice_from (PIB._pib q) 0x2c90 = slice_from (PIB._pib p) 0x2c90
    /\ PIB.__len__ q = PIB.__len__ p
    /\ PIB.size q = PIB.size p.
Proof.
  intros Hcomplete Hal Hm Hlen.
  destruct (master_replace_shape p m Hcomplete Hal Hm Hlen)
    as (ck & Hck & Hrep & _).
  destruct p as [a]. unfold PIB.__len__, PIB.master_get, PIB.size in *.
  cbn [PIB._pib] in *.
  set (hd := slice_to a 8) in *.
  set (mid := slice a 12 0x2c8a) in *.
  set (tl := slice_from a 0x2c90) in *.
  assert (Hhd : len hd = 8) by (apply len_slice_to; lia).
  assert (Hmid : len mid = 0x2c8a - 12) by (apply len_slice; lia).
  assert (Htl : len tl = len a - 0x2c90) by (apply len_slice_from; lia).
  eexists. split; [exact Hrep|]. cbn [PIB._pib].
  split; [apply slice_to_app_exact; exact Hhd|].
  split.
  { replace (hd ++ ck ++ mid ++ m ++ tl) with ((hd ++ ck) ++ mid ++ m ++ tl)
      by (rewrite <- app_assoc; reflexivity).
    apply slice_app_exact; rewrite ?len_app; lia. }
  split.
  { replace (hd ++ ck ++ mid ++ m ++ tl) with ((hd ++ ck ++ mid) ++ m ++ tl)
      by (rewrite <- !app_assoc; reflexivity).
    apply slice_app_exact; rewrite ?len_app; lia. }
  split.
  { replace (hd ++ ck ++ mid ++ m ++ tl) with ((hd ++ ck ++ mid ++ m) ++ tl)
      by (rewrite <- !app_assoc; reflexivity).
    apply slice_from_app_exact. rewrite !len_app. lia. }
  split; [rewrite !len_app; lia|].
  rewrite slice_app_l by lia. unfold hd. rewrite slice_slice_to by lia.
  reflexivity.
Qed.

(** X2: on a complete PIB of at least 0x2c90 bytes whose length is a
    multiple of 4, [master_replace] with a 6-byte MAC returns a PIB of the
    same length and the same declared size that differs from the old one
    in the checksum (bytes 8 to 11) and the master (bytes 0x2c8a to 0x2c8f)
    only; [master_get] of it is the new MAC. *)
Theorem master_replace_frame (p : PIB.t) (m : bytes) :
  PIB.is_complete p = Ok true ->
  len (PIB._pib p) mod 4 = 0 ->
  len m = 6 ->
  0x2c90 <= PIB.__len__ p ->
  exists q,
    PIB.master_replace p m = Ok q
    /\ slice_to (PIB._pib q) 8 = slice_to (PIB._pib p) 8
    /\ slice (PIB._pib q) 12 0x2c8a = slice (PIB._pib p) 12 0x2c8a
    /\ PIB.master_get q = m
    /\ slice_from (PIB._pib q) 0x2c90 = slice_from (PIB._pib p) 0x2c90
    /\ PIB.__len__ q = PIB.__len__ p
    /\ PIB.size q = PIB.size p.
Proof. exact (master_replace_parts p m). Qed.

(** X3: [master_replace] does not need a valid PIB. On a complete PIB of at
    least 0x2c90 bytes whose length is a multiple of 4 it returns a valid
    PIB whatever the old checksum was, and whenever it returns at all, on
    any PIB and any MAC, what it returns is valid and is a PIB the
    constructor accepts. *)
Theorem master_replace_repairs (p : PIB.t) (m : bytes) :
  (PIB.is_complete p = Ok true ->
   len (PIB._pib p) mod 4 = 0 ->
   len m = 6 ->
   0x2c90 <= PIB.__len__ p ->
   exists q, PIB.master_replace p m = Ok q /\ PIB.is_valid q = Ok true)
  /\ (forall q,
        PIB.master_replace p m = Ok q ->
        PIB.is_valid q = Ok true /\ PIB.__init__ (PIB._pib q) = Ok q).
Proof.
  split.
  - intros Hcomplete Hal Hm Hlen.
    destruct (master_replace_shape p m Hcomplete Hal Hm Hlen)
      as (ck & _ & Hrep & Hvalid).
    eexists. split; [exact Hrep | exact Hvalid].
  - intros q Hq. destruct (master_replace_Ok_inv p m q Hq). split; assumption.
Qed.
(** [master_replace] reads of the PIB the first 8 bytes, the bytes from 12
    to the master and the bytes behind the master. *)
Lemma master_replace_ext (p p' : PIB.t) (m : bytes) :
  slice_to (PIB._pib p') 8 = slice_to (PIB._pib p) 8 ->
  slice (PIB._pib p') 12 0x2c8a = slice (PIB._pib p) 12 0x2c8a ->
  slice_from (PIB._pib p') 0x2c90 = slice_from (PIB._pib p) 0x2c90 ->
  PIB.master_replace p' m = PIB.master_replace p m.
Proof.
  intros H1 H2 H3. unfold PIB.master_replace. rewrite H1, H2, H3.
  reflexivity.
Qed.

(** X4: the last master written wins. On a complete PIB of at least 0x2c90
    bytes whose length is a multiple of 4, replacing the master by [m1] and
    then by [m2] (both of 6 bytes) returns the PIB that replacing it by
    [m2] at once returns; in particular replacing twice by the same MAC
    returns what replacing once does. *)
Theorem master_replace_last_wins (p : PIB.t) (m1 m2 : bytes) :
  PIB.is_complete p = Ok true ->
  len (PIB._pib p) mod 4 = 0 ->
  len m1 = 6 ->
  len m2 = 6 ->
  0x2c90 <= PIB.__len__ p ->
  exists q1 q2,
    PIB.master_replace p m1 = Ok q1
    /\ PIB.master_replace p m2 = Ok q2
    /\ PIB.master_replace q1 m2 = Ok q2.
Proof.
  intros Hcomplete Hal Hm1 Hm2 Hlen.
  destruct (master_replace_parts p m1 Hcomplete Hal Hm1 Hlen)
    as (q1 & Hq1 & Hhd & Hmid & _ & Htl & _).
  destruct (master_replace_parts p m2 Hcomplete Hal Hm2 Hlen)
    as (q2 & Hq2 & _).
  exists q1, q2. split; [exact Hq1|]. split; [exact Hq2|].
  rewrite (master_replace_ext p q1 m2 Hhd Hmid Htl). exact Hq2.
Qed.
Lemma size_app (a data : bytes) :
  6 <= len a -> PIB.size (PIB.mk (a ++ data)) = PIB.size (PIB.mk a).
Proof.
  intros H. unfold PIB.size. cbn [PIB._pib]. rewrite slice_app_l by lia.
  reflexivity.
Qed.

(** When [pib + data] is built: the sum of the lengths must not pass the
    size the header declares. *)
Lemma add_spec (p : PIB.t) (data : bytes) (s : Z) :
  PIB.__init__ (PIB._pib p) = Ok p ->
  PIB.size p = Ok s ->
  PIB.__add__ p data
  = if PIB.__len__ p + len data <=? s
    then Ok (PIB.mk (PIB._pib p ++ data))
    else Raise AssertionError.
Proof.
  intros Hinit Hsize.
  destruct (PIB_init_inv _ _ Hinit) as (Hp & H8 & s' & Hs' & Hle).
  rewrite Hsize in Hs'. injection Hs' as <-.
  unfold PIB.__add__, PIB.__init__, PIB.__len__. cbn [PIB._pib].
  rewrite size_app by lia.
  replace (PIB.mk (PIB._pib p)) with p by (destruct p; reflexivity).
  rewrite Hsize, len_app. cbn [rbind].
  pose proof (len_nonneg data).
  replace (8 <? len (PIB._pib p) + len data) with true
    by (symmetry; apply Z.ltb_lt; lia).
  cbn [assert rbind].
  destruct (len (PIB._pib p) + len data <=? s); reflexivity.
Qed.

(** X5: appending to a PIB the constructor built succeeds exactly when the
    new length does not pass the size its header declares, and raises
    AssertionError otherwise, so a complete PIB takes no further byte; the
    PIB that is returned has the bytes of both, the same declared size,
    and appending [a] and then [b] is appending [a ++ b]. *)
Theorem add_within_declared_size (p : PIB.t) (a b : bytes) (s : Z) :
  PIB.__init__ (PIB._pib p) = Ok p ->
  PIB.size p = Ok s ->
  (PIB.__len__ p + len a <= s ->
   exists q,
     PIB.__add__ p a = Ok q
     /\ PIB._pib q = PIB._pib p ++ a
     /\ PIB.size q = Ok s
     /\ PIB.__add__ q b = PIB.__add__ p (a ++ b))
  /\ (s < PIB.__len__ p + len a ->
      PIB.__add__ p a = Raise AssertionError)
  /\ (PIB.is_complete p = Ok true -> a <> [] ->
      PIB.__add__ p a = Raise AssertionError).
Proof.
  intros Hinit Hsize.
  pose proof (add_spec p a s Hinit Hsize) as Hadd.
  destruct (PIB_init_inv _ _ Hinit) as (Hp & H8 & _).
  split; [|split].
  - intros Hle. exists (PIB.mk (PIB._pib p ++ a)).
    replace (PIB.__len__ p + len a <=? s) with true in Hadd
      by (symmetry; apply Z.leb_le; exact Hle).
    split; [exact Hadd|]. split; [reflexivity|].
    split; [rewrite size_app by lia;
            replace (PIB.mk (PIB._pib p)) with p by (destruct p; reflexivity);
            exact Hsize|].
    unfold PIB.__add__. cbn [PIB._pib]. rewrite <- app_assoc. reflexivity.
  - intros Hgt.
    replace (PIB.__len__ p + len a <=? s) with false in Hadd
      by (symmetry; apply Z.leb_gt; exact Hgt).
    exact Hadd.
  - intros Hcomplete Hne.
    unfold PIB.is_complete in Hcomplete. rewrite Hsize in Hcomplete.
    cbn [rbind] in Hcomplete. injection Hcomplete as Hcomplete.
    apply Z.eqb_eq in Hcomplete.
    assert (0 < len a).
    { destruct a; [contradiction|]. rewrite len_cons.
      pose proof (len_nonneg a). lia. }
    replace (PIB.__len__ p + len a <=? s) with false in Hadd
      by (symmetry; apply Z.leb_gt; lia).
    exact Hadd.
Qed.

(** ** More of the handlers: what they turn away *)

(** X6: [packet_homeplug] answers [False] and changes nothing when the
    state waits for no HomePlug AV frame ([DSProbing], [DSRunning]), when
    the opcode is not the one the state waits for, whatever the bytes of
    the frame, and when the opcode is right and the first byte is a status
    other than 0. *)
Theorem homeplug_gate (w : World pyfloat) (now action : Z) (data : bytes) :
  expected_action (state (self w)) <> Some action
  \/ (exists status,
        struct.unpack_B (slice data 0 1) = Ok status /\ status <> 0) ->
  packet_homeplug now action data w = (Ok (Some false), w).
Proof. exact (packet_homeplug_rejects w now action data). Qed.

(** What [packet_homeplug] answers to a read confirmation that passes the
    status check and fails one of the checks behind it. *)
Lemma read_confirm_checks (w : World pyfloat) (now : Z) (data : bytes)
    status module length offset :
  class_in (class_of (state (self w))) [CProbingHP; CReadPIB] = true ->
  struct.unpack_B (slice data 0 1) = Ok 0 ->
  struct.unpack_BxxxBxHI (slice_to data 12)
  = Ok (status, module, length, offset) ->
  (module <> 2 ->
   packet_homeplug now 0xa025 data w = (Ok (Some false), w))
  /\ (forall ck,
        module = 2 -> calc_cksum (slice_from data 12) = Ok ck -> ck <> 0 ->
        packet_homeplug now 0xa025 data w = (Ok (Some false), w))
  /\ (forall last_sent,
        module = 2 -> calc_cksum (slice_from data 12) = Ok 0 ->
        state (self w) = DSProbingHP last_sent -> offset <> 0 ->
        packet_homeplug now 0xa025 data w = (Ok (Some false), w))
  /\ (forall start_time last_sent pib,
        module = 2 -> calc_cksum (slice_from data 12) = Ok 0 ->
        state (self w) = DSReadPIB start_time last_sent pib ->
        offset <> PIB.__len__ pib ->
        packet_homeplug now 0xa025 data w = (Ok None, w)).
Proof.
  intros Hcls Hst Hhdr.
  assert (Hrun : packet_homeplug now 0xa025 data w
    = (if negb (module =? 2) then (Ok (Some false), w)
       else match calc_cksum (slice_from data 12) with
            | Raise e => (Raise e, w)
            | Ok ck =>
                if negb (ck =? 0) then (Ok (Some false), w)
                else packet_homeplug now 0xa025 data w
            end)).
  { destruct (negb (module =? 2)) eqn:Em.
    - unfold packet_homeplug, bind, get, lift.
      destruct (state (self w)) eqn:E; try discriminate Hcls;
        cbn [class_of class_in existsb class_eqb negb orb andb Z.eqb];
        rewrite Hst; cbn [negb Z.eqb]; rewrite Hhdr, Em; reflexivity.
    - destruct (calc_cksum (slice_from data 12)) as [ck|e] eqn:Eck.
      + destruct (negb (ck =? 0)) eqn:Ec; [|reflexivity].
        unfold packet_homeplug, bind, get, lift.
        destruct (state (self w)) eqn:E; try discriminate Hcls;
          cbn [class_of class_in existsb class_eqb negb orb andb Z.eqb];
          rewrite Hst; cbn [negb Z.eqb]; rewrite Hhdr, Em, Eck, Ec;
          reflexivity.
      + unfold packet_homeplug, bind, get, lift.
        destruct (state (self w)) eqn:E; try discriminate Hcls;
          cbn [class_of class_in existsb class_eqb negb orb andb Z.eqb];
          rewrite Hst; cbn [negb Z.eqb]; rewrite Hhdr, Em, Eck;
          reflexivity. }
  split; [|split; [|split]].
  - intros Hm. rewrite Hrun. apply Z.eqb_neq in Hm. rewrite Hm. reflexivity.
  - intros ck -> Hck Hne. rewrite Hrun, Hck. apply Z.eqb_neq in Hne.
    rewrite Hne. reflexivity.
  - intros ls -> Hck Hs Hoff. unfold packet_homeplug, bind, get, lift.
    rewrite Hs. cbn [class_of class_in existsb class_eqb negb orb andb Z.eqb].
    rewrite Hst. cbn [negb Z.eqb]. rewrite Hhdr. cbn [negb Z.eqb].
    rewrite Hck. cbn [negb Z.eqb]. apply Z.eqb_neq in Hoff. rewrite Hoff.
    reflexivity.
  - intros st ls pib -> Hck Hs Hoff. unfold packet_homeplug, bind, get, lift.
    rewrite Hs. cbn [class_of class_in existsb class_eqb negb orb andb Z.eqb].
    rewrite Hst. cbn [negb Z.eqb]. rewrite Hhdr. cbn [negb Z.eqb].
    rewrite Hck. cbn [negb Z.eqb]. apply Z.eqb_neq in Hoff. rewrite Hoff.
    reflexivity.
Qed.

(** X7: a read confirmation with status 0 whose header decodes is turned
    away without any change when its module is not 2, when the checksum of
    its chunk area is not 0, and when its offset is not the one expected
    (0 in [DSProbingHP], the length of the partial PIB in [DSReadPIB]); the
    answer is [False], and [None] for the wrong offset in [DSReadPIB]. *)
Theorem read_confirm_turned_away (w : World pyfloat) (now : Z) (data : bytes)
    status module length offset :
  class_in (class_of (state (self w))) [CProbingHP; CReadPIB] = true ->
  struct.unpack_B (slice data 0 1) = Ok 0 ->
  struct.unpack_BxxxBxHI (slice_to data 12)
  = Ok (status, module, length, offset) ->
  (module <> 2 ->
   packet_homeplug now 0xa025 data w = (Ok (Some false), w))
  /\ (forall ck,
        module = 2 -> calc_cksum (slice_from data 12) = Ok ck -> ck <> 0 ->
        packet_homeplug now 0xa025 data w = (Ok (Some false), w))
  /\ (forall last_sent,
        module = 2 -> calc_cksum (slice_from data 12) = Ok 0 ->
        state (self w) = DSProbingHP last_sent -> offset <> 0 ->
        packet_homeplug now 0xa025 data w = (Ok (Some false), w))
  /\ (forall start_time last_sent pib,
        module = 2 -> calc_cksum (slice_from data 12) = Ok 0 ->
        state (self w) = DSReadPIB start_time last_sent pib ->
        offset <> PIB.__len__ pib ->
        packet_homeplug now 0xa025 data w = (Ok None, w)).
Proof. exact (read_confirm_checks w now data status module length offset). Qed.

(** X8: [packet_ether] answers [False] and changes nothing for a frame of
    fewer than 4 bytes, for every frame that reaches a device in one of
    the three PIB states, and for a frame whose second byte is not the
    number of bytes that follow it or is not a multiple of 64. *)
Theorem ether_gate (w : World pyfloat) (now : Z) (data : bytes) :
  len data < 4
  \/ class_in (class_of (state (self w))) [CProbing; CProbingHP; CRunning]
     = false
  \/ (exists length,
        struct.unpack_B (slice data 1 2) = Ok length
        /\ (len (slice_from data 2) <> length \/ length mod 64 <> 0)) ->
  packet_ether float now data w = (Ok (Some false), w).
Proof. exact (packet_ether_rejects w now data). Qed.

(** ** More of the handlers: the download *)

(** How [packet_homeplug] goes on in [DSProbingHP] once the confirmation
    has passed the checks of its header. *)
Lemma packet_homeplug_ProbingHP (w : World pyfloat) (now : Z) (data : bytes)
    last_sent status length :
  state (self w) = DSProbingHP last_sent ->
  struct.unpack_B (slice data 0 1) = Ok 0 ->
  struct.unpack_BxxxBxHI (slice_to data 12) = Ok (status, 2, length, 0) ->
  calc_cksum (slice_from data 12) = Ok 0 ->
  packet_homeplug now 0xa025 data w =
    match PIB.__init__ (slice data 16 (16 + length)) with
    | Ok pib => (Ok None, with_self (set_state (DSReadPIB now 0 pib)) w)
    | Raise e => (Raise e, w)
    end.
Proof.
  intros Hs Hst Hhdr Hck. unfold packet_homeplug, bind, get, lift.
  rewrite Hs. cbn [class_of class_in existsb class_eqb negb orb andb Z.eqb].
  rewrite Hst. cbn [negb Z.eqb]. rewrite Hhdr. cbn [negb Z.eqb].
  rewrite Hck. cbn [negb Z.eqb].
  destruct (PIB.__init__ _); reflexivity.
Qed.

(** X9: a read confirmation for offset 0 (status 0, module 2, chunk
    checksum 0) that reaches a device in [DSProbingHP] starts the download:
    when the chunk is longer than 8 bytes and not longer than the size its
    bytes 4 and 5 declare, the device moves to [DSReadPIB(start_time = now,
    last_sent = 0)] with the chunk as partial PIB and nothing else changes.
    A first chunk of 8 bytes or fewer is not turned away: the handler
    raises AssertionError. *)
Theorem probe_confirm_starts_download (w : World pyfloat) (now : Z)
    (data : bytes) last_sent status length :
  state (self w) = DSProbingHP last_sent ->
  struct.unpack_B (slice data 0 1) = Ok 0 ->
  struct.unpack_BxxxBxHI (slice_to data 12) = Ok (status, 2, length, 0) ->
  calc_cksum (slice_from data 12) = Ok 0 ->
  let chunk := slice data 16 (16 + length) in
  (forall size,
     8 < len chunk -> PIB.size (PIB.mk chunk) = Ok size -> len chunk <= size ->
     packet_homeplug now 0xa025 data w
     = (Ok None, with_self (set_state (DSReadPIB now 0 (PIB.mk chunk))) w))
  /\ (len chunk <= 8 ->
      packet_homeplug now 0xa025 data w = (Raise AssertionError, w)).
Proof.
  intros Hs Hst Hhdr Hck chunk.
  rewrite (packet_homeplug_ProbingHP w now data _ _ _ Hs Hst Hhdr Hck).
  fold chunk. unfold PIB.__init__, PIB.__len__. cbn [PIB._pib]. split.
  - intros size H8 Hsize Hle.
    replace (8 <? len chunk) with true by (symmetry; apply Z.ltb_lt; lia).
    cbn [assert rbind]. rewrite Hsize. cbn [rbind].
    replace (len chunk <=? size) with true by (symmetry; apply Z.leb_le; lia).
    reflexivity.
  - intros H8.
    replace (8 <? len chunk) with false by (symmetry; apply Z.ltb_ge; lia).
    reflexivity.
Qed.

(** X10: a read confirmation that continues the download (status 0,
    module 2, chunk checksum 0, offset the length of the partial PIB) and
    leaves the PIB incomplete keeps the device in [DSReadPIB] with the
    chunk appended, [last_sent] 0 and the [start_time] it had: the deadline
    of the download is not extended. A chunk that passes the declared size
    makes the handler raise AssertionError and changes nothing. *)
Theorem read_confirm_continues (w : World pyfloat) (now : Z) (data : bytes)
    start_time last_sent pib status length size :
  state (self w) = DSReadPIB start_time last_sent pib ->
  PIB.__init__ (PIB._pib pib) = Ok pib ->
  PIB.size pib = Ok size ->
  struct.unpack_B (slice data 0 1) = Ok 0 ->
  struct.unpack_BxxxBxHI (slice_to data 12)
  = Ok (status, 2, length, PIB.__len__ pib) ->
  calc_cksum (slice_from data 12) = Ok 0 ->
  let chunk := slice data 16 (16 + length) in
  (PIB.__len__ pib + len chunk < size ->
   packet_homeplug now 0xa025 data w
   = (Ok None,
      with_self
        (set_state (DSReadPIB start_time 0 (PIB.mk (PIB._pib pib ++ chunk))))
        w))
  /\ (size < PIB.__len__ pib + len chunk ->
      packet_homeplug now 0xa025 data w = (Raise AssertionError, w)).
Proof.
  intros Hs Hinit Hsize Hst Hhdr Hck chunk.
  rewrite (packet_homeplug_ReadPIB w now data _ _ _ _ _ _ Hs Hst Hhdr Hck).
  rewrite Z.eqb_refl. cbn [negb]. fold chunk.
  unfold bind at 1. unfold lift at 1.
  rewrite (add_spec pib chunk size Hinit Hsize).
  destruct (PIB_init_inv _ _ Hinit) as (_ & H8 & _).
  split.
  - intros Hlt.
    replace (PIB.__len__ pib + len chunk <=? size) with true
      by (symmetry; apply Z.leb_le; lia).
    cbv beta iota. unfold bind at 1. unfold lift at 1.
    unfold PIB.is_complete, PIB.__len__. cbn [PIB._pib].
    rewrite size_app by (unfold PIB.__len__ in *; lia).
    replace (PIB.mk (PIB._pib pib)) with pib by (destruct pib; reflexivity).
    rewrite Hsize. cbn [rbind]. rewrite len_app.
    replace (len (PIB._pib pib) + len chunk =? size) with false
      by (symmetry; apply Z.eqb_neq; unfold PIB.__len__ in *; lia).
    reflexivity.
  - intros Hgt.
    replace (PIB.__len__ pib + len chunk <=? size) with false
      by (symmetry; apply Z.leb_gt; lia).
    reflexivity.
Qed.

(** ** More of the handlers: the upload *)

Lemma write_confirm_step (w : World pyfloat) ev st ls off pib :
  state (self w) = DSWritePIB st ls off pib ->
  write_confirmed ev ->
  handle float ev w =
    (Ok tt,
     with_self
       (set_state
          (if off + pib_chunk >=? PIB.__len__ pib
           then DSWritePIBToNVM (event_time ev) 0
           else DSWritePIB st 0 (off + pib_chunk) pib))
       w).
Proof.
  intros Hs Hev. destruct ev as [|now action data|]; try contradiction.
  destruct Hev as [-> Hst]. cbn [handle event_time].
  unfold packet_homeplug, bind, get, lift.
  rewrite Hs, Hst. cbn [class_of class_in existsb class_eqb negb orb andb Z.eqb].
  destruct (off + pib_chunk >=? PIB.__len__ pib); reflexivity.
Qed.

(** Write confirmations in a row, from any offset. *)
Lemma write_confirms_from pib evs :
  forall (w : World pyfloat) st ls off ev,
  state (self w) = DSWritePIB st ls off pib ->
  Forall write_confirmed (ev :: evs) ->
  (off + pib_chunk * len (ev :: evs) < PIB.__len__ pib ->
   run float (ev :: evs) w
   = (Ok tt,
      with_self
        (set_state (DSWritePIB st 0 (off + pib_chunk * len (ev :: evs)) pib))
        w))
  /\ (off + pib_chunk * len evs < PIB.__len__ pib \/ evs = [] ->
      PIB.__len__ pib <= off + pib_chunk * len (ev :: evs) ->
      run float (ev :: evs) w
      = (Ok tt,
         with_self
           (set_state (DSWritePIBToNVM (event_time (last evs ev)) 0)) w)).
Proof.
  unfold pib_chunk.
  induction evs as [|ev' evs IH]; intros w st ls off ev Hs Hall.
  - inversion Hall as [|? ? Hev _]; subst.
    rewrite run_one, (write_confirm_step w ev st ls off pib Hs Hev).
    unfold pib_chunk. change (len [ev]) with 1. split.
    + intros Hlt.
      replace (off + 1024 >=? PIB.__len__ pib) with false
        by (symmetry; rewrite Z.geb_leb; apply Z.leb_gt; lia).
      replace (off + 1024 * 1) with (off + 1024) by lia. reflexivity.
    + intros _ Hge.
      replace (off + 1024 >=? PIB.__len__ pib) with true
        by (symmetry; rewrite Z.geb_leb; apply Z.leb_le; lia).
      reflexivity.
  - inversion Hall as [|? ? Hev Hall']; subst.
    rewrite run_cons, (write_confirm_step w ev st ls off pib Hs Hev).
    unfold pib_chunk. rewrite !len_cons.
    pose proof (len_nonneg evs) as Hn.
    specialize (IH (with_self (set_state (DSWritePIB st 0 (off + 1024) pib)) w)
                  st 0 (off + 1024) ev' eq_refl Hall').
    rewrite len_cons in IH. destruct IH as [IHa IHb].
    split.
    + intros Hlt.
      replace (off + 1024 >=? PIB.__len__ pib) with false
        by (symmetry; rewrite Z.geb_leb; apply Z.leb_gt; lia).
      rewrite IHa by lia.
      replace (off + 1024 + 1024 * (len evs + 1))
        with (off + 1024 * (len evs + 1 + 1)) by lia.
      reflexivity.
    + intros [Hlt|Hnil] Hge; [|discriminate Hnil].
      replace (off + 1024 >=? PIB.__len__ pib) with false
        by (symmetry; rewrite Z.geb_leb; apply Z.leb_gt; lia).
      rewrite IHb.
      * rewrite last_cons_default. reflexivity.
      * destruct evs as [|e evs']; [right; reflexivity|left].
        rewrite len_cons in *. lia.
      * lia.
Qed.

(** X11: the upload takes one write confirmation per chunk. From
    [DSWritePIB] at offset 0, [k] write confirmations with status 0 in a
    row, with [k] at least 1 and [1024 * k] below the length of the PIB,
    leave the device in [DSWritePIB] at offset [1024 * k] with [last_sent]
    0; and when [1024 * (k - 1)] is below the length and [1024 * k] is
    not, the [k]-th moves it to [DSWritePIBToNVM(start_time = the instant
    of that confirmation, last_sent = 0)]. Nothing else of the world
    changes and no confirmation raises. *)
Theorem upload_takes_one_confirmation_per_chunk (w : World pyfloat)
    (ev : Event) (evs : list Event) start_time last_sent pib :
  state (self w) = DSWritePIB start_time last_sent 0 pib ->
  Forall write_confirmed (ev :: evs) ->
  let k := len (ev :: evs) in
  (pib_chunk * k < PIB.__len__ pib ->
   run float (ev :: evs) w
   = (Ok tt,
      with_self (set_state (DSWritePIB start_time 0 (pib_chunk * k) pib)) w))
  /\ (pib_chunk * (k - 1) < PIB.__len__ pib ->
      PIB.__len__ pib <= pib_chunk * k ->
      run float (ev :: evs) w
      = (Ok tt,
         with_self
           (set_state (DSWritePIBToNVM (event_time (last evs ev)) 0)) w)).
Proof.
  intros Hs Hall k.
  destruct (write_confirms_from pib evs w start_time last_sent 0 ev Hs Hall)
    as [Ha Hb].
  split.
  - intros Hlt. rewrite Ha by (fold k; lia). reflexivity.
  - intros Hlt Hge. apply Hb.
    + left. unfold k in Hlt. rewrite len_cons in Hlt.
      replace (len evs + 1 - 1) with (len evs) in Hlt by lia. lia.
    + fold k. lia.
Qed.

(** ** More of the handlers: what every run keeps *)

Lemma handle_state_ok ev (w : World pyfloat) :
  state_ok (state (self w)) ->
  state_ok (state (self (snd (handle float ev w)))).
Proof.
  intros Hok. destruct ev as [now|now action data|now data]; cbn [handle].
  - exact (tick_state_ok w now Hok).
  - pose proof (packet_homeplug_state_ok w now action data Hok) as H.
    unfold bind.
    destruct (packet_homeplug now action data w) as [[r|e] w1]; exact H.
  - pose proof (packet_ether_state_ok w now data Hok) as H.
    unfold bind.
    destruct (packet_ether float now data w) as [[r|e] w1]; exact H.
Qed.

Lemma run_state_ok evs : forall (w : World pyfloat),
  state_ok (state (self w)) ->
  state_ok (state (self (snd (run float evs w)))).
Proof.
  induction evs as [|ev evs IH]; intros w Hok; [exact Hok|].
  rewrite run_cons. pose proof (handle_state_ok ev w Hok) as H.
  destruct (handle float ev w) as [[[]|e] w1]; cbn [snd] in H.
  - exact (IH w1 H).
  - exact H.
Qed.

Lemma tick_returns (now : Z) (w : World pyfloat) :
  state_ok (state (self w)) -> exists w', tick now w = (Ok tt, w').
Proof.
  intros Hok.
  destruct (pib_start_time (state (self w))) as [t0|] eqn:E.
  - destruct (Z_gt_le_dec (now - t0) pib_abort_time) as [Hlate|Hearly].
    + eexists. exact (tick_pib_timeout now w t0 E Hlate).
    + destruct (tick_pib_alive now w t0 E Hok Hearly)
        as (msgs & s & Ht & _).
      eexists. exact Ht.
  - destruct (state (self w)) as [ls n|ls| | | |ls lr] eqn:Es;
      try discriminate E.
    + eexists. exact (tick_Probing now w ls n Es).
    + eexists. exact (tick_ProbingHP now w ls Es).
    + unfold tick, bind, get. rewrite Es.
      destruct (optbool_neb _ _ && is_not_None _).
      * destruct (want_on (self w)) as [[|]|]; eexists; reflexivity.
      * destruct (interval (self w)) as [iv|]; [|eexists; reflexivity].
        destruct (now - lr >? running_abort_time); [eexists; reflexivity|].
        destruct (ls <? now - iv); eexists; reflexivity.
Qed.

(** X12: the data of the PIB states stays well formed. When the state of
    a device is outside the three PIB states, or carries a PIB that
    [PIB.__init__] accepts (in [DSWritePIB]: a valid one, with an offset
    that is a multiple of [pib_chunk] inside it), the same holds after
    any sequence of ticks, HomePlug AV frames and vendor frames, also
    when one of them raises and the run stops there. *)
Theorem pib_states_stay_well_formed (w : World pyfloat) (evs : list Event) :
  state_ok (state (self w)) ->
  state_ok (state (self (snd (run float evs w)))).
Proof. exact (run_state_ok evs w). Qed.

(** X13: [tick] never raises on a device that started from
    [reset_state]. Whatever the configuration and the server, and
    whatever ticks and frames the device has been through since (the
    last of them may have raised), the next tick returns: every read and
    write request it builds fits the fields [struct.pack] puts it in. *)
Theorem tick_never_raises (w : World pyfloat) (evs : list Event) (now : Z) :
  exists w',
    tick now (snd (run float evs (with_self reset_state w))) = (Ok tt, w').
Proof.
  apply tick_returns. apply run_state_ok. exact I.
Qed.

(** ** More of the tick: the running device *)

Lemma tick_pending (now : Z) (w : World pyfloat) ls lr (b : bool) :
  state (self w) = DSRunning ls lr ->
  want_on (self w) = Some b ->
  device_is_on (self w) <> Some b ->
  tick now w =
    (Ok tt,
     with_self
       (fun d => set_state (DSRunning now lr) (set_device_is_on None d))
       (with_sent [if b then on_msg else off_msg] w)).
Proof.
  intros Hs Hw Hon. unfold tick, bind, get. rewrite Hs, Hw.
  replace (optbool_neb (device_is_on (self w)) (Some b)) with true.
  - destruct b; reflexivity.
  - destruct (device_is_on (self w)) as [[|]|], b; try reflexivity;
      contradiction Hon; reflexivity.
Qed.

Lemma run_ticks_pending (b : bool) ts : forall (w : World pyfloat) ls lr,
  state (self w) = DSRunning ls lr ->
  want_on (self w) = Some b ->
  device_is_on (self w) <> Some b ->
  exists w',
    run_ticks ts w = (Ok tt, w')
    /\ _sock (server w')
       = _sock (server w) ++ repeat (if b then on_msg else off_msg) (List.length ts)
    /\ state (self w') = DSRunning (last ts ls) lr
    /\ want_on (self w') = Some b
    /\ (ts <> [] -> device_is_on (self w') = None).
Proof.
  induction ts as [|t ts IH]; intros w ls lr Hs Hw Hon.
  - exists w. cbn [repeat List.length last]. rewrite app_nil_r.
    split; [reflexivity|]. split; [reflexivity|]. split; [exact Hs|].
    split; [exact Hw|]. intros H; contradiction H; reflexivity.
  - rewrite run_ticks_cons, (tick_pending t w ls lr b Hs Hw Hon).
    destruct (IH (with_self
                    (fun d => set_state (DSRunning t lr)
                                (set_device_is_on None d))
                    (with_sent [if b then on_msg else off_msg] w)) t lr)
      as (w' & Hrun & Hsock & Hst & Hw' & Hon'); [reflexivity|exact Hw|discriminate|].
    exists w'. split; [exact Hrun|]. split.
    + rewrite Hsock. cbn [with_self with_sent server _sock List.length repeat].
      rewrite <- app_assoc. reflexivity.
    + split; [rewrite last_cons_default; exact Hst|]. split; [exact Hw'|].
      intros _. destruct ts as [|t' ts'].
      * cbn in Hrun. injection Hrun as <-. reflexivity.
      * apply Hon'. discriminate.
Qed.

(** X14: a command that is pending is sent again by every tick. In
    [DSRunning] with [want_on] set and [device_is_on] different from it,
    each tick sends the on frame (the off frame for [want_on = False]),
    whatever the instants of the ticks: [last_sent] does not space them,
    and neither the interval nor [running_abort_time] is looked at, so
    the device is not reset however long it stays silent. After [n]
    ticks [n] frames have been sent, [want_on] is as it was,
    [device_is_on] is [None] and the state is [DSRunning] with the
    [last_received] it had. *)
Theorem pending_command_sent_every_tick (w : World pyfloat) (b : bool)
    (ts : list Z) last_sent last_received :
  state (self w) = DSRunning last_sent last_received ->
  want_on (self w) = Some b ->
  device_is_on (self w) <> Some b ->
  exists w',
    run_ticks ts w = (Ok tt, w')
    /\ _sock (server w')
       = _sock (server w)
         ++ repeat (if b then on_msg else off_msg) (List.length ts)
    /\ state (self w') = DSRunning (last ts last_sent) last_received
    /\ want_on (self w') = Some b
    /\ (ts <> [] -> device_is_on (self w') = None).
Proof. exact (run_ticks_pending b ts w last_sent last_received). Qed.






(** ** More of the vendor frames *)

Lemma ether_message_onoff (now : Z) (f s : byte) (rest : bytes) :
  byte_val f = 9 \/ byte_val f = 12 ->
  ether_message float now (f :: x01 :: s :: rest) 0
  = ((if byte_val s =? 1 then receive_is_on now
      else if byte_val s =? 0 then receive_is_off now
      else ret tt) ;;;
     mark_received now)%se.
Proof.
  intros Hf. unfold ether_message.
  change (slice (f :: x01 :: s :: rest) 0 (0 + 64))
    with (f :: x01 :: s :: firstn 61 rest).
  change (index (f :: x01 :: s :: firstn 61 rest) 0) with (Ok f).
  change (index (f :: x01 :: s :: firstn 61 rest) 1) with (Ok x01).
  change (slice (f :: x01 :: s :: firstn 61 rest) 2 (2 + byte_val x01))
    with [s].
  unfold bind at 1. unfold lift at 1. cbv beta iota.
  unfold bind at 1. unfold lift at 1. cbv beta iota.
  destruct Hf as [-> | ->]; reflexivity.
Qed.

Lemma packet_ether_one_message (now : Z) (w : World pyfloat)
    (h : byte) (pd : bytes) :
  pib_start_time (state (self w)) = None ->
  len pd = 64 ->
  packet_ether float now (h :: x40 :: pd) w
  = (_ <- ether_message float now pd 0 ;; ret None)%se w.
Proof.
  intros Hs Hl. unfold packet_ether.
  unfold bind at 1. unfold get at 1. cbv beta iota.
  assert (Hd : len (h :: x40 :: pd) = 66) by (rewrite !len_cons; lia).
  rewrite Hd. change (66 <? 4) with false. cbv iota.
  replace (class_in (class_of (state (self w)))
             [CProbing; CProbingHP; CRunning]) with true
    by (destruct (state (self w)); try discriminate Hs; reflexivity).
  cbn [negb].
  change (slice (h :: x40 :: pd) 1 2) with [x40].
  change (slice_from (h :: x40 :: pd) 2) with pd.
  unfold bind at 1. unfold lift at 1. cbn [struct.unpack_B].
  change (byte_val x40) with 64. rewrite Hl.
  change (negb (64 =? 64)) with false.
  change (negb (64 mod 64 =? 0)) with false.
  change (range0 64 64) with [0]. cbv iota. cbn [for_each]. unfold bind.
  destruct (ether_message float now pd 0 w) as [[[]|e] w1]; reflexivity.
Qed.

(** X16: what an on/off message does. A vendor frame of one message
    with function 9 (reply) or 12 (unsolicited), length 1 and status
    byte [s], reaching a device in [DSProbing], [DSProbingHP] or
    [DSRunning] of a server that keeps a data log, always moves the
    device to [DSRunning] with the [last_sent] of the state it was in
    and [last_received] now, and sends nothing. For [s = 1]
    ([s = 0]) it also records the outlet as on (off), clears [want_on]
    when it asked for just that and leaves it otherwise, and appends
    one line without power to the data log. Any other status byte
    changes nothing else: the device still counts as running. *)
Theorem onoff_message_effect (w : World pyfloat) (now : Z)
    (h f s : byte) (rest : bytes) (lines : list (LogLine pyfloat)) :
  pib_start_time (state (self w)) = None ->
  byte_val f = 9 \/ byte_val f = 12 ->
  List.length rest = 61%nat ->
  _datalog (server w) = Some lines ->
  exists w',
    packet_ether float now (h :: x40 :: f :: x01 :: s :: rest) w
    = (Ok None, w')
    /\ state (self w') = DSRunning (last_sent_of (state (self w))) now
    /\ _sock (server w') = _sock (server w)
    /\ (forall b : bool,
          byte_val s = (if b then 1 else 0) ->
          device_is_on (self w') = Some b
          /\ want_on (self w')
             = (if optbool_neb (want_on (self w)) (Some b)
                then want_on (self w) else None)
          /\ _datalog (server w')
             = Some (lines
                     ++ [mkLogLine now (remote_mac (self w)) (Some b) None]))
    /\ (byte_val s <> 1 -> byte_val s <> 0 ->
        w' = with_self
               (set_state (DSRunning (last_sent_of (state (self w))) now)) w).
Proof.
  intros Hs Hf Hrest Hlog.
  rewrite packet_ether_one_message;
    [|exact Hs | rewrite !len_cons; unfold len; rewrite Hrest; reflexivity].
  rewrite (ether_message_onoff now f s rest Hf).
  destruct (Z.eqb_spec (byte_val s) 1) as [E1|E1];
    [|destruct (Z.eqb_spec (byte_val s) 0) as [E0|E0]].
  - unfold receive_is_on, report_data, mark_received, bind, get, upd,
      modify, ret, lift.
    destruct (want_on (self w)) as [[|]|] eqn:Ew;
      cbn [self server _datalog]; rewrite Hlog;
      (eexists; split; [reflexivity|]; split; [reflexivity|];
       split; [reflexivity|]; split; [|intros H; contradiction]);
      intros [|] Hb; try (exfalso; lia);
      cbn; rewrite ?Ew; repeat split.
  - unfold receive_is_off, report_data, mark_received, bind, get, upd,
      modify, ret, lift.
    destruct (want_on (self w)) as [[|]|] eqn:Ew;
      cbn [self server _datalog]; rewrite Hlog;
      (eexists; split; [reflexivity|]; split; [reflexivity|];
       split; [reflexivity|]; split; [|intros _ H; contradiction]);
      intros [|] Hb; try (exfalso; lia);
      cbn; rewrite ?Ew; repeat split.
  - eexists. split; [reflexivity|]. split; [reflexivity|].
    split; [reflexivity|]. split; [|reflexivity].
    intros [|] Hb; contradiction.
Qed.

(** X17: a server without a data log cannot take a report. When no
    [datalog] is configured, [report_data] raises AttributeError, so an
    on/off message with status 1 or 0 makes [packet_ether] raise after
    [device_is_on] has been assigned and before the state is touched:
    the device is not moved to [DSRunning] and [last_received] is not
    refreshed. Nothing is sent or logged. *)
Theorem report_without_datalog_raises (w : World pyfloat) (now : Z)
    (h f s : byte) (rest : bytes) (b : bool) :
  pib_start_time (state (self w)) = None ->
  byte_val f = 9 \/ byte_val f = 12 ->
  List.length rest = 61%nat ->
  _datalog (server w) = None ->
  byte_val s = (if b then 1 else 0) ->
  exists w',
    packet_ether float now (h :: x40 :: f :: x01 :: s :: rest) w
    = (Raise AttributeError, w')
    /\ state (self w') = state (self w)
    /\ device_is_on (self w') = Some b
    /\ server w' = server w.
Proof.
  intros Hs Hf Hrest Hlog Hb.
  rewrite packet_ether_one_message;
    [|exact Hs | rewrite !len_cons; unfold len; rewrite Hrest; reflexivity].
  rewrite (ether_message_onoff now f s rest Hf), Hb.
  destruct b; cbn [Z.eqb Pos.eqb];
    unfold receive_is_on, receive_is_off, report_data, mark_received, bind,
      get, upd, modify, ret, lift;
    destruct (want_on (self w)) as [[|]|];
    cbn [self server _datalog]; rewrite Hlog;
    eexists; repeat split.
Qed.

(** X18: a power report that agrees with what is known is taken. When
    the report parses and each of [device_type], [device_version] and
    [device_unknown_tuple] is either still [None] or equal to what the
    report announces, [receive_powerdata] stores the three (so the first
    report fixes the identity), sets [device_power] and [device_is_on]
    from the report and leaves the state, the configuration and
    [want_on] alone: a power report never clears a pending command.
    With a data log one line is appended; without one the method raises
    AttributeError after the device has been updated. *)
Theorem power_report_accepted (w : World pyfloat) (now : Z) (data : string)
    ty is_on power tup ver :
  parse_powerdata float data = Ok (ty, is_on, power, tup, ver) ->
  device_type (self w) = None \/ device_type (self w) = Some ty ->
  device_version (self w) = None \/ device_version (self w) = Some ver ->
  device_unknown_tuple (self w) = None
  \/ device_unknown_tuple (self w) = Some tup ->
  let d' :=
    mkDevice (alias (self w)) (interval (self w)) (remote_mac (self w))
      (state (self w)) (want_on (self w)) (Some ty) (Some ver) (Some tup)
      (Some power) (Some is_on) in
  receive_powerdata float now data w
  = match _datalog (server w) with
    | Some lines =>
        (Ok tt,
         mkWorld d'
           (mkServer (_interface_mac_bytes (server w))
              (Some (lines
                     ++ [mkLogLine now (remote_mac (self w)) (Some is_on)
                           (Some power)]))
              (_sock (server w))))
    | None => (Raise AttributeError, mkWorld d' (server w))
    end.
Proof.
  intros Hparse Hty Hver Htup d'. subst d'.
  destruct w as [[al iv mac st want dty dver dtup dpow don] srv].
  cbn [self server alias interval remote_mac state want_on device_type
       device_version device_unknown_tuple] in *.
  unfold receive_powerdata. unfold bind at 1. unfold lift at 1.
  rewrite Hparse. cbv beta iota.
  pose proof (proj2 (pyval_eqb_eq tup tup) eq_refl) as E1.
  pose proof (proj2 (version_eqb_eq ver ver) eq_refl) as E2.
  pose proof (String.eqb_refl ty) as E3.
  destruct Hty as [-> | ->], Hver as [-> | ->], Htup as [-> | ->];
    unfold bind, get, upd, modify, ret, lift, report_data;
    cbn [self server is_not_None device_unknown_tuple device_version
         device_type set_device_unknown_tuple set_device_version
         set_device_type alias interval remote_mac state want_on
         device_power device_is_on];
    rewrite E1, E2, E3; cbn [assert];
    destruct srv as [m [lines|] sock]; reflexivity.
Qed.

Lemma for_each_unchanged {A} (l : list A) (body : A -> M pyfloat unit)
    (w : World pyfloat) :
  (forall x, In x l -> body x w = (Ok tt, w)) ->
  for_each l body w = (Ok tt, w).
Proof.
  induction l as [|x l IH]; intros H; [reflexivity|].
  cbn [for_each]. unfold bind. rewrite (H x (or_introl eq_refl)).
  apply IH. intros y Hy. apply H. right. exact Hy.
Qed.

Lemma range0_In stop step i :
  0 < step -> In i (range0 stop step) ->
  exists k, i = Z.of_nat k * step /\ i < stop.
Proof.
  intros Hstep Hin. unfold range0 in Hin. apply in_map_iff in Hin.
  destruct Hin as (k & <- & Hk). apply in_seq in Hk. exists k.
  split; [reflexivity|].
  assert (Z.of_nat k + 1 <= (stop + step - 1) / step) as Hk1 by lia.
  pose proof (Z.mul_div_le (stop + step - 1) step Hstep) as Hm.
  nia.
Qed.

Lemma index_slice {A} (l : list A) (i : Z) (k : nat) (d : A) :
  0 <= i -> i + Z.of_nat k < len l -> (Z.of_nat k < 64) ->
  index (slice l i (i + 64)) k = Ok (nth (Z.to_nat i + k) l d).
Proof.
  intros Hi Hlt Hk. unfold index, slice, len in *.
  replace (i + 64 - i) with 64 by lia.
  rewrite nth_error_firstn.
  destruct (Nat.ltb_spec k (Z.to_nat 64)) as [_|Hbad]; [|lia].
  rewrite nth_error_skipn.
  rewrite (nth_error_nth' l d) by lia. reflexivity.
Qed.

(** X19: messages with an unknown function are passed over. A vendor
    frame of any number of 64-byte messages, none of which has function
    1, 9 or 12, changes nothing in a device that takes vendor frames: no
    field is assigned, nothing is sent or logged, and the device is not
    moved to [DSRunning] by it; [packet_ether] returns [None]. *)
Theorem unknown_functions_ignored (w : World pyfloat) (now : Z)
    (h l : byte) (pd : bytes) :
  pib_start_time (state (self w)) = None ->
  len pd = byte_val l ->
  0 < byte_val l ->
  byte_val l mod 64 = 0 ->
  (forall k : nat,
     64 * Z.of_nat k < len pd ->
     let f := byte_val (nth (64 * k) pd x00) in
     f <> 1 /\ f <> 9 /\ f <> 12) ->
  packet_ether float now (h :: l :: pd) w = (Ok None, w).
Proof.
  intros Hs Hl Hpos Hmod Hfun. unfold packet_ether.
  unfold bind at 1. unfold get at 1. cbv beta iota.
  pose proof (byte_val_range l) as Hr.
  replace (len (h :: l :: pd) <? 4) with false
    by (symmetry; apply Z.ltb_ge; rewrite !len_cons;
        pose proof (Z.div_mod (byte_val l) 64 ltac:(lia)); lia).
  replace (class_in (class_of (state (self w)))
             [CProbing; CProbingHP; CRunning]) with true
    by (destruct (state (self w)); try discriminate Hs; reflexivity).
  cbn [negb].
  change (slice (h :: l :: pd) 1 2) with [l].
  change (slice_from (h :: l :: pd) 2) with pd.
  unfold bind at 1. unfold lift at 1. cbn [struct.unpack_B].
  rewrite Hl, Z.eqb_refl, Hmod. cbn [negb Z.eqb].
  unfold bind. rewrite for_each_unchanged; [reflexivity|].
  intros i Hin. apply range0_In in Hin; [|lia].
  destruct Hin as (k & -> & Hlt).
  assert (Hend : Z.of_nat k * 64 + 64 <= len pd).
  { pose proof (Z.div_mod (byte_val l) 64 ltac:(lia)) as Hd.
    rewrite Hmod in Hd. rewrite Hl. lia. }
  unfold ether_message.
  rewrite (index_slice pd (Z.of_nat k * 64) 0 x00) by lia.
  rewrite (index_slice pd (Z.of_nat k * 64) 1 x00) by lia.
  unfold bind at 1. unfold lift at 1. cbv beta iota.
  unfold bind at 1. unfold lift at 1. cbv beta iota.
  replace (Z.to_nat (Z.of_nat k * 64) + 0)%nat with (64 * k)%nat by lia.
  destruct (Hfun k ltac:(lia)) as (H1 & H9 & H12).
  cbv zeta in H1, H9, H12.
  replace (byte_val (nth (64 * k) pd x00) =? 1) with false
    by (symmetry; apply Z.eqb_neq; exact H1).
  replace (byte_val (nth (64 * k) pd x00) =? 9) with false
    by (symmetry; apply Z.eqb_neq; exact H9).
  replace (byte_val (nth (64 * k) pd x00) =? 12) with false
    by (symmetry; apply Z.eqb_neq; exact H12).
  reflexivity.
Qed.

(** ** More of the requests: what is put on the wire *)

Lemma pack_H_unpack v :
  0 <= v < 65536 ->
  exists b0 b1,
    struct.pack_H v = Ok [b0; b1] /\ struct.unpack_H [b0; b1] = Ok v.
Proof.
  intros Hv. unfold struct.pack_H.
  replace ((0 <=? v) && (v <? 65536)) with true
    by (symmetry; apply andb_true_intro; split;
        [apply Z.leb_le | apply Z.ltb_lt]; lia).
  do 2 eexists. split; [reflexivity|]. unfold struct.unpack_H.
  rewrite !byte_val_of by (apply Z.mod_pos_bound; lia).
  pose proof (Z.div_mod v 256 ltac:(lia)).
  assert (0 <= v / 256 < 256)
    by (split; [apply Z.div_pos | apply Z.div_lt_upper_bound]; lia).
  rewrite (Z.mod_small (v / 256)) by lia.
  f_equal. lia.
Qed.

Lemma pack_I_unpack v :
  0 <= v < 2 ^ 32 ->
  exists b0 b1 b2 b3,
    struct.pack_I v = Ok [b0; b1; b2; b3]
    /\ struct.unpack_I [b0; b1; b2; b3] = Ok v.
Proof.
  intros Hv. destruct (pack_I_word v Hv) as (b0 & b1 & b2 & b3 & Hp & Hw).
  exists b0, b1, b2, b3. split; [exact Hp|].
  unfold struct.unpack_I. f_equal. exact Hw.
Qed.

(** X20: a write request decodes to the chunk it carries. In
    [DSWritePIB] with the data the transitions give that state,
    [send_hp_write_pib] hands one frame to the socket: EtherType 88e1,
    version 0, the opcode 0xa020, the vendor OUI, module 2, a reserved
    byte, then the length of the chunk as ['<H'], the offset as ['<I'],
    the checksum and the chunk. Read back with [struct.unpack], the
    length is that of the chunk (1024, or what is left of the PIB), the
    offset is [pib_current_offset], the bytes from 20 on are
    [pib[offset:offset + 1024]], and [calc_cksum] over the checksum
    field and the chunk together is 0. *)
Theorem write_request_decodes (w : World pyfloat) st ls offset pib :
  state (self w) = DSWritePIB st ls offset pib ->
  state_ok (DSWritePIB st ls offset pib) ->
  let chunk := slice (PIB._pib pib) offset (offset + pib_chunk) in
  exists msg,
    send_hp_write_pib w = (Ok tt, with_sent [msg] w)
    /\ slice_to msg 10
       = [x88; xe1; x00; x20; xa0; x00; xb0; x52; x02; x00]
    /\ struct.unpack_H (slice msg 10 12) = Ok (len chunk)
    /\ len chunk = Z.min pib_chunk (PIB.__len__ pib - offset)
    /\ struct.unpack_I (slice msg 12 16) = Ok offset
    /\ calc_cksum (slice_from msg 16) = Ok 0
    /\ slice_from msg 20 = chunk.
Proof.
  intros Hs (Hinit & Hvalid & Hoff & Hmod) chunk.
  apply PIB_init_inv in Hinit. destruct Hinit as (_ & H8 & s & Hsize & Hlen).
  apply is_valid_aligned in Hvalid.
  unfold PIB.__len__ in *.
  assert (Hchunk : len chunk = Z.min pib_chunk (len (PIB._pib pib) - offset)).
  { unfold chunk, pib_chunk. rewrite len_slice_gen by lia. lia. }
  assert (Hal : aligned chunk)
    by (apply chunk_aligned; [exact Hvalid | lia | exact Hmod]).
  unfold send_hp_write_pib, bind, get, lift. rewrite Hs. fold chunk.
  change (hp_head 0xa020)
    with (Ok [x88; xe1; x00; x20; xa0; x00; xb0; x52; x02]).
  destruct (pack_H_unpack (len chunk)) as (l0 & l1 & -> & Hl).
  { rewrite Hchunk. unfold pib_chunk. lia. }
  destruct (pack_I_unpack offset) as (o0 & o1 & o2 & o3 & -> & Ho).
  { change (2 ^ 32) with 4294967296. lia. }
  rewrite calc_cksum_same, (calc_cksum_aligned chunk Hal). cbn [rbind].
  destruct (pack_I_word (neg32 (xor_fold chunk)) (neg32_range _))
    as (c0 & c1 & c2 & c3 & -> & Hc).
  cbn [rbind]. eexists. split; [reflexivity|].
  split; [reflexivity|]. split; [exact Hl|]. split; [exact Hchunk|].
  split; [exact Ho|]. split; [|reflexivity].
  change (slice_from _ 16) with (c0 :: c1 :: c2 :: c3 :: chunk).
  rewrite calc_cksum_same, calc_cksum_aligned
    by (apply aligned_cons4; exact Hal).
  cbn [xor_fold]. rewrite Hc, Z.lxor_comm.
  rewrite lxor_neg32 by apply xor_fold_range.
  rewrite neg32_mask32. reflexivity.
Qed.

(** X21: a read request never asks past the end of the PIB. In
    [DSReadPIB] before the deadline, a tick more than [probe_delay]
    after [last_sent] sends one read request (opcode 0xa024, module 2)
    and stamps [last_sent]; read back with [struct.unpack], its offset
    is the number of bytes downloaded so far and its length is
    [min(size - len, pib_chunk)], so the bytes it asks for end at or
    before the size the header of the PIB declares. *)
Theorem read_request_within_size (w : World pyfloat) (now : Z)
    start_time last_sent pib :
  state (self w) = DSReadPIB start_time last_sent pib ->
  state_ok (DSReadPIB start_time last_sent pib) ->
  now - start_time <= pib_abort_time ->
  last_sent < now - probe_delay ->
  exists msg size length,
    tick now w
    = (Ok tt,
       with_self (set_state (DSReadPIB start_time now pib))
         (with_sent [msg] w))
    /\ PIB.size pib = Ok size
    /\ slice_to msg 10
       = [x88; xe1; x00; x24; xa0; x00; xb0; x52; x02; x00]
    /\ struct.unpack_H (slice msg 10 12) = Ok length
    /\ struct.unpack_I (slice_from msg 12) = Ok (PIB.__len__ pib)
    /\ length = Z.min (size - PIB.__len__ pib) pib_chunk
    /\ 0 <= length /\ PIB.__len__ pib + length <= size.
Proof.
  intros Hs Hok Halive Hdue. cbn [state_ok] in Hok.
  apply PIB_init_inv in Hok. destruct Hok as (_ & H8 & s & Hsize & Hlen).
  pose proof (unpack_H_range _ _ Hsize) as Hsr.
  unfold tick, bind, get, lift. rewrite Hs.
  replace (start_time <? now - pib_abort_time) with false
    by (symmetry; apply Z.ltb_ge; lia).
  replace (last_sent <? now - probe_delay) with true
    by (symmetry; apply Z.ltb_lt; lia).
  rewrite Hsize. unfold PIB.__len__ in *.
  set (n := Z.min (s - len (PIB._pib pib)) pib_chunk).
  assert (Hn : 0 <= n < 65536) by (unfold n, pib_chunk; lia).
  unfold send_hp_read_pib, bind, lift.
  change (hp_head 0xa024)
    with (Ok [x88; xe1; x00; x24; xa0; x00; xb0; x52; x02]).
  destruct (pack_H_unpack n Hn) as (l0 & l1 & -> & Hl).
  destruct (pack_I_unpack (len (PIB._pib pib)))
    as (o0 & o1 & o2 & o3 & -> & Ho).
  { change (2 ^ 32) with 4294967296. lia. }
  cbn [rbind]. eexists. exists s, n. split; [reflexivity|].
  split; [reflexivity|]. split; [reflexivity|]. split; [exact Hl|].
  split; [exact Ho|]. split; [reflexivity|]. unfold n, pib_chunk. lia.
Qed.

(** ** More of the handlers: what is never undone *)

Lemma handlers_keep_refl (d : Device pyfloat) : handlers_keep d d.
Proof. unfold handlers_keep. repeat split; auto. Qed.

Lemma handlers_keep_trans (d1 d2 d3 : Device pyfloat) :
  handlers_keep d1 d2 -> handlers_keep d2 d3 -> handlers_keep d1 d3.
Proof.
  unfold handlers_keep.
  intros (A1 & I1 & M1 & W1 & T1 & V1 & U1) (A2 & I2 & M2 & W2 & T2 & V2 & U2).
  repeat split; try congruence; auto.
  destruct W2 as [W2|W2]; [|right; exact W2].
  destruct W1 as [W1|W1]; [left | right]; congruence.
Qed.

Lemma same_identity_handlers_keep (d d' : Device pyfloat) :
  same_identity d d' -> handlers_keep d d'.
Proof.
  unfold same_identity, handlers_keep.
  intros (A & I & M & W & T & V & U).
  repeat split; try assumption; try (left; assumption); intros v H; congruence.
Qed.

Lemma receive_powerdata_handlers_keep now data :
  keeps handlers_keep (receive_powerdata float now data).
Proof.
  intros [[al iv mac st want dty dver dtup dpow don] [m log sock]].
  unfold receive_powerdata. unfold bind at 1. unfold lift at 1.
  destruct (parse_powerdata float data) as [[[[[ty on'] pow] tup] ver]|];
    [|apply handlers_keep_refl].
  cbv beta iota.
  unfold report_data, bind, get, upd, modify, ret, lift.
  cbn [self server device_unknown_tuple device_version device_type].
  destruct dtup as [u|], dver as [v|], dty as [t|];
    cbn [is_not_None self server device_unknown_tuple device_version
         device_type set_device_unknown_tuple set_device_version
         set_device_type alias interval remote_mac state want_on
         device_power device_is_on];
    repeat match goal with
           | |- context [assert ?c] => destruct c; cbn [assert]
           end;
    try apply handlers_keep_refl;
    destruct log; cbn [snd self server _datalog];
    unfold handlers_keep;
    cbn [alias interval remote_mac want_on device_type device_version
         device_unknown_tuple set_device_power set_device_is_on];
    repeat split; try (left; reflexivity); intros x H;
    first [exact H | discriminate H].
Qed.

Lemma ether_message_handlers_keep now packet_data msg_start :
  keeps handlers_keep (ether_message float now packet_data msg_start).
Proof.
  assert (Hmark : keeps handlers_keep (mark_received now : M pyfloat unit)).
  { apply keeps_upd. intros d. apply same_identity_handlers_keep.
    repeat split. }
  assert (Hon : keeps handlers_keep (receive_is_on now : M pyfloat unit)).
  { unfold receive_is_on.
    keeps_steps handlers_keep_refl handlers_keep_trans
      ltac:(unfold handlers_keep; cbn;
            repeat split; first [left; reflexivity | right; reflexivity | auto]). }
  assert (Hoff : keeps handlers_keep (receive_is_off now : M pyfloat unit)).
  { unfold receive_is_off.
    keeps_steps handlers_keep_refl handlers_keep_trans
      ltac:(unfold handlers_keep; cbn;
            repeat split; first [left; reflexivity | right; reflexivity | auto]). }
  unfold ether_message.
  apply (keeps_bind _ handlers_keep_trans);
    [apply (keeps_lift _ handlers_keep_refl) | intros f].
  apply (keeps_bind _ handlers_keep_trans);
    [apply (keeps_lift _ handlers_keep_refl) | intros l].
  destruct (byte_val f =? 1).
  - apply (keeps_bind _ handlers_keep_trans);
      [apply (keeps_lift _ handlers_keep_refl) | intros text].
    apply (keeps_bind _ handlers_keep_trans);
      [apply receive_powerdata_handlers_keep | intros _; exact Hmark].
  - destruct ((byte_val f =? 9) || (byte_val f =? 12));
      [|apply (keeps_ret _ handlers_keep_refl)].
    apply (keeps_bind _ handlers_keep_trans);
      [apply (keeps_lift _ handlers_keep_refl) | intros _].
    apply (keeps_bind _ handlers_keep_trans);
      [apply (keeps_lift _ handlers_keep_refl) | intros s].
    apply (keeps_bind _ handlers_keep_trans); [|intros _; exact Hmark].
    destruct (byte_val s =? 1); [exact Hon|].
    destruct (byte_val s =? 0); [exact Hoff|].
    apply (keeps_ret _ handlers_keep_refl).
Qed.

Lemma packet_ether_handlers_keep now data :
  keeps handlers_keep (packet_ether float now data).
Proof.
  unfold packet_ether.
  keeps_steps handlers_keep_refl handlers_keep_trans ltac:(idtac).
  apply (keeps_for_each _ handlers_keep_refl handlers_keep_trans). intros i.
  apply ether_message_handlers_keep.
Qed.

Lemma handle_handlers_keep ev : keeps handlers_keep (handle float ev).
Proof.
  destruct ev as [now|now action data|now data]; cbn [handle].
  - intros w. apply same_identity_handlers_keep, tick_keeps_identity.
  - apply (keeps_bind _ handlers_keep_trans);
      [|intros ?; apply (keeps_ret _ handlers_keep_refl)].
    intros w. apply same_identity_handlers_keep,
      packet_homeplug_keeps_identity.
  - apply (keeps_bind _ handlers_keep_trans);
      [|intros ?; apply (keeps_ret _ handlers_keep_refl)].
    apply packet_ether_handlers_keep.
Qed.

(** X22: what no sequence of events undoes. Through any ticks, HomePlug
    AV frames and vendor frames, whether they all return or one of them
    raises: the alias, the interval and the remote MAC stay; [want_on]
    is what it was or has been cleared, so a command is never set or
    flipped by the handlers; and [device_type], [device_version] and
    [device_unknown_tuple], once they are known, keep their value for
    good, also across every reset. *)
Theorem learned_identity_is_kept (w : World pyfloat) (evs : list Event) :
  let d := self w in
  let d' := self (snd (run float evs w)) in
  alias d' = alias d /\ interval d' = interval d
  /\ remote_mac d' = remote_mac d
  /\ (want_on d' = want_on d \/ want_on d' = None)
  /\ (forall v, device_type d = Some v -> device_type d' = Some v)
  /\ (forall v, device_version d = Some v -> device_version d' = Some v)
  /\ (forall v, device_unknown_tuple d = Some v ->
        device_unknown_tuple d' = Some v).
Proof.
  exact (keeps_for_each _ handlers_keep_refl handlers_keep_trans evs
           (handle float) handle_handlers_keep w).
Qed.

(** ** server.py: the dispatch of frames and ticks *)

Lemma devices_get_put_other key k d (l : list (bytes * Device pyfloat)) :
  key <> k -> devices_get key (devices_put k d l) = devices_get key l.
Proof.
  intros Hne. induction l as [|[k0 d0] l IH]; [reflexivity|].
  cbn [devices_put devices_get].
  destruct (bytes_eqb k k0) eqn:E1; cbn [devices_get].
  - apply bytes_eqb_eq in E1. subst k0.
    destruct (bytes_eqb key k) eqn:E2; [|reflexivity].
    apply bytes_eqb_eq in E2. contradiction.
  - rewrite IH. reflexivity.
Qed.

Lemma devices_get_put_same k d d0 (l : list (bytes * Device pyfloat)) :
  devices_get k l = Some d0 -> devices_get k (devices_put k d l) = Some d.
Proof.
  induction l as [|[k0 d1] l IH]; [discriminate|].
  cbn [devices_put devices_get].
  destruct (bytes_eqb k k0) eqn:E; cbn [devices_get]; rewrite E.
  - reflexivity.
  - exact IH.
Qed.

Lemma devices_put_keys k d (l : list (bytes * Device pyfloat)) :
  map fst (devices_put k d l) = map fst l.
Proof.
  induction l as [|[k0 d0] l IH]; [reflexivity|].
  cbn [devices_put]. destruct (bytes_eqb k k0); cbn [map fst];
    [reflexivity | rewrite IH; reflexivity].
Qed.

(** X23: the frames the server drops. A frame whose destination is not
    the MAC of the controller, or whose source is not in the table of
    devices, or that announces HomePlug AV (EtherType 88e1) with a
    version byte other than 0 or without the vendor OUI 00:b0:52 at
    bytes 17 to 19, is answered [False] by [_handle_packet] and changes
    nothing: no handler runs and, unlike after every other frame, the
    device gets no tick. A frame too short to hold these fields is
    dropped in the same way. *)
Theorem stray_frames_are_dropped (s : ServerState pyfloat) (now now_tick : Z)
    (recvdata : bytes) :
  slice recvdata 0 6 <> _interface_mac_bytes (_server s)
  \/ devices_get (slice recvdata 6 12) (_devices s) = None
  \/ (slice recvdata 12 14 = [x88; xe1]
      /\ (slice recvdata 14 15 <> [x00]
          \/ slice recvdata 17 20 <> [x00; xb0; x52])) ->
  _handle_packet float now now_tick recvdata s = (Ok (Some false), s).
Proof.
  intros H. unfold _handle_packet, bind, get.
  destruct (bytes_eqb (slice recvdata 0 6) _) eqn:E0; [|reflexivity].
  apply bytes_eqb_eq in E0. cbn [negb].
  destruct (devices_get _ _) as [device|] eqn:E1; [|reflexivity].
  destruct H as [H | [H | (H12 & H)]]; [contradiction | discriminate |].
  rewrite H12.
  replace (bytes_eqb [x88; xe1] [x88; xe1]) with true by reflexivity.
  destruct (bytes_eqb (slice recvdata 14 15) [x00]) eqn:E2; [|reflexivity].
  apply bytes_eqb_eq in E2. cbn [negb].
  destruct (bytes_eqb (slice recvdata 17 20) _) eqn:E3; [|reflexivity].
  apply bytes_eqb_eq in E3. destruct H; contradiction.
Qed.

Lemma on_device_others {A} key device (m : M pyfloat A)
    (s : ServerState pyfloat) :
  map fst (_devices (snd (on_device key device m s))) = map fst (_devices s)
  /\ forall k, k <> key ->
       devices_get k (_devices (snd (on_device key device m s)))
       = devices_get k (_devices s).
Proof.
  unfold on_device. destruct (m _) as [r w]. cbn [snd _devices]. split.
  - apply devices_put_keys.
  - intros k Hk. apply devices_get_put_other. exact Hk.
Qed.

(** X24: a frame reaches one device. Whatever the frame, and whether
    its handler returns or raises, [_handle_packet] leaves the table
    with the same keys in the same order, and every device other than
    the one whose MAC is the source of the frame is as it was. *)
Theorem frame_reaches_one_device (s : ServerState pyfloat) (now now_tick : Z)
    (recvdata : bytes) :
  let s' := snd (_handle_packet float now now_tick recvdata s) in
  map fst (_devices s') = map fst (_devices s)
  /\ forall key, key <> slice recvdata 6 12 ->
       devices_get key (_devices s') = devices_get key (_devices s).
Proof.
  unfold _handle_packet, bind, get.
  destruct (negb _); [split; reflexivity|].
  destruct (devices_get _ _) as [device|]; [|split; reflexivity].
  destruct (bytes_eqb (slice recvdata 12 14) _).
  - destruct (negb _); [split; reflexivity|].
    destruct (negb _); [split; reflexivity|].
    unfold lift. destruct (struct.unpack_H _) as [action|e];
      [|split; reflexivity].
    apply on_device_others.
  - apply on_device_others.
Qed.




(** X26: switching an outlet by its MAC address. [_device_on] and
    [_device_off] raise ValueError for an address that is in no entry of
    the table, and change nothing. For a known address they return
    having set [want_on] of that device to [True] or [False] and nothing
    else: the table keeps its keys, the other devices and the server
    are as they were and no frame is sent by the call itself (the
    command goes out with a later tick). *)
Theorem device_on_off_by_mac (int16 : string -> option Z)
    (s : ServerState pyfloat) (dev_mac : string) (key : bytes) (b : bool) :
  _to_bytes int16 dev_mac = Ok key ->
  let call := if b then _device_on int16 dev_mac
              else _device_off int16 dev_mac in
  match devices_get key (_devices s) with
  | None => call s = (Raise ValueError, s)
  | Some d =>
      exists s',
        call s = (Ok tt, s')
        /\ devices_get key (_devices s') = Some (set_want_on (Some b) d)
        /\ map fst (_devices s') = map fst (_devices s)
        /\ (forall k, k <> key ->
              devices_get k (_devices s') = devices_get k (_devices s))
        /\ _server s' = _server s
  end.
Proof.
  intros Hkey call. subst call.
  destruct (devices_get key (_devices s)) as [d|] eqn:E.
  - destruct b; eexists;
      (split;
       [unfold _device_on, _device_off, bind, get, lift;
        rewrite Hkey, E; reflexivity|]);
      cbn [snd _devices _server self server on off];
      (split; [exact (devices_get_put_same key _ d _ E)|]);
      (split; [apply devices_put_keys|]);
      (split; [|reflexivity]);
      intros k Hk; apply devices_get_put_other; exact Hk.
  - destruct b; unfold _device_on, _device_off, bind, get, lift;
      rewrite Hkey, E; reflexivity.
Qed.

(** ** The download as a whole *)

Lemma pack_H_inv v b : struct.pack_H v = Ok b -> 0 <= v < 65536.
Proof.
  unfold struct.pack_H.
  destruct (0 <=? v) eqn:E1; [|discriminate].
  destruct (v <? 65536) eqn:E2; [|discriminate]. intros _.
  apply Z.leb_le in E1. apply Z.ltb_lt in E2. lia.
Qed.

Lemma pack_I_inv v b : struct.pack_I v = Ok b -> 0 <= v < 2 ^ 32.
Proof.
  unfold struct.pack_I.
  destruct (0 <=? v) eqn:E1; [|discriminate].
  destruct (v <? 4294967296) eqn:E2; [|discriminate]. intros _.
  apply Z.leb_le in E1. apply Z.ltb_lt in E2.
  change (2 ^ 32) with 4294967296. lia.
Qed.

(** A frame [read_confirm] builds passes every check of the handler. *)
Lemma read_confirm_frame offset chunk frame :
  read_confirm offset chunk = Ok frame ->
  struct.unpack_B (slice frame 0 1) = Ok 0
  /\ struct.unpack_BxxxBxHI (slice_to frame 12)
     = Ok (0, 2, len chunk, offset)
  /\ calc_cksum (slice_from frame 12) = Ok 0
  /\ slice frame 16 (16 + len chunk) = chunk.
Proof.
  unfold read_confirm.
  destruct (struct.pack_H (len chunk)) as [l|] eqn:El; [|discriminate].
  destruct (struct.pack_I offset) as [o|] eqn:Eo; [|discriminate].
  destruct (PIB.calc_cksum chunk) as [c|] eqn:Ec; [|discriminate].
  cbn [rbind].
  destruct (struct.pack_I c) as [ck|] eqn:Eck; [|discriminate].
  cbn [rbind]. intros [= <-].
  pose proof (calc_cksum_Ok_aligned _ _ Ec) as Hal.
  rewrite (calc_cksum_aligned chunk Hal) in Ec.
  assert (c = neg32 (xor_fold chunk)) as -> by congruence.
  destruct (pack_H_unpack (len chunk) (pack_H_inv _ _ El))
    as (l0 & l1 & El' & Hl).
  destruct (pack_I_unpack offset (pack_I_inv _ _ Eo))
    as (o0 & o1 & o2 & o3 & Eo' & Ho).
  destruct (pack_I_word (neg32 (xor_fold chunk)) (neg32_range _))
    as (c0 & c1 & c2 & c3 & Eck' & Hc).
  assert (l = [l0; l1]) as -> by congruence.
  assert (o = [o0; o1; o2; o3]) as -> by congruence.
  assert (ck = [c0; c1; c2; c3]) as -> by congruence.
  split; [reflexivity|]. split.
  - change (slice_to _ 12)
      with [x00; x00; x00; x00; x02; x00; l0; l1; o0; o1; o2; o3].
    unfold struct.unpack_BxxxBxHI. unfold struct.unpack_H in Hl.
    unfold struct.unpack_I in Ho.
    change (byte_val x00) with 0. change (byte_val x02) with 2.
    congruence.
  - split.
    + change (slice_from _ 12) with (c0 :: c1 :: c2 :: c3 :: chunk).
      rewrite calc_cksum_same, calc_cksum_aligned
        by (apply aligned_cons4; exact Hal).
      cbn [xor_fold]. rewrite Hc, Z.lxor_comm.
      rewrite lxor_neg32 by apply xor_fold_range.
      rewrite neg32_mask32. reflexivity.
    + rewrite <- (app_nil_r chunk) at 1.
      apply (slice_app_exact
               [x00; x00; x00; x00; x02; x00; l0; l1; o0; o1; o2; o3;
                c0; c1; c2; c3] chunk []); [reflexivity | lia].
Qed.

Lemma concat_nonempty_len (chunks : list (Z * bytes)) :
  chunks <> [] ->
  Forall (fun c => snd c <> []) chunks ->
  0 < len (concat (map snd chunks)).
Proof.
  destruct chunks as [|[t c] rest]; [intros H; contradiction H; reflexivity|].
  intros _ Hall. inversion Hall as [|? ? Hc _]; subst. cbn [snd] in Hc.
  cbn [map snd concat]. rewrite len_app.
  pose proof (len_nonneg (concat (map snd rest))).
  destruct c as [|b c]; [contradiction Hc; reflexivity|].
  rewrite len_cons. pose proof (len_nonneg c). lia.
Qed.

(** The confirmations of the chunks that are left, from [DSReadPIB]. *)
Lemma download_from chunks :
  forall (w : World pyfloat) start_time last_sent pib size evs prev,
  state (self w) = DSReadPIB start_time last_sent pib ->
  PIB.__init__ (PIB._pib pib) = Ok pib ->
  PIB.size pib = Ok size ->
  read_confirms (PIB.__len__ pib) chunks = Ok evs ->
  chunks <> [] ->
  Forall (fun c => snd c <> []) chunks ->
  PIB.__len__ pib + len (concat (map snd chunks)) = size ->
  let whole := PIB.mk (PIB._pib pib ++ concat (map snd chunks)) in
  let mac := _interface_mac_bytes (server w) in
  PIB.is_valid whole = Ok true ->
  PIB.master_get whole <> mac ->
  len mac = 6 ->
  0x2c90 <= PIB.__len__ whole ->
  exists p,
    PIB.master_replace whole mac = Ok p
    /\ run float evs w
       = (Ok tt,
          with_self
            (set_state (DSWritePIB (fst (last chunks prev)) 0 0 p)) w).
Proof.
  induction chunks as [|[t c] rest IH];
    intros w st ls pib size evs prev Hs Hinit Hsize Hevs Hne Hall Htotal
      whole mac Hvalid Hmaster Hmac Hlong;
    [contradiction Hne; reflexivity|].
  subst whole.
  inversion Hall as [|? ? Hc Hall']; subst. cbn [snd] in Hc.
  cbn [read_confirms] in Hevs.
  destruct (read_confirm (PIB.__len__ pib) c) as [frame|] eqn:Ef;
    [|discriminate]. cbn [rbind] in Hevs.
  destruct (read_confirms (PIB.__len__ pib + len c) rest) as [evs'|] eqn:Er;
    [|discriminate]. cbn [rbind] in Hevs.
  assert (evs = Homeplug t 0xa025 frame :: evs') as -> by congruence.
  destruct (read_confirm_frame _ _ _ Ef) as (Hst & Hhdr & Hck & Hchunk).
  pose proof (PIB_init_inv _ _ Hinit) as (_ & H8 & s' & Hsize' & Hle).
  assert (s' = PIB.__len__ pib + len (concat (map snd ((t, c) :: rest))))
    as Hs' by congruence.
  subst s'. cbn [map snd concat] in Hle, Hsize', Hvalid, Hmaster,
    Hlong |- *.
  rewrite len_app in *. unfold PIB.__len__ in *.
  pose proof (len_nonneg (concat (map snd rest))) as Hrest.
  pose proof (len_nonneg c) as Hcn.
  assert (Hadd : PIB.__add__ pib c = Ok (PIB.mk (PIB._pib pib ++ c))).
  { rewrite (add_spec pib c _ Hinit Hsize'). unfold PIB.__len__.
    replace (len (PIB._pib pib) + len c <=? _) with true
      by (symmetry; apply Z.leb_le; lia).
    reflexivity. }
  assert (Hnewsize : PIB.size (PIB.mk (PIB._pib pib ++ c))
                     = Ok (len (PIB._pib pib)
                           + (len c + len (concat (map snd rest))))).
  { rewrite size_app by lia. destruct pib as [a]. exact Hsize'. }
  rewrite run_cons. cbn [handle]. unfold bind at 1.
  rewrite (packet_homeplug_ReadPIB w t frame st ls pib 0 (len c)
             (len (PIB._pib pib)) Hs Hst Hhdr Hck).
  unfold PIB.__len__. rewrite Z.eqb_refl. cbn [negb].
  rewrite Hchunk. unfold bind at 1. unfold lift at 1. rewrite Hadd.
  cbv beta iota.
  unfold bind at 1. unfold lift at 1. unfold PIB.is_complete.
  rewrite Hnewsize. cbn [rbind]. unfold PIB.__len__. cbn [PIB._pib].
  rewrite len_app.
  destruct rest as [|[t' c'] rest'].
  - (* the last chunk *)
    cbn [map snd concat] in *. change (len (@nil byte)) with 0 in *.
    rewrite (app_nil_r c) in Hvalid, Hmaster, Hlong |- *.
    replace (len (PIB._pib pib) + len c =? len (PIB._pib pib) + (len c + 0))
      with true by (symmetry; apply Z.eqb_eq; lia).
    cbv beta iota.
    destruct (master_replace_result (PIB.mk (PIB._pib pib ++ c)) mac)
      as (p & Hp & _).
    { unfold PIB.is_complete. rewrite Hnewsize. cbn [rbind].
      unfold PIB.__len__. cbn [PIB._pib]. rewrite len_app.
      f_equal. apply Z.eqb_eq. lia. }
    { exact Hvalid. }
    { exact Hmac. }
    { cbn [PIB._pib] in Hlong. unfold PIB.__len__. exact Hlong. }
    exists p. split; [exact Hp|].
    unfold bind at 1. unfold lift at 1. rewrite Hvalid. cbv beta iota.
    cbn [negb]. fold mac.
    replace (bytes_eqb (PIB.master_get (PIB.mk (PIB._pib pib ++ c))) mac)
      with false
      by (symmetry; destruct (bytes_eqb _ mac) eqn:E; [|reflexivity];
          apply bytes_eqb_eq in E; contradiction).
    unfold bind at 1. unfold lift at 1. rewrite Hp. cbv beta iota.
    cbn in Hevs. injection Er as <-. reflexivity.
  - (* more chunks follow *)
    assert (Hmore : 0 < len (concat (map snd ((t', c') :: rest'))))
      by (apply concat_nonempty_len; [discriminate | exact Hall']).
    replace (len (PIB._pib pib) + len c
             =? len (PIB._pib pib)
                + (len c + len (concat (map snd ((t', c') :: rest')))))
      with false by (symmetry; apply Z.eqb_neq; lia).
    cbv beta iota.
    set (w1 := with_self
                 (set_state (DSReadPIB st 0 (PIB.mk (PIB._pib pib ++ c)))) w).
    destruct (IH w1 st 0 (PIB.mk (PIB._pib pib ++ c))
                (len (PIB._pib pib)
                 + (len c + len (concat (map snd ((t', c') :: rest')))))
                evs' (t, c))
      as (p & Hp & Hrun); try assumption; try reflexivity.
    + cbn [PIB._pib]. rewrite len_app. exact Er.
    + discriminate.
    + cbn [PIB._pib]. rewrite len_app. lia.
    + cbn [PIB._pib]. rewrite <- app_assoc. exact Hvalid.
    + cbn [PIB._pib]. rewrite <- app_assoc. exact Hmaster.
    + cbn [PIB._pib]. rewrite <- app_assoc. exact Hlong.
    + exists p. split.
      * cbn [PIB._pib] in Hp. rewrite <- app_assoc in Hp. exact Hp.
      * rewrite (last_cons_default ((t', c') :: rest') (t, c) prev).
        change ((upd (set_state
                        (DSReadPIB st 0 (PIB.mk (PIB._pib pib ++ c)))) ;;;
                 ret None)%se w) with (@Ok (option bool) None, w1).
        cbv beta iota. unfold ret. rewrite Hrun. reflexivity.
Qed.

(** X27: the download assembles the PIB. A device in [DSProbingHP]
    receives the read confirmations of the chunks of a PIB one after the
    other: the first chunk, longer than 8 bytes and with the size of the
    whole PIB in its header, then at least one more, none of them empty,
    each at the offset where the one before ended, the frames being
    those [read_confirm] builds (status 0, module 2, the right checksum).
    When the whole is valid, at least 0x2c90 bytes long and its master
    is not the controller (whose MAC has 6 bytes), no handler raises and
    the device ends in [DSWritePIB] at offset 0 with [last_sent] 0, the
    instant of the last confirmation as [start_time], and as PIB the
    whole with the controller written as master by [master_replace];
    nothing else of the device or the server has changed. *)
Theorem download_assembles_pib (w : World pyfloat) (now0 : Z) (chunk0 : bytes)
    (chunks : list (Z * bytes)) (evs : list Event) last_sent :
  state (self w) = DSProbingHP last_sent ->
  let whole := PIB.mk (chunk0 ++ concat (map snd chunks)) in
  let mac := _interface_mac_bytes (server w) in
  read_confirms 0 ((now0, chunk0) :: chunks) = Ok evs ->
  8 < len chunk0 ->
  PIB.size (PIB.mk chunk0) = Ok (PIB.__len__ whole) ->
  chunks <> [] ->
  Forall (fun c => snd c <> []) chunks ->
  PIB.is_valid whole = Ok true ->
  PIB.master_get whole <> mac ->
  len mac = 6 ->
  0x2c90 <= PIB.__len__ whole ->
  exists p,
    PIB.master_replace whole mac = Ok p
    /\ run float evs w
       = (Ok tt,
          with_self
            (set_state (DSWritePIB (fst (last chunks (now0, chunk0))) 0 0 p))
            w).
Proof.
  intros Hs whole mac Hevs H8 Hsize Hne Hall Hvalid Hmaster Hmac Hlong.
  cbn [read_confirms] in Hevs.
  destruct (read_confirm 0 chunk0) as [frame|] eqn:Ef; [|discriminate].
  cbn [rbind] in Hevs. change (0 + len chunk0) with (len chunk0) in Hevs.
  destruct (read_confirms (len chunk0) chunks) as [evs'|] eqn:Er;
    [|discriminate]. cbn [rbind] in Hevs.
  assert (evs = Homeplug now0 0xa025 frame :: evs') as -> by congruence.
  destruct (read_confirm_frame _ _ _ Ef) as (Hst & Hhdr & Hck & Hchunk).
  unfold PIB.__len__ in Hsize. subst whole. cbn [PIB._pib] in Hsize.
  rewrite len_app in Hsize.
  pose proof (len_nonneg (concat (map snd chunks))) as Hrest.
  assert (Hinit : PIB.__init__ chunk0 = Ok (PIB.mk chunk0)).
  { unfold PIB.__init__.
    replace (8 <? len chunk0) with true by (symmetry; apply Z.ltb_lt; lia).
    cbn [assert rbind]. cbv zeta. rewrite Hsize. cbn [rbind].
    unfold PIB.__len__. cbn [PIB._pib].
    replace (len chunk0 <=? _) with true by (symmetry; apply Z.leb_le; lia).
    reflexivity. }
  rewrite run_cons. cbn [handle]. unfold bind at 1.
  rewrite (packet_homeplug_ProbingHP w now0 frame last_sent 0 (len chunk0)
             Hs Hst Hhdr Hck).
  rewrite Hchunk, Hinit.
  set (w1 := with_self (set_state (DSReadPIB now0 0 (PIB.mk chunk0))) w).
  destruct (download_from chunks w1 now0 0 (PIB.mk chunk0)
              (len chunk0 + len (concat (map snd chunks))) evs'
              (now0, chunk0))
    as (p & Hp & Hrun); try assumption; try reflexivity.
  exists p. split; [exact Hp|]. unfold ret. rewrite Hrun. reflexivity.
Qed.

(** ** The text of a power report *)

(** X28: what [receive_powerdata] reads in a report. The report is cut
    at every semicolon. It is taken exactly when it has at least five
    fields, the first is "3" (a white outlet) or "2" (a blue one, which
    needs at least eight fields), the fourth is "0" or "1" and [float]
    reads the fifth. Then the type is the first field, the outlet is on
    when the fourth field is "1", the power is the fifth field, the
    version is the third field (for a blue outlet with the eighth) and
    the unknown tuple is the second field as a bare string (for a blue
    outlet the tuple of the second, sixth and seventh); fields after
    these are not looked at. *)
Theorem power_report_format (data : string) ty is_on power tup ver :
  parse_powerdata float data = Ok (ty, is_on, power, tup, ver)
  <-> exists p0 p1 p2 p3 p4 rest,
        split ";"%char data = p0 :: p1 :: p2 :: p3 :: p4 :: rest
        /\ ty = p0
        /\ (p3 = "1"%string /\ is_on = true
            \/ p3 = "0"%string /\ is_on = false)
        /\ float p4 = Some power
        /\ (p0 = "3"%string /\ tup = PStr p1 /\ ver = [p2]
            \/ p0 = "2"%string
               /\ exists p5 p6 p7 rest',
                    rest = p5 :: p6 :: p7 :: rest'
                    /\ tup = PTuple [p1; p5; p6] /\ ver = [p2; p7]).
Proof.
  unfold parse_powerdata. split.
  - destruct (split ";"%char data)
      as [|p0 [|p1 [|p2 [|p3 [|p4 rest]]]]];
      cbn [index nth_error rbind]; try discriminate;
      try (repeat match goal with
                  | |- context [assert ?c] => destruct c; cbn [assert rbind]
                  end;
           discriminate).
    destruct (String.eqb p0 "2") eqn:E2;
      [|destruct (String.eqb p0 "3") eqn:E3]; cbn [orb assert rbind];
      try discriminate;
      (destruct (String.eqb p3 "0") eqn:F0;
       [|destruct (String.eqb p3 "1") eqn:F1]; cbn [orb assert rbind];
       try discriminate);
      (destruct (float p4) as [f|] eqn:Ef; cbn [rbind]; [|discriminate]).
    + (* blue, off *)
      destruct rest as [|p5 [|p6 [|p7 rest']]];
        cbn [index nth_error rbind]; try discriminate.
      intros [= <- <- <- <- <-].
      apply String.eqb_eq in E2, F0. subst p0 p3.
      exists "2"%string, p1, p2, "0"%string, p4, (p5 :: p6 :: p7 :: rest').
      split; [reflexivity|]. split; [reflexivity|].
      split; [right; split; reflexivity|]. split; [exact Ef|].
      right. split; [reflexivity|]. exists p5, p6, p7, rest'.
      repeat split.
    + (* blue, on *)
      destruct rest as [|p5 [|p6 [|p7 rest']]];
        cbn [index nth_error rbind]; try discriminate.
      intros [= <- <- <- <- <-].
      apply String.eqb_eq in E2, F1. subst p0 p3.
      exists "2"%string, p1, p2, "1"%string, p4, (p5 :: p6 :: p7 :: rest').
      split; [reflexivity|]. split; [reflexivity|].
      split; [left; split; reflexivity|]. split; [exact Ef|].
      right. split; [reflexivity|]. exists p5, p6, p7, rest'.
      repeat split.
    + (* white, off *)
      intros [= <- <- <- <- <-].
      apply String.eqb_eq in E3, F0. subst p0 p3.
      exists "3"%string, p1, p2, "0"%string, p4, rest.
      split; [reflexivity|]. split; [reflexivity|].
      split; [right; split; reflexivity|]. split; [exact Ef|].
      left. repeat split.
    + (* white, on *)
      intros [= <- <- <- <- <-].
      apply String.eqb_eq in E3, F1. subst p0 p3.
      exists "3"%string, p1, p2, "1"%string, p4, rest.
      split; [reflexivity|]. split; [reflexivity|].
      split; [left; split; reflexivity|]. split; [exact Ef|].
      left. repeat split.
  - intros (p0 & p1 & p2 & p3 & p4 & rest & -> & -> & Hon & Hf & Hkind).
    cbn [index nth_error rbind]. rewrite Hf.
    destruct Hon as [[-> ->] | [-> ->]];
      destruct Hkind as [(-> & -> & ->)
                        | (-> & p5 & p6 & p7 & rest' & -> & -> & ->)];
      reflexivity.
Qed.

End DeviceFacts.

(** * The scenarios of the specification, run on the model *)

(** The checksum of a concrete buffer, computed four bytes at a time. *)
Lemma calc_cksum_by_words (data : bytes) :
  PIB.calc_cksum data
  = (cksum <- cksum_from 0 data ;; Ok (Z.land (Z.lnot cksum) mask32))%result.
Proof. unfold PIB.calc_cksum. rewrite cksum_loop_spec. reflexivity. Qed.

Lemma sample_pib_valid :
  PIB.__init__ sample_pib = Ok (PIB.mk sample_pib)
  /\ PIB.is_complete (PIB.mk sample_pib) = Ok true
  /\ PIB.is_valid (PIB.mk sample_pib) = Ok true
  /\ PIB.master_get (PIB.mk sample_pib) = [xde; xad; xbe; xef; x00; x01].
Proof.
  unfold PIB.is_valid. rewrite calc_cksum_by_words.
  repeat split; vm_compute; reflexivity.
Qed.

(** ** The PIB and its checksum *)

(** C4, at the buffer [01 02 03 04]. *)
Lemma cksum_self_inverse_witness :
  exists c enc,
    PIB.calc_cksum [x01; x02; x03; x04] = Ok c
    /\ struct.pack_I c = Ok enc
    /\ PIB.calc_cksum ([x01; x02; x03; x04] ++ enc) = Ok 0.
Proof. apply cksum_self_inverse. reflexivity. Defined.

(** C1 as it is written fails on a PIB shorter than its master field:
    [short_pib] is complete and valid, and replacing its master raises
    (the buffer the method builds has 22 bytes, which the checksum loop
    cannot cut into words). *)
Lemma master_replace_short_pib_raises :
  PIB.__init__ short_pib = Ok (PIB.mk short_pib)
  /\ PIB.is_complete (PIB.mk short_pib) = Ok true
  /\ PIB.is_valid (PIB.mk short_pib) = Ok true
  /\ len controller_mac = 6
  /\ PIB.master_replace (PIB.mk short_pib) controller_mac = Raise StructError.
Proof. repeat split. Qed.

(** C1, amended, at [sample_pib] and the controller MAC. *)
Lemma master_replace_valid_witness :
  exists q,
    PIB.master_replace (PIB.mk sample_pib) controller_mac = Ok q
    /\ PIB.is_valid q = Ok true
    /\ PIB.is_complete q = Ok true
    /\ PIB.master_get q = controller_mac
    /\ PIB.__len__ q = PIB.__len__ (PIB.mk sample_pib).
Proof.
  apply (master_replace_valid (PIB.mk sample_pib) controller_mac).
  - vm_compute; reflexivity.
  - unfold PIB.is_valid. rewrite calc_cksum_by_words. vm_compute; reflexivity.
  - reflexivity.
  - apply Z.leb_le. vm_compute; reflexivity.
Defined.

(** ** Probing *)

(** C5 as it is written fails: five ticks, each later than the one
    before by more than [probe_delay], leave the machine in [DSProbing]
    with five probes counted, and of five ticks exactly [probe_delay]
    apart only every other one sends a probe. *)
Lemma five_ticks_still_probing :
  state (self world0) = DSProbing 0 0
  /\ fst (run_ticks [1000; 1011; 1022; 1033; 1044] world0) = Ok tt
  /\ state (self (snd (run_ticks [1000; 1011; 1022; 1033; 1044] world0)))
     = DSProbing 1044 5
  /\ fst (run_ticks [1000; 1010; 1020; 1030; 1040] world0) = Ok tt
  /\ state (self (snd (run_ticks [1000; 1010; 1020; 1030; 1040] world0)))
     = DSProbing 1040 3.
Proof. repeat split. Qed.

(** C5, amended, at six ticks 11 seconds apart. *)
Lemma probing_reaches_ProbingHP_witness :
  exists w' last_sent,
    run_ticks [1000; 1011; 1022; 1033; 1044; 1055] world0 = (Ok tt, w')
    /\ state (self w') = DSProbingHP last_sent.
Proof.
  apply (probing_reaches_ProbingHP world0).
  - reflexivity.
  - unfold spaced, probe_delay. lia.
  - vm_compute. discriminate.
Defined.

(** S1: the sixth tick sends a vendor probe, and the tick after it the
    vendor probe and the read request for the head of the PIB. *)
Example cold_discovery_frames :
  _sock (server
           (snd (run_ticks [1000; 1011; 1022; 1033; 1044; 1055; 1066]
                   world0)))
  = [probe_msg; probe_msg; probe_msg; probe_msg; probe_msg; probe_msg;
     probe_msg; hp_probe_msg].
Proof. reflexivity. Qed.

(** ** The PIB phase *)

(** C2 as it is written fails where the downloaded PIB is complete and
    valid, its master is not the controller, and it is shorter than the
    master field: the handler raises out of [master_replace] and the
    machine stays in [DSReadPIB]. *)
Lemma read_confirm_short_pib_raises :
  let pib := PIB.mk (slice_to short_pib 12) in
  let w := world_in (DSReadPIB 100 0 pib) in
  PIB.__init__ (slice_to short_pib 12) = Ok pib
  /\ read_confirm 12 (slice_from short_pib 12) = Ok short_confirm
  /\ PIB.__add__ pib (slice short_confirm 16 (16 + 4))
     = Ok (PIB.mk short_pib)
  /\ PIB.is_complete (PIB.mk short_pib) = Ok true
  /\ PIB.is_valid (PIB.mk short_pib) = Ok true
  /\ PIB.master_get (PIB.mk short_pib) <> controller_mac
  /\ packet_homeplug 105 0xa025 short_confirm w = (Raise StructError, w)
  /\ state (self w) = DSReadPIB 100 0 pib.
Proof. repeat split. discriminate. Qed.

(** C2, amended, at the twelfth read confirmation of [sample_pib]. *)
Lemma read_confirm_completes_witness :
  let w := world_in (DSReadPIB 100 0 (PIB.mk sample_head)) in
  exists p,
    PIB.master_replace (PIB.mk sample_pib) controller_mac = Ok p
    /\ PIB.is_valid p = Ok true
    /\ PIB.master_get p = controller_mac
    /\ packet_homeplug 105 0xa025 last_confirm w
       = (Ok None, with_self (set_state (DSWritePIB 105 0 0 p)) w).
Proof.
  intros w.
  assert (Hst : struct.unpack_B (slice last_confirm 0 1) = Ok 0)
    by (vm_compute; reflexivity).
  assert (Hhdr : struct.unpack_BxxxBxHI (slice_to last_confirm 12)
                 = Ok (0, 2, 1024, 11264))
    by (vm_compute; reflexivity).
  assert (Hck : calc_cksum (slice_from last_confirm 12) = Ok 0)
    by (vm_compute; reflexivity).
  destruct (read_confirm_completes w 105 last_confirm 100 0
              (PIB.mk sample_head) 0 1024 11264 eq_refl Hst Hhdr Hck)
    as [_ Hacc].
  assert (Hoff : 11264 = PIB.__len__ (PIB.mk sample_head))
    by (vm_compute; reflexivity).
  assert (Hadd : PIB.__add__ (PIB.mk sample_head)
                   (slice last_confirm 16 (16 + 1024))
                 = Ok (PIB.mk sample_pib))
    by (vm_compute; reflexivity).
  assert (Hcomplete : PIB.is_complete (PIB.mk sample_pib) = Ok true)
    by (vm_compute; reflexivity).
  destruct (Hacc Hoff (PIB.mk sample_pib) Hadd Hcomplete) as (_ & _ & Hc).
  apply Hc.
  - unfold PIB.is_valid. rewrite calc_cksum_by_words. vm_compute; reflexivity.
  - vm_compute. discriminate.
  - reflexivity.
  - apply Z.leb_le. vm_compute; reflexivity.
Defined.

(** C3, in three worlds: the write of the last chunk is confirmed, the
    write of the first chunk is confirmed, the commit is confirmed. *)
Lemma write_confirm_advances_witness :
  let pib := PIB.mk sample_pib in
  packet_homeplug 120 0xa021 [x00] (world_in (DSWritePIB 100 50 11264 pib))
  = (Ok (Some true),
     with_self (set_state (DSWritePIBToNVM 120 0))
       (world_in (DSWritePIB 100 50 11264 pib)))
  /\ packet_homeplug 120 0xa021 [x00] (world_in (DSWritePIB 100 50 0 pib))
     = (Ok (Some true),
        with_self (set_state (DSWritePIB 100 0 1024 pib))
          (world_in (DSWritePIB 100 50 0 pib)))
  /\ packet_homeplug 120 0xa029 [x00] (world_in (DSWritePIBToNVM 100 50))
     = (Ok (Some true),
        with_self reset_state (world_in (DSWritePIBToNVM 100 50))).
Proof.
  intros pib. split; [|split].
  - exact (proj1 (write_confirm_advances
                    (world_in (DSWritePIB 100 50 11264 pib)) 120 [x00]
                    eq_refl)
             100 50 11264 pib eq_refl).
  - exact (proj1 (write_confirm_advances
                    (world_in (DSWritePIB 100 50 0 pib)) 120 [x00] eq_refl)
             100 50 0 pib eq_refl).
  - exact (proj1 (proj2 (write_confirm_advances
                           (world_in (DSWritePIBToNVM 100 50)) 120 [x00]
                           eq_refl)
                    100 50 eq_refl)).
Defined.

(** S2: eleven write confirmations move the offset to the last chunk of
    [sample_pib], the twelfth moves on to the commit, and its confirmation
    returns the device to where it started. *)
Example twelve_write_confirms :
  let w := world_in (DSWritePIB 100 0 0 (PIB.mk sample_pib)) in
  state (self (write_confirms 11 w))
  = DSWritePIB 100 0 11264 (PIB.mk sample_pib)
  /\ state (self (write_confirms 12 w)) = DSWritePIBToNVM 120 0
  /\ self (snd (packet_homeplug 130 0xa029 [x00] (write_confirms 12 w)))
     = self world0.
Proof. intros w. split; [|split]; vm_compute; reflexivity. Qed.

(** C6, at a download that started at 100 and hears no confirmation,
    with a tick every 5 seconds: the tick at 125 resets the machine. *)
Lemma pib_phase_aborts_witness :
  let w := world_in (DSReadPIB 100 0 (PIB.mk sample_head)) in
  (forall now, now - 100 > pib_abort_time ->
     tick now w = (Ok tt, with_self reset_state w))
  /\ exists pre t post w',
       quiet_phase = pre ++ Tick t :: post
       /\ t <= 100 + pib_abort_time + 5
       /\ run float_of_literal (pre ++ [Tick t]) w = (Ok tt, w')
       /\ state (self w') = DSProbing 0 0
       /\ self w' = reset_state (self w).
Proof.
  intros w.
  apply (pib_phase_aborts float_of_literal w 100 5 quiet_phase).
  - reflexivity.
  - vm_compute; reflexivity.
  - unfold quiet_phase.
    repeat (apply Forall_cons; [|]); try apply Forall_nil; try exact I.
    + left. discriminate.
    + right. exists 1. split; [reflexivity | discriminate].
  - unfold quiet_phase, tick_times, flat_map, app, regular. lia.
  - apply Exists_exists. exists 125. split; [|reflexivity].
    right; right; right; right; left; reflexivity.
Defined.

(** ** Frames that do not decode *)

(** C7 does not hold of the code: a read confirmation that ends before
    the status byte, before the end of its header, or whose checksum and
    chunk are not a whole number of words is a frame of a bad length, and
    [packet_homeplug] raises struct.error on it instead of turning it
    away; [packet_ether] answers [False] to a frame that is too short and
    changes nothing. *)
Lemma packet_homeplug_truncated_raises :
  let w := world_in (DSProbingHP 100) in
  packet_homeplug 105 0xa025 [] w = (Raise StructError, w)
  /\ packet_homeplug 105 0xa025 [x00; x00; x00; x00; x02] w
     = (Raise StructError, w)
  /\ packet_homeplug 105 0xa025 odd_confirm w = (Raise StructError, w)
  /\ packet_ether float_of_literal 105 [x00] w = (Ok (Some false), w).
Proof. repeat split. Qed.

(** ** Power reports *)

(** C8 as it is written fails: the report of a blue outlet reaches a
    device known as a white one; [packet_ether] raises, the device stays
    in [DSRunning] and keeps the power and the state it had seen. *)
Lemma identity_mismatch_no_reset :
  let w := running_world None (Some true) in
  packet_ether float_of_literal 100
    (vendor_frame x01 (list_byte_of_string blue_report)) w
  = (Raise AssertionError, w)
  /\ state (self w) = DSRunning 90 95
  /\ device_power (self w) = Some "12.5"%string
  /\ device_is_on (self w) = Some true.
Proof. repeat split. Qed.

(** C8, amended, at the same report. *)
Lemma identity_mismatch_raises_witness :
  let w := running_world None (Some true) in
  receive_powerdata float_of_literal 100 blue_report w
  = (Raise AssertionError, w).
Proof.
  intros w.
  apply (identity_mismatch_raises float_of_literal w 100 blue_report
           "2"%string true "12.5"%string (PTuple ["id"; "a"; "b"]%string)
           ["1.0"; "c"]%string "3"%string (PStr "id") ["1.0"%string]).
  - reflexivity.
  - reflexivity.
  - reflexivity.
  - reflexivity.
  - left. discriminate.
Defined.

(** ** The pending command *)

(** C9 does not hold of the code: a power report that shows the outlet
    on reaches a running device that wants it on. [receive_powerdata]
    records the observation ([device_is_on] is now what [want_on] asks
    for) and leaves [want_on] set, where the claim has it cleared. The
    same observation brought by an on/off message clears it:
    [receive_is_on] and [receive_is_off] carry the clearing, under the
    comment that it is done when the target state is reached, and
    [receive_powerdata] lacks it. The command that stays behind is acted
    on later: when the outlet is then switched off by hand and says so,
    the next tick sends the on frame again. *)
Lemma power_report_keeps_want_on :
  let w := running_world (Some true) None in
  let r := packet_ether float_of_literal 100
             (vendor_frame x01 (list_byte_of_string white_report)) w in
  let r' := packet_ether float_of_literal 100 (vendor_frame x09 [x01]) w in
  let later := packet_ether float_of_literal 200 (vendor_frame x0c [x00])
                 (snd r) in
  (fst r = Ok None
   /\ device_is_on (self (snd r)) = Some true
   /\ want_on (self (snd r)) = Some true)
  /\ (fst r' = Ok None
      /\ device_is_on (self (snd r')) = Some true
      /\ want_on (self (snd r')) = None)
  /\ (fst later = Ok None
      /\ device_is_on (self (snd later)) = Some false
      /\ want_on (self (snd later)) = Some true
      /\ _sock (server (snd (tick 201 (snd later)))) = [on_msg]).
Proof. repeat split. Qed.

(** The reconciliation at a running device that is on and wanted on. *)
Lemma want_on_reconciled_witness :
  let w := running_world (Some true) (Some true) in
  (exists msgs w',
     run_ticks [100; 101; 130; 200] w = (Ok tt, w')
     /\ _sock (server w') = _sock (server w) ++ msgs
     /\ Forall (fun msg => ~ is_onoff msg) msgs)
  /\ (forall (v : World string) (now : Z),
        want_on (self v) = Some true ->
        let v' := snd (receive_is_on now v) in
        want_on (self v') = None /\ device_is_on (self v') = Some true).
Proof.
  intros w.
  destruct (want_on_reconciled w true [100; 101; 130; 200] 90 95
              eq_refl eq_refl eq_refl) as [Hticks Hrecv].
  split; [exact Hticks|].
  intros v now Hv. exact (Hrecv v now Hv).
Defined.

(** S4: the tick after [device_on] sends the on frame, and the reply of
    the outlet clears the command. *)
Example reconciliation :
  let w := with_self (set_want_on (Some true))
             (running_world None (Some false)) in
  let w1 := snd (tick 100 w) in
  let w2 := snd (packet_ether float_of_literal 101 (vendor_frame x09 [x01])
                   w1) in
  _sock (server w1) = [on_msg]
  /\ want_on (self w2) = None
  /\ device_is_on (self w2) = Some true.
Proof. repeat split. Qed.

(** ** More of pib.py *)

(** X2, at [sample_pib] and the controller MAC. *)
Lemma master_replace_frame_witness :
  exists q,
    PIB.master_replace (PIB.mk sample_pib) controller_mac = Ok q
    /\ slice_to (PIB._pib q) 8 = slice_to sample_pib 8
    /\ slice (PIB._pib q) 12 0x2c8a = slice sample_pib 12 0x2c8a
    /\ PIB.master_get q = controller_mac
    /\ slice_from (PIB._pib q) 0x2c90 = slice_from sample_pib 0x2c90
    /\ PIB.__len__ q = PIB.__len__ (PIB.mk sample_pib)
    /\ PIB.size q = PIB.size (PIB.mk sample_pib).
Proof.
  apply (master_replace_frame (PIB.mk sample_pib) controller_mac).
  - vm_compute; reflexivity.
  - vm_compute; reflexivity.
  - reflexivity.
  - apply Z.leb_le. vm_compute; reflexivity.
Defined.

(** X4, at [sample_pib]: the controller MAC first, another one after. *)
Lemma master_replace_last_wins_witness :
  exists q1 q2,
    PIB.master_replace (PIB.mk sample_pib) controller_mac = Ok q1
    /\ PIB.master_replace (PIB.mk sample_pib) other_mac = Ok q2
    /\ PIB.master_replace q1 other_mac = Ok q2.
Proof.
  apply (master_replace_last_wins (PIB.mk sample_pib) controller_mac
           other_mac).
  - vm_compute; reflexivity.
  - vm_compute; reflexivity.
  - reflexivity.
  - reflexivity.
  - apply Z.leb_le. vm_compute; reflexivity.
Defined.

(** X5, at the first twelve bytes of [short_pib] and its last four. *)
Lemma add_within_declared_size_witness :
  exists q,
    PIB.__add__ (PIB.mk (slice_to short_pib 12)) (slice_from short_pib 12)
    = Ok q
    /\ PIB._pib q = slice_to short_pib 12 ++ slice_from short_pib 12
    /\ PIB.size q = Ok 16
    /\ PIB.__add__ q []
       = PIB.__add__ (PIB.mk (slice_to short_pib 12))
           (slice_from short_pib 12 ++ []).
Proof.
  apply (proj1 (add_within_declared_size (PIB.mk (slice_to short_pib 12))
                  (slice_from short_pib 12) [] 16 eq_refl eq_refl)).
  vm_compute. discriminate.
Defined.

(** ** More of the handlers *)

(** X6, at a write confirmation that reaches a device in [DSProbingHP]. *)
Lemma homeplug_gate_witness :
  packet_homeplug 105 0xa021 [x00] (world_in (DSProbingHP 100))
  = (Ok (Some false), world_in (DSProbingHP 100)).
Proof.
  apply (homeplug_gate (world_in (DSProbingHP 100)) 105 0xa021 [x00]).
  left. vm_compute. discriminate.
Defined.

(** X7, at a read confirmation for module 3. *)
Lemma read_confirm_turned_away_witness :
  packet_homeplug 105 0xa025 foreign_confirm (world_in (DSProbingHP 100))
  = (Ok (Some false), world_in (DSProbingHP 100)).
Proof.
  apply (proj1 (read_confirm_turned_away (world_in (DSProbingHP 100)) 105
                  foreign_confirm 0 3 1024 0 eq_refl eq_refl eq_refl)).
  discriminate.
Defined.

(** X8, at a vendor frame of three bytes. *)
Lemma ether_gate_witness :
  packet_ether float_of_literal 105 [x00; x40; x01] world0
  = (Ok (Some false), world0).
Proof.
  apply (ether_gate float_of_literal world0 105 [x00; x40; x01]).
  left. vm_compute; reflexivity.
Defined.

(** X9, at the confirmation that carries the first chunk of
    [sample_pib]. *)
Lemma probe_confirm_starts_download_witness :
  packet_homeplug 105 0xa025 first_confirm (world_in (DSProbingHP 100))
  = (Ok None,
     with_self
       (set_state
          (DSReadPIB 105 0 (PIB.mk (slice first_confirm 16 (16 + 1024)))))
       (world_in (DSProbingHP 100))).
Proof.
  assert (Hst : struct.unpack_B (slice first_confirm 0 1) = Ok 0)
    by (vm_compute; reflexivity).
  assert (Hhdr : struct.unpack_BxxxBxHI (slice_to first_confirm 12)
                 = Ok (0, 2, 1024, 0))
    by (vm_compute; reflexivity).
  assert (Hck : calc_cksum (slice_from first_confirm 12) = Ok 0)
    by (vm_compute; reflexivity).
  apply (proj1 (probe_confirm_starts_download (world_in (DSProbingHP 100))
                  105 first_confirm 100 0 1024 eq_refl Hst Hhdr Hck) 12288).
  - vm_compute; reflexivity.
  - vm_compute; reflexivity.
  - vm_compute. discriminate.
Defined.

(** X10, at the confirmation that carries the second chunk of
    [sample_pib]. *)
Lemma read_confirm_continues_witness :
  packet_homeplug 105 0xa025 second_confirm
    (world_in (DSReadPIB 100 50 (PIB.mk (slice_to sample_pib 1024))))
  = (Ok None,
     with_self
       (set_state
          (DSReadPIB 100 0
             (PIB.mk (slice_to sample_pib 1024
                      ++ slice second_confirm 16 (16 + 1024)))))
       (world_in (DSReadPIB 100 50 (PIB.mk (slice_to sample_pib 1024))))).
Proof.
  assert (Hinit : PIB.__init__ (slice_to sample_pib 1024)
                  = Ok (PIB.mk (slice_to sample_pib 1024)))
    by (vm_compute; reflexivity).
  assert (Hsize : PIB.size (PIB.mk (slice_to sample_pib 1024)) = Ok 12288)
    by (vm_compute; reflexivity).
  assert (Hst : struct.unpack_B (slice second_confirm 0 1) = Ok 0)
    by (vm_compute; reflexivity).
  assert (Hhdr : struct.unpack_BxxxBxHI (slice_to second_confirm 12)
                 = Ok (0, 2, 1024,
                       PIB.__len__ (PIB.mk (slice_to sample_pib 1024))))
    by (vm_compute; reflexivity).
  assert (Hck : calc_cksum (slice_from second_confirm 12) = Ok 0)
    by (vm_compute; reflexivity).
  apply (proj1 (read_confirm_continues
                  (world_in (DSReadPIB 100 50
                               (PIB.mk (slice_to sample_pib 1024))))
                  105 second_confirm 100 50
                  (PIB.mk (slice_to sample_pib 1024)) 0 1024 12288
                  eq_refl Hinit Hsize Hst Hhdr Hck)).
  vm_compute; reflexivity.
Defined.

(** X11, at the upload of [sample_pib]: twelve chunks, twelve
    confirmations. *)
Lemma upload_takes_one_confirmation_per_chunk_witness :
  run float_of_literal (write_confirm :: more_write_confirms)
    (world_in (DSWritePIB 100 0 0 (PIB.mk sample_pib)))
  = (Ok tt,
     with_self (set_state (DSWritePIBToNVM 120 0))
       (world_in (DSWritePIB 100 0 0 (PIB.mk sample_pib)))).
Proof.
  assert (Hall : Forall write_confirmed (write_confirm :: more_write_confirms)).
  { unfold more_write_confirms. cbn [repeat].
    repeat (apply Forall_cons; [split; reflexivity|]). apply Forall_nil. }
  apply (proj2 (upload_takes_one_confirmation_per_chunk float_of_literal
                  (world_in (DSWritePIB 100 0 0 (PIB.mk sample_pib)))
                  write_confirm more_write_confirms 100 0
                  (PIB.mk sample_pib) eq_refl Hall)).
  - vm_compute; reflexivity.
  - vm_compute. discriminate.
Defined.

(** X12, at a download that hears no confirmation. *)
Lemma pib_states_stay_well_formed_witness :
  state_ok
    (state
       (self
          (snd (run float_of_literal quiet_phase
                  (world_in (DSReadPIB 100 0 (PIB.mk sample_head))))))).
Proof.
  apply (pib_states_stay_well_formed float_of_literal
           (world_in (DSReadPIB 100 0 (PIB.mk sample_head))) quiet_phase).
  vm_compute; reflexivity.
Defined.

(** ** More of the tick *)

(** X14, at a running outlet that is off and wanted on, ticked three
    times within three seconds. *)
Lemma pending_command_sent_every_tick_witness :
  exists w',
    run_ticks [100; 101; 102] (running_world (Some true) (Some false))
    = (Ok tt, w')
    /\ _sock (server w') = [on_msg; on_msg; on_msg]
    /\ state (self w') = DSRunning 102 95
    /\ want_on (self w') = Some true
    /\ ([100; 101; 102] <> [] -> device_is_on (self w') = None).
Proof.
  apply (pending_command_sent_every_tick
           (running_world (Some true) (Some false)) true [100; 101; 102]
           90 95 eq_refl eq_refl).
  discriminate.
Defined.


(** X20, at the last chunk of [sample_pib]. *)
Lemma write_request_decodes_witness :
  exists msg,
    send_hp_write_pib (world_in (DSWritePIB 100 0 11264 (PIB.mk sample_pib)))
    = (Ok tt,
       with_sent [msg] (world_in (DSWritePIB 100 0 11264 (PIB.mk sample_pib))))
    /\ slice_to msg 10
       = [x88; xe1; x00; x20; xa0; x00; xb0; x52; x02; x00]
    /\ struct.unpack_H (slice msg 10 12)
       = Ok (len (slice sample_pib 11264 (11264 + pib_chunk)))
    /\ len (slice sample_pib 11264 (11264 + pib_chunk))
       = Z.min pib_chunk (PIB.__len__ (PIB.mk sample_pib) - 11264)
    /\ struct.unpack_I (slice msg 12 16) = Ok 11264
    /\ calc_cksum (slice_from msg 16) = Ok 0
    /\ slice_from msg 20 = slice sample_pib 11264 (11264 + pib_chunk).
Proof.
  apply (write_request_decodes
           (world_in (DSWritePIB 100 0 11264 (PIB.mk sample_pib)))
           100 0 11264 (PIB.mk sample_pib) eq_refl).
  split; [vm_compute; reflexivity|].
  split; [exact (proj1 (proj2 (proj2 sample_pib_valid)))|].
  split; [split; vm_compute; discriminate | reflexivity].
Defined.

(** X21, at the download of [sample_pib] with eleven chunks read. *)
Lemma read_request_within_size_witness :
  exists msg size length,
    tick 115 (world_in (DSReadPIB 100 0 (PIB.mk sample_head)))
    = (Ok tt,
       with_self (set_state (DSReadPIB 100 115 (PIB.mk sample_head)))
         (with_sent [msg] (world_in (DSReadPIB 100 0 (PIB.mk sample_head)))))
    /\ PIB.size (PIB.mk sample_head) = Ok size
    /\ slice_to msg 10
       = [x88; xe1; x00; x24; xa0; x00; xb0; x52; x02; x00]
    /\ struct.unpack_H (slice msg 10 12) = Ok length
    /\ struct.unpack_I (slice_from msg 12)
       = Ok (PIB.__len__ (PIB.mk sample_head))
    /\ length = Z.min (size - PIB.__len__ (PIB.mk sample_head)) pib_chunk
    /\ 0 <= length /\ PIB.__len__ (PIB.mk sample_head) + length <= size.
Proof.
  apply (read_request_within_size
           (world_in (DSReadPIB 100 0 (PIB.mk sample_head))) 115 100 0
           (PIB.mk sample_head) eq_refl).
  - vm_compute; reflexivity.
  - unfold pib_abort_time. lia.
  - unfold probe_delay. lia.
Defined.

(** ** More of the vendor frames *)

(** X16, at an unsolicited message that shows the outlet on and reaches
    a device that is still probing. *)
Lemma onoff_message_effect_witness :
  exists w',
    packet_ether float_of_literal 105
      (x00 :: x40 :: x0c :: x01 :: x01 :: repeat x00 61) world0
    = (Ok None, w')
    /\ state (self w') = DSRunning 0 105
    /\ device_is_on (self w') = Some true
    /\ _datalog (server w')
       = Some [mkLogLine 105 "aa:bb:cc:dd:ee:ff"%string (Some true) None].
Proof.
  destruct (onoff_message_effect float_of_literal world0 105 x00 x0c x01
              (repeat x00 61) [] eq_refl (or_intror eq_refl) eq_refl eq_refl)
    as (w' & Hrun & Hstate & _ & Hon & _).
  destruct (Hon true eq_refl) as (His & _ & Hlog).
  exists w'. split; [exact Hrun|]. split; [exact Hstate|].
  split; [exact His | exact Hlog].
Defined.

(** X17, at the same message under a server that keeps no data log. *)
Lemma report_without_datalog_raises_witness :
  exists w',
    packet_ether float_of_literal 105
      (x00 :: x40 :: x0c :: x01 :: x01 :: repeat x00 61) world_without_log
    = (Raise AttributeError, w')
    /\ state (self w') = state (self world_without_log)
    /\ device_is_on (self w') = Some true
    /\ server w' = server world_without_log.
Proof.
  apply (report_without_datalog_raises float_of_literal world_without_log
           105 x00 x0c x01 (repeat x00 61) true eq_refl (or_intror eq_refl)
           eq_refl eq_refl eq_refl).
Defined.

(** X18, at the first report of a white outlet. *)
Lemma power_report_accepted_witness :
  receive_powerdata float_of_literal 100 white_report world0
  = (Ok tt,
     mkWorld
       (mkDevice None None "aa:bb:cc:dd:ee:ff" (DSProbing 0 0) None
          (Some "3"%string) (Some ["1.0"%string]) (Some (PStr "id"))
          (Some "12.5"%string) (Some true))
       (mkServer controller_mac
          (Some [mkLogLine 100 "aa:bb:cc:dd:ee:ff"%string (Some true)
                   (Some "12.5"%string)])
          [])).
Proof.
  exact (power_report_accepted float_of_literal world0 100 white_report
           "3"%string true "12.5"%string (PStr "id") ["1.0"%string]
           eq_refl (or_introl eq_refl) (or_introl eq_refl)
           (or_introl eq_refl)).
Defined.

(** X19, at a frame of one message with function 5. *)
Lemma unknown_functions_ignored_witness :
  packet_ether float_of_literal 105 (x00 :: x40 :: unknown_message) world0
  = (Ok None, world0).
Proof.
  apply (unknown_functions_ignored float_of_literal world0 105 x00 x40
           unknown_message).
  - reflexivity.
  - reflexivity.
  - reflexivity.
  - reflexivity.
  - intros k Hk. destruct k as [|k].
    + cbv zeta. repeat split; vm_compute; discriminate.
    + exfalso. change (len unknown_message) with 64 in Hk. lia.
Defined.

(** ** More of server.py *)

(** X23, at a frame for another station. *)
Lemma stray_frames_are_dropped_witness :
  _handle_packet float_of_literal 105 106 stray_frame table0
  = (Ok (Some false), table0).
Proof.
  apply (stray_frames_are_dropped float_of_literal table0 105 106
           stray_frame).
  left. vm_compute. discriminate.
Defined.


(** X26, at the first device of [table0]. *)
Lemma device_on_off_by_mac_witness :
  exists s',
    _device_on int16_of_digits "aa:bb:cc:dd:ee:ff" table0 = (Ok tt, s')
    /\ devices_get device_mac (_devices s')
       = Some (set_want_on (Some true) (self world0))
    /\ map fst (_devices s') = map fst (_devices table0)
    /\ (forall k, k <> device_mac ->
          devices_get k (_devices s') = devices_get k (_devices table0))
    /\ _server s' = _server table0.
Proof.
  exact (device_on_off_by_mac int16_of_digits table0 "aa:bb:cc:dd:ee:ff"
           device_mac true eq_refl).
Defined.

(** X27, at the download of [sample_pib] in twelve chunks. *)
Lemma download_assembles_pib_witness :
  exists p,
    PIB.master_replace
      (PIB.mk (slice_to sample_pib 1024 ++ concat (map snd sample_chunks)))
      controller_mac
    = Ok p
    /\ run float_of_literal sample_download (world_in (DSProbingHP 90))
       = (Ok tt,
          with_self (set_state (DSWritePIB 111 0 0 p))
            (world_in (DSProbingHP 90))).
Proof.
  apply (download_assembles_pib float_of_literal (world_in (DSProbingHP 90))
           100 (slice_to sample_pib 1024) sample_chunks sample_download 90
           eq_refl).
  - vm_compute; reflexivity.
  - vm_compute; reflexivity.
  - vm_compute; reflexivity.
  - discriminate.
  - unfold sample_chunks. cbn [map].
    repeat (apply Forall_cons; [vm_compute; discriminate|]). apply Forall_nil.
  - unfold PIB.is_valid. rewrite calc_cksum_by_words. vm_compute; reflexivity.
  - vm_compute. discriminate.
  - reflexivity.
  - apply Z.leb_le. vm_compute; reflexivity.
Defined.
